(** * M-Pesa gateway: helpers, token cache, dispatcher, callback processor,
      route handlers and middleware, embedded from the JavaScript sources.

    Conventions of the embedding
    - JavaScript strings are [string]s (byte sequences, UTF-8 as [Buffer.from]
      sees them).
    - JavaScript numbers are [number]s: NaN, the two infinities, or a finite
      value carried as a rational.  Every finite double is a rational and the
      comparisons of the language are the comparisons of the values, so a
      statement proved for every [number] holds for every double.
    - Instants ([Date.now()], [moment()]) are integers, in milliseconds.
    - A thrown exception is a value of [exn]; a function that may throw returns
      an [outcome]. *)

From Stdlib Require Import ZArith QArith Qround String Ascii List Bool Lia.
From stdpp Require Import gmap strings list fin_maps sorting.

Close Scope Q_scope.
Open Scope Z_scope.

(** ** Exceptions and results *)

Inductive exn : Type :=
| Error (message : string)
    (* [new Error(message)] *)
| TypeError
    (* raised by the runtime: property of null or undefined, call of a
       non-function, failed conversion to a primitive *)
| AxiosError (message : string) (errorMessage : option string).
    (* a rejected HTTP call; [errorMessage] is
       [error.response?.data?.errorMessage] when the provider sent one *)

(** [error.message].  The wording of a runtime TypeError belongs to the engine;
    every TypeError raised in the code below is caught and replaced before its
    message is read. *)
Definition message_of (e : exn) : string :=
  match e with
  | Error m => m
  | TypeError => "TypeError"
  | AxiosError m _ => m
  end.

Inductive outcome (A : Type) : Type :=
| Ok (a : A)
| Throw (e : exn).
Arguments Ok {A} a.
Arguments Throw {A} e.

(** ** Numbers *)

Inductive number : Type :=
| NaN
| PosInf
| NegInf
| Fin (q : Q).

Module Num.

Definition of_Z (z : Z) : number := Fin (inject_Z z).

(** [isNaN(x)] on a number. *)
Definition isNaN (x : number) : bool :=
  match x with NaN => true | _ => false end.

(** [x <= y]; every comparison with NaN is false. *)
Definition le (x y : number) : bool :=
  match x, y with
  | NaN, _ | _, NaN => false
  | NegInf, _ => true
  | _, PosInf => true
  | PosInf, _ => false
  | _, NegInf => false
  | Fin a, Fin b => Qle_bool a b
  end.

(** [x < y]. *)
Definition lt (x y : number) : bool :=
  match x, y with
  | NaN, _ | _, NaN => false
  | PosInf, _ => false
  | _, NegInf => false
  | NegInf, _ => true
  | _, PosInf => true
  | Fin a, Fin b => negb (Qle_bool b a)
  end.

Definition ge (x y : number) : bool := le y x.
Definition gt (x y : number) : bool := lt y x.

(** [!x]: a number is falsy when it is NaN or zero. *)
Definition falsy (x : number) : bool :=
  match x with
  | NaN => true
  | Fin q => Qeq_bool q 0
  | _ => false
  end.

(** [x === 0]. *)
Definition is_zero (x : number) : bool :=
  match x with Fin q => Qeq_bool q 0 | _ => false end.

(** [Math.round(x)]: the integer nearest to [x], ties towards +infinity. *)
Definition round (x : number) : number :=
  match x with
  | Fin q => Fin (inject_Z (Qfloor (q + (1 # 2))%Q))
  | _ => x
  end.

(** The number is an integer value. *)
Definition is_integer (x : number) : bool :=
  match x with
  | Fin q => Qeq_bool q (inject_Z (Qfloor q))
  | _ => false
  end.

End Num.

(** ** Strings *)

Module Str.

(** [\d] of a regular expression. *)
Definition is_digit (c : ascii) : bool :=
  (("0" <=? c) && (c <=? "9"))%char.

Fixpoint filter (p : ascii -> bool) (s : string) : string :=
  match s with
  | EmptyString => EmptyString
  | String c rest => if p c then String c (filter p rest) else filter p rest
  end.

Fixpoint forallb (p : ascii -> bool) (s : string) : bool :=
  match s with
  | EmptyString => true
  | String c rest => p c && forallb p rest
  end.

(** [s.startsWith(p)]. *)
Definition startsWith (s p : string) : bool := String.prefix p s.

(** [s.substring(n)]: the suffix from index [n]. *)
Fixpoint substring_from (n : nat) (s : string) : string :=
  match n, s with
  | O, _ => s
  | S n', String _ rest => substring_from n' rest
  | S _, EmptyString => EmptyString
  end.

(** [s.includes(p)]. *)
Fixpoint includes (s p : string) : bool :=
  String.prefix p s ||
  match s with
  | EmptyString => false
  | String _ rest => includes rest p
  end.

Definition lower (c : ascii) : ascii :=
  if (("A" <=? c) && (c <=? "Z"))%char
  then ascii_of_nat (nat_of_ascii c + 32)
  else c.

(** [s.toLowerCase()], on the ASCII letters. *)
Fixpoint toLowerCase (s : string) : string :=
  match s with
  | EmptyString => EmptyString
  | String c rest => String (lower c) (toLowerCase rest)
  end.

(** Truthiness of a string: non-empty. *)
Definition truthy (s : string) : bool :=
  match s with EmptyString => false | _ => true end.

End Str.

(** ** src/utils/helpers.js *)

Module Base64.

(** The standard alphabet used by [Buffer.prototype.toString('base64')]. *)
Definition alphabet : string :=
  "ABCDEFGHIJKLMNOPQRSTUVWXYZabcdefghijklmnopqrstuvwxyz0123456789+/".

(** A group of six bits, most significant first. *)
Definition sextet : Type := (bool * bool * bool * bool * bool * bool)%type.

Definition sextet_index (s : sextet) : nat :=
  let '(b5, b4, b3, b2, b1, b0) := s in
  (Nat.b2n b5 * 32 + Nat.b2n b4 * 16 + Nat.b2n b3 * 8
   + Nat.b2n b2 * 4 + Nat.b2n b1 * 2 + Nat.b2n b0)%nat.

Definition digit (s : sextet) : ascii :=
  match String.get (sextet_index s) alphabet with
  | Some c => c
  | None => "="%char
  end.

Definition pad : ascii := "="%char.

(** Three bytes give four digits. *)
Definition enc3 (x y z : ascii) : list ascii :=
  let '(Ascii x0 x1 x2 x3 x4 x5 x6 x7) := x in
  let '(Ascii y0 y1 y2 y3 y4 y5 y6 y7) := y in
  let '(Ascii z0 z1 z2 z3 z4 z5 z6 z7) := z in
  [ digit (x7, x6, x5, x4, x3, x2);
    digit (x1, x0, y7, y6, y5, y4);
    digit (y3, y2, y1, y0, z7, z6);
    digit (z5, z4, z3, z2, z1, z0) ].

(** Two trailing bytes give three digits and one pad. *)
Definition enc2 (x y : ascii) : list ascii :=
  let '(Ascii x0 x1 x2 x3 x4 x5 x6 x7) := x in
  let '(Ascii y0 y1 y2 y3 y4 y5 y6 y7) := y in
  [ digit (x7, x6, x5, x4, x3, x2);
    digit (x1, x0, y7, y6, y5, y4);
    digit (y3, y2, y1, y0, false, false);
    pad ].

(** One trailing byte gives two digits and two pads. *)
Definition enc1 (x : ascii) : list ascii :=
  let '(Ascii x0 x1 x2 x3 x4 x5 x6 x7) := x in
  [ digit (x7, x6, x5, x4, x3, x2);
    digit (x1, x0, false, false, false, false);
    pad; pad ].

Fixpoint encode_bytes (l : list ascii) : list ascii :=
  match l with
  | [] => []
  | [x] => enc1 x
  | [x; y] => enc2 x y
  | x :: y :: z :: rest => enc3 x y z ++ encode_bytes rest
  end.

(** [Buffer.from(s).toString('base64')]. *)
Definition encode (s : string) : string :=
  string_of_list_ascii (encode_bytes (list_ascii_of_string s)).

End Base64.

(** [generatePassword(businessShortCode, passkey, timestamp)]. *)
Definition generatePassword (businessShortCode passkey timestamp : string) : string :=
  let password := businessShortCode +:+ passkey +:+ timestamp in
  Base64.encode password.

(** The test [formatted.match(/^254[0-9]{9}$/)]. *)
Definition matches_254_9digits (s : string) : bool :=
  Str.startsWith s "254"
  && Nat.eqb (String.length s) 12
  && Str.forallb Str.is_digit (Str.substring_from 3 s).

(** [formatPhoneNumber(phoneNumber)]. *)
Definition formatPhoneNumber (phoneNumber : string) : outcome string :=
  (* phoneNumber.replace(/\D/g, '') *)
  let formatted := Str.filter Str.is_digit phoneNumber in
  let formatted :=
    if Str.startsWith formatted "0" then
      "254" +:+ Str.substring_from 1 formatted
    else if Str.startsWith formatted "712" || Str.startsWith formatted "722"
            || Str.startsWith formatted "733" then
      "254" +:+ formatted
    else if Str.startsWith formatted "+254" then
      Str.substring_from 1 formatted
    else formatted in
  if negb (matches_254_9digits formatted) then
    Throw (Error "Invalid phone number format. Use 254XXXXXXXXX format")
  else Ok formatted.

(** [isValidAmount(amount)]; the parameter is declared a number. *)
Definition isValidAmount (amount : number) : bool :=
  negb (Num.isNaN amount) && Num.ge amount (Num.of_Z 1) && Num.le amount (Num.of_Z 70000).


(** ** JavaScript values

    What [JSON.parse] produces (the body of a request), plus [undefined].
    [VObj] lists the own properties of an object. *)

#[warnings="-register-all"]
Inductive value : Type :=
| VUndefined
| VNull
| VBool (b : bool)
| VNum (n : number)
| VStr (s : string)
| VArr (items : list value)
| VObj (props : list (string * value)).

Module Js.

Fixpoint assoc (k : string) (props : list (string * value)) : option value :=
  match props with
  | [] => None
  | (k', v) :: rest => if String.eqb k k' then Some v else assoc k rest
  end.

Definition has_own (k : string) (props : list (string * value)) : bool :=
  match assoc k props with Some _ => true | None => false end.

(** [v.k] (and the destructuring [const { k } = v]) for a name [k] that no
    built-in prototype defines, which is the case of every name read by the
    callback processor: null and undefined have no properties, an object
    answers with its own property, anything else with undefined. *)
Definition getProp (v : value) (k : string) : outcome value :=
  match v with
  | VUndefined | VNull => Throw TypeError
  | VObj props =>
      Ok (match assoc k props with Some x => x | None => VUndefined end)
  | _ => Ok VUndefined
  end.

Definition nullish (v : value) : bool :=
  match v with VUndefined | VNull => true | _ => false end.

(** [v === 0]. *)
Definition strict_eq_zero (v : value) : bool :=
  match v with VNum n => Num.is_zero n | _ => false end.

(** [v === s] for a string literal [s]. *)
Definition strict_eq_str (v : value) (s : string) : bool :=
  match v with VStr s' => String.eqb s' s | _ => false end.

Section ToString.
(** [Number::toString], the runtime's rendering of a number. *)
Variable NumberToString : number -> string.

(** [ToString(v)], which is also [ToPropertyKey(v)] for these values.
    An array is joined with commas, null and undefined elements giving the
    empty string; an object gives "[object Object]" unless an own
    property hides [Object.prototype.toString] (such a property is never
    callable here, and the conversion fails). *)
Fixpoint ToString (v : value) : outcome string :=
  match v with
  | VUndefined => Ok "undefined"
  | VNull => Ok "null"
  | VBool true => Ok "true"
  | VBool false => Ok "false"
  | VNum n => Ok (NumberToString n)
  | VStr s => Ok s
  | VArr items =>
      (fix join (l : list value) : outcome string :=
         match l with
         | [] => Ok ""
         | x :: rest =>
             match (if nullish x then Ok "" else ToString x) with
             | Throw e => Throw e
             | Ok sx =>
                 match rest with
                 | [] => Ok sx
                 | _ :: _ =>
                     match join rest with
                     | Throw e => Throw e
                     | Ok sr => Ok (sx +:+ "," +:+ sr)
                     end
                 end
             end
         end) items
  | VObj props =>
      if has_own "toString" props then Throw TypeError
      else Ok "[object Object]"
  end.
End ToString.

(** An object under construction ([const paymentData = {}]): its own
    properties and its prototype.  The prototype is [Object.prototype], with
    which every object literal starts, or what an assignment to [__proto__]
    has put in its place: [null], or an object or an array of the parsed
    request, whose own prototype chain ends in [Object.prototype]. *)
Inductive prototype : Type :=
| ObjectPrototype
| NullPrototype
| ValuePrototype (v : value).

Record object : Type := {
  own : gmap string value;
  proto : prototype
}.

(** [{}]. *)
Definition empty_object : object := {| own := ∅; proto := ObjectPrototype |}.

(** Whether an assignment to [__proto__] on the object reaches the accessor
    that [Object.prototype] defines under that name: the object has no own
    property of the name, and neither has a parsed object standing as its
    prototype (a parsed object holds the key [__proto__] as an own data
    property); with the prototype [null] nothing is inherited. *)
Definition reaches_accessor (o : object) : bool :=
  match own o !! "__proto__" with
  | Some _ => false
  | None =>
      match proto o with
      | ObjectPrototype => true
      | NullPrototype => false
      | ValuePrototype (VObj props) => negb (has_own "__proto__" props)
      | ValuePrototype _ => true
      end
  end.

(** [o[k] = v].  Every inherited property but the accessor [__proto__] is a
    writable data property, so the assignment creates or updates an own
    property; through the accessor it replaces the prototype when [v] is an
    object, an array or [null], and does nothing otherwise. *)
Definition setProp (o : object) (k : string) (v : value) : object :=
  if String.eqb k "__proto__" && reaches_accessor o then
    match v with
    | VObj _ | VArr _ => {| own := own o; proto := ValuePrototype v |}
    | VNull => {| own := own o; proto := NullPrototype |}
    | _ => o
    end
  else {| own := <[k := v]> (own o); proto := proto o |}.

End Js.

(** ** Effects: the clock and the HTTP client

    A computation is a tree of requests to the outside world.  [Moment] reads
    the wall clock ([moment()]); [AxiosGet] and [AxiosPost] are the two HTTP
    calls.  The answers come from an [oracle] when the tree is run, and every
    request is recorded in a trace. *)

(** The data of a credential-exchange response: [data.access_token]
    (absent when [None]) and [data.expires_in], a whole number of seconds. *)
Record auth_data : Type := {
  access_token : option string;
  expires_in : Z
}.

(** The data of a payment-initiation response; a field is a string or absent. *)
Record stk_data : Type := {
  MerchantRequestID : option string;
  CheckoutRequestID : option string;
  ResponseCode : option string;
  ResponseDescription : option string;
  CustomerMessage : option string
}.

Inductive io (A : Type) : Type :=
| Ret (a : A)
| Moment (k : Z -> io A)
| AxiosGet (url authorization : string) (k : outcome auth_data -> io A)
| AxiosPost (url authorization : string) (payload : value)
    (k : outcome stk_data -> io A).
Arguments Ret {A} a.
Arguments Moment {A} k.
Arguments AxiosGet {A} url authorization k.
Arguments AxiosPost {A} url authorization payload k.

Fixpoint io_bind {A B : Type} (m : io A) (f : A -> io B) : io B :=
  match m with
  | Ret a => f a
  | Moment k => Moment (fun t => io_bind (k t) f)
  | AxiosGet u a k => AxiosGet u a (fun r => io_bind (k r) f)
  | AxiosPost u a p k => AxiosPost u a p (fun r => io_bind (k r) f)
  end.

Inductive event : Type :=
| EvMoment (t : Z)
| EvGet (url authorization : string) (reply : outcome auth_data)
| EvPost (url authorization : string) (payload : value) (reply : outcome stk_data).

(** The trace lists the events so far, the most recent first. *)
Definition trace : Type := list event.

Record oracle : Type := {
  clock : trace -> Z;
  get_reply : trace -> string -> string -> outcome auth_data;
  post_reply : trace -> string -> string -> value -> outcome stk_data
}.

Fixpoint run {A : Type} (o : oracle) (m : io A) (tr : trace) : A * trace :=
  match m with
  | Ret a => (a, tr)
  | Moment k =>
      let t := clock o tr in run o (k t) (EvMoment t :: tr)
  | AxiosGet u a k =>
      let r := get_reply o tr u a in run o (k r) (EvGet u a r :: tr)
  | AxiosPost u a p k =>
      let r := post_reply o tr u a p in run o (k r) (EvPost u a p r :: tr)
  end.

Definition is_get (e : event) : bool :=
  match e with EvGet _ _ _ => true | _ => false end.

(** Number of credential-exchange calls recorded in a trace. *)
Definition network_gets (tr : trace) : nat := length (List.filter is_get tr).

(** Payloads POSTed, the most recent first. *)
Fixpoint posted (tr : trace) : list value :=
  match tr with
  | [] => []
  | EvPost _ _ p _ :: rest => p :: posted rest
  | _ :: rest => posted rest
  end.

(** ** The service object and its methods' monad

    [MpesaService] holds the configuration read by the constructor and the two
    cache fields.  A method is a function of the object that performs effects
    and ends with a result or an exception, and with the object as the method
    left it (an assignment made before a throw stays made). *)

Record MpesaService : Type := {
  consumerKey : string;
  consumerSecret : string;
  businessShortCode : string;
  passkey : string;
  callbackUrl : string;
  accountReference : string;
  transactionDesc : string;
  authUrl : string;
  stkPushUrl : string;
  queryUrl : string;
  accessToken : option string;   (* [null] when [None] *)
  tokenExpiry : option Z         (* [null] when [None]; else an instant *)
}.

Definition set_accessToken (tok : option string) (this : MpesaService) : MpesaService :=
  {| consumerKey := consumerKey this; consumerSecret := consumerSecret this;
     businessShortCode := businessShortCode this; passkey := passkey this;
     callbackUrl := callbackUrl this; accountReference := accountReference this;
     transactionDesc := transactionDesc this; authUrl := authUrl this;
     stkPushUrl := stkPushUrl this; queryUrl := queryUrl this;
     accessToken := tok; tokenExpiry := tokenExpiry this |}.

Definition set_tokenExpiry (exp : option Z) (this : MpesaService) : MpesaService :=
  {| consumerKey := consumerKey this; consumerSecret := consumerSecret this;
     businessShortCode := businessShortCode this; passkey := passkey this;
     callbackUrl := callbackUrl this; accountReference := accountReference this;
     transactionDesc := transactionDesc this; authUrl := authUrl this;
     stkPushUrl := stkPushUrl this; queryUrl := queryUrl this;
     accessToken := accessToken this; tokenExpiry := exp |}.

Definition M (A : Type) : Type := MpesaService -> io (outcome A * MpesaService).

Module Eff.

Definition ret {A} (a : A) : M A := fun this => Ret (Ok a, this).

Definition bind {A B} (m : M A) (f : A -> M B) : M B :=
  fun this =>
    io_bind (m this) (fun r =>
      match r with
      | (Ok a, this') => f a this'
      | (Throw e, this') => Ret (Throw e, this')
      end).

Definition throw {A} (e : exn) : M A := fun this => Ret (Throw e, this).

(** [try { m } catch (error) { h error }]. *)
Definition try_catch {A} (m : M A) (h : exn -> M A) : M A :=
  fun this =>
    io_bind (m this) (fun r =>
      match r with
      | (Ok a, this') => Ret (Ok a, this')
      | (Throw e, this') => h e this'
      end).

Definition lift {A} (r : outcome A) : M A := fun this => Ret (r, this).

Definition get_this : M MpesaService := fun this => Ret (Ok this, this).

Definition modify (f : MpesaService -> MpesaService) : M unit :=
  fun this => Ret (Ok tt, f this).

(** [moment()]. *)
Definition moment : M Z := fun this => Moment (fun t => Ret (Ok t, this)).

(** [await axios.get(url, { headers: { Authorization } })]. *)
Definition axios_get (url authorization : string) : M auth_data :=
  fun this => AxiosGet url authorization (fun r => Ret (r, this)).

(** [await axios.post(url, payload, { headers: { Authorization } })]. *)
Definition axios_post (url authorization : string) (payload : value) : M stk_data :=
  fun this => AxiosPost url authorization payload (fun r => Ret (r, this)).

End Eff.

#[global] Instance M_ret : MRet M := @Eff.ret.
#[global] Instance M_bind : MBind M := fun A B f m => Eff.bind m f.

(** Running a method on an object from a given history. *)
Definition exec {A} (o : oracle) (m : M A) (this : MpesaService) (tr : trace)
  : outcome A * MpesaService * trace :=
  run o (m this) tr.

#[global] Instance outcome_ret : MRet outcome := @Ok.
#[global] Instance outcome_bind : MBind outcome :=
  fun A B f r => match r with Ok a => f a | Throw e => Throw e end.

(** ** services/mpesaService.js *)

(** The normalized record built by [processCallback].  [timestamp] is the
    instant that [moment().toISOString()] renders; [paymentData] is set only
    on the success path. *)
Record callback_result : Type := {
  merchantRequestID : value;
  checkoutRequestID : value;
  resultCode : value;
  resultDesc : value;
  timestamp : Z;
  paymentData : option Js.object;
  status : string
}.

(** What [initiateSTKPush] returns on success. *)
Record push_data : Type := {
  push_merchantRequestID : option string;
  push_checkoutRequestID : option string;
  responseCode : option string;
  responseDescription : option string;
  customerMessage : option string
}.

Record push_result : Type := {
  push_success : bool;
  push_message : string;
  push_data_of : push_data
}.

(** [a || b] on a string that may be absent. *)
Definition or_else (a : option string) (b : string) : string :=
  match a with
  | Some s => if Str.truthy s then s else b
  | None => b
  end.

(** [a === s] for a string literal [s], on a string that may be absent. *)
Definition is_string (a : option string) (s : string) : bool :=
  match a with
  | Some x => String.eqb x s
  | None => false
  end.

Module Service.

(** [async getAccessToken()]. *)
Definition getAccessToken : M string :=
  Eff.try_catch
    (this ← Eff.get_this;
     (* this.accessToken && this.tokenExpiry && moment().isBefore(this.tokenExpiry) *)
     valid ← match accessToken this, tokenExpiry this with
             | Some tok, Some expiry =>
                 if Str.truthy tok
                 then now ← Eff.moment; mret (Z.ltb now expiry)
                 else mret false
             | _, _ => mret false
             end;
     if (valid : bool) then
       mret (match accessToken this with Some tok => tok | None => EmptyString end)
     else
       let auth := Base64.encode (consumerKey this +:+ ":" +:+ consumerSecret this) in
       response ← Eff.axios_get (authUrl this) ("Basic " +:+ auth);
       match access_token response with
       | Some tok =>
           if Str.truthy tok then
             Eff.modify (set_accessToken (Some tok));;
             now ← Eff.moment;
             Eff.modify (set_tokenExpiry (Some (now + (expires_in response - 60) * 1000)%Z));;
             mret tok
           else Eff.throw (Error "Failed to obtain access token")
       | None => Eff.throw (Error "Failed to obtain access token")
       end)
    (fun error => Eff.throw (Error "Failed to authenticate with M-Pesa API")).

(** The local variable [transactionType] of [initiateSTKPush]. *)
Definition transactionType (reference : option string) : string :=
  match reference with
  | Some r =>
      if Str.truthy r && Str.includes (Str.toLowerCase r) "till"
      then "CustomerBuyGoodsOnline"
      else "CustomerPayBillOnline"
  | None => "CustomerPayBillOnline"
  end.

Section Dispatch.
(** [moment().format('YYYYMMDDHHmmss')] of an instant (local calendar). *)
Variable formatTimestamp : Z -> string.

(** [async initiateSTKPush(phoneNumber, amount, accountReference = null,
    transactionDesc = null)]; the last two parameters are [reference] and
    [description] here. *)
Definition initiateSTKPush (phoneNumber : string) (amount : number)
    (reference description : option string) : M push_result :=
  Eff.try_catch
    (this ← Eff.get_this;
     if negb (Str.truthy phoneNumber) || Num.falsy amount then
       Eff.throw (Error "Phone number and amount are required")
     else
       let transactionType := transactionType reference in
       formattedPhone ← Eff.lift (formatPhoneNumber phoneNumber);
       if Num.lt amount (Num.of_Z 1) || Num.gt amount (Num.of_Z 70000) then
         Eff.throw (Error "Amount must be between 1 and 70,000 KES")
       else
         accessToken ← getAccessToken;
         now ← Eff.moment;
         let timestamp := formatTimestamp now in
         let password :=
           generatePassword (businessShortCode this) (passkey this) timestamp in
         let payload := VObj [
           ("BusinessShortCode", VStr (businessShortCode this));
           ("Password", VStr password);
           ("Timestamp", VStr timestamp);
           ("TransactionType", VStr "CustomerPayBillOnline");
           ("Amount", VNum (Num.round amount));
           ("PartyA", VStr formattedPhone);
           ("PartyB", VStr (businessShortCode this));
           ("PhoneNumber", VStr formattedPhone);
           ("CallBackURL", VStr (callbackUrl this));
           ("AccountReference", VStr (or_else reference (accountReference this)));
           ("TransactionDesc", VStr (or_else description (transactionDesc this)))
         ] in
         response ← Eff.axios_post (stkPushUrl this) ("Bearer " +:+ accessToken) payload;
         if is_string (ResponseCode response) "0" then
             mret {| push_success := true;
                     push_message := "STK Push initiated successfully";
                     push_data_of := {|
                       push_merchantRequestID := MerchantRequestID response;
                       push_checkoutRequestID := CheckoutRequestID response;
                       responseCode := ResponseCode response;
                       responseDescription := ResponseDescription response;
                       customerMessage := CustomerMessage response |} |}
         else
             Eff.throw (Error (or_else (ResponseDescription response) "STK Push failed")))
    (fun error =>
       match error with
       | AxiosError _ (Some errorMessage) =>
           if Str.truthy errorMessage then Eff.throw (Error errorMessage)
           else Eff.throw (Error (or_else (Some (message_of error))
                                          "Failed to initiate STK Push"))
       | _ =>
           Eff.throw (Error (or_else (Some (message_of error))
                                     "Failed to initiate STK Push"))
       end).
End Dispatch.

Section Callback.
Variable NumberToString : number -> string.

(** The body of the [forEach] callback: one metadata item folded into
    [paymentData]. *)
Definition fold_item (paymentData : Js.object) (item : value)
  : outcome Js.object :=
  name ← Js.getProp item "Name";
  if Js.strict_eq_str name "Amount" then
    v ← Js.getProp item "Value"; mret (Js.setProp paymentData "amount" v)
  else if Js.strict_eq_str name "MpesaReceiptNumber" then
    v ← Js.getProp item "Value"; mret (Js.setProp paymentData "mpesaReceiptNumber" v)
  else if Js.strict_eq_str name "TransactionDate" then
    v ← Js.getProp item "Value"; mret (Js.setProp paymentData "transactionDate" v)
  else if Js.strict_eq_str name "PhoneNumber" then
    v ← Js.getProp item "Value"; mret (Js.setProp paymentData "phoneNumber" v)
  else
    v ← Js.getProp item "Value";
    key ← Js.ToString NumberToString name;
    mret (Js.setProp paymentData key v).

Fixpoint fold_items (paymentData : Js.object) (l : list value)
  : outcome Js.object :=
  match l with
  | [] => Ok paymentData
  | item :: rest =>
      match fold_item paymentData item with
      | Ok paymentData' => fold_items paymentData' rest
      | Throw e => Throw e
      end
  end.

(** [items.forEach(item => ...)] starting from [paymentData = {}]: only an
    array has a callable [forEach]. *)
Definition forEach_items (items : value) : outcome Js.object :=
  match items with
  | VArr l => fold_items Js.empty_object l
  | _ => Throw TypeError
  end.

(** [async processCallback(callbackData)]. *)
Definition processCallback (callbackData : value) : M callback_result :=
  Eff.try_catch
    (Body ← Eff.lift (Js.getProp callbackData "Body");
     stkCallback ← Eff.lift (Js.getProp Body "stkCallback");
     mrid ← Eff.lift (Js.getProp stkCallback "MerchantRequestID");
     crid ← Eff.lift (Js.getProp stkCallback "CheckoutRequestID");
     code ← Eff.lift (Js.getProp stkCallback "ResultCode");
     desc ← Eff.lift (Js.getProp stkCallback "ResultDesc");
     now ← Eff.moment;
     if Js.strict_eq_zero code then
       callbackMetadata ← Eff.lift (Js.getProp stkCallback "CallbackMetadata");
       items ← Eff.lift (Js.getProp callbackMetadata "Item");
       paymentData ← Eff.lift (forEach_items items);
       mret {| merchantRequestID := mrid; checkoutRequestID := crid;
               resultCode := code; resultDesc := desc; timestamp := now;
               paymentData := Some paymentData; status := "SUCCESS" |}
     else
       mret {| merchantRequestID := mrid; checkoutRequestID := crid;
               resultCode := code; resultDesc := desc; timestamp := now;
               paymentData := None; status := "FAILED" |})
    (fun error => Eff.throw (Error "Failed to process M-Pesa callback")).
End Callback.

End Service.

(** ** controllers/mpesaController.js *)

Module Controller.

(** The JSON body sent by [handleCallback]. *)
Record envelope : Type := {
  success : bool;
  message : string;
  data : option callback_result;
  error : option string
}.

(** [res.status(code).json(body)]. *)
Record response : Type := {
  statusCode : Z;
  body : envelope
}.

Section Callback.
Variable NumberToString : number -> string.

(** [async handleCallback(req, res)], as a function of [req.body]. *)
Definition handleCallback (req_body : value) : M response :=
  Eff.try_catch
    (result ← Service.processCallback NumberToString req_body;
     mret {| statusCode := 200;
             body := {| success := true;
                        message := "Callback processed successfully";
                        data := Some result;
                        error := None |} |})
    (fun err =>
       mret {| statusCode := 200;
               body := {| success := false;
                          message := "Callback processing failed";
                          data := None;
                          error := Some (message_of err) |} |}).
End Callback.

End Controller.

(** ** The rate-limiting middleware *)

Module Middleware.

(** What the limiter reads of a request: [req.ip] and
    [req.connection.remoteAddress], each possibly undefined. *)
Record request : Type := {
  ip : option string;
  remoteAddress : option string
}.

(** [req.ip || req.connection.remoteAddress]; [None] is undefined. *)
Definition clientIp (req : request) : option string :=
  match ip req with
  | Some s => if Str.truthy s then Some s else remoteAddress req
  | None => remoteAddress req
  end.

(** The [data] of the 429 body; [remainingTime] is [None] for NaN. *)
Record limit_data : Type := {
  limit : Z;
  windowMs : Z;
  remainingTime : option Z
}.

Inductive verdict : Type :=
| Next
| Respond (status : Z) (success : bool) (message : string) (data : limit_data).

(** [Math.ceil(x / 1000)] for an integer [x]. *)
Definition ceil_seconds (x : Z) : Z := (- ((- x) / 1000))%Z.

(** [cleanupRateLimitStore(windowStart)]. *)
Definition cleanupRateLimitStore (windowStart : Z)
    (rateLimitStore : gmap (option string) (list Z)) : gmap (option string) (list Z) :=
  omap (fun requests : list Z =>
          let validRequests := filter (fun requestTime => (windowStart < requestTime)%Z) requests in
          if Nat.eqb (length validRequests) 0 then None else Some validRequests)
       rateLimitStore.

(** The middleware returned by [rateLimit(maxRequests, windowMs)], as a
    function of the request, of the two readings [Date.now()] and
    [Math.random()], and of the module-level [rateLimitStore]. *)
Definition rateLimit (maxRequests windowMs : Z) (req : request)
    (currentTime : Z) (random : Q)
    (rateLimitStore : gmap (option string) (list Z))
  : verdict * gmap (option string) (list Z) :=
  let clientIp := clientIp req in
  let windowStart := (currentTime - windowMs)%Z in
  let clientRecord := default [] (rateLimitStore !! clientIp) in
  let clientRecord := filter (fun requestTime => (windowStart < requestTime)%Z) clientRecord in
  if Z.leb maxRequests (Z.of_nat (length clientRecord)) then
    (Respond 429 false "Too many requests, please try again later"
       {| limit := maxRequests;
          windowMs := windowMs;
          remainingTime :=
            match clientRecord with
            | oldest :: _ => Some (ceil_seconds (oldest + windowMs - currentTime)%Z)
            | [] => None
            end |},
     rateLimitStore)
  else
    let clientRecord := clientRecord ++ [currentTime] in
    let rateLimitStore := <[clientIp := clientRecord]> rateLimitStore in
    let rateLimitStore :=
      if negb (Qle_bool (1 # 10) random)
      then cleanupRateLimitStore windowStart rateLimitStore
      else rateLimitStore in
    (Next, rateLimitStore).

(** [rateLimit()] with the default parameters. *)
Definition rateLimit_default := rateLimit 100 (15 * 60 * 1000)%Z.

End Middleware.

(** ** Vocabulary of the specification *)

(** A string all of whose characters are decimal digits. *)
Definition all_digits (s : string) : Prop :=
  forall c, In c (list_ascii_of_string s) -> Str.is_digit c = true.

(** The canonical form of a subscriber number: twelve digits, the first three
    being the country code 254 (the language of [^254[0-9]{9}$]). *)
Definition canonical_msisdn (s : string) : Prop :=
  String.length s = 12%nat /\ (exists d, s = "254" +:+ d) /\ all_digits s.

(** The two states of the token cache.  The object is VALID when both fields
    are set and the token is a non-empty string; this is the test of
    [getAccessToken] without its clock reading. *)
Inductive cache_state : Type :=
| EMPTY
| VALID (token : string) (expiry : Z).

Definition cached (this : MpesaService) : cache_state :=
  match accessToken this, tokenExpiry this with
  | Some tok, Some expiry => if Str.truthy tok then VALID tok expiry else EMPTY
  | _, _ => EMPTY
  end.

(** A credential exchange that does not deliver a token: the call is rejected,
    or its data carries no (non-empty) [access_token]. *)
Definition exchange_failed (reply : outcome auth_data) : bool :=
  match reply with
  | Throw _ => true
  | Ok d => negb (Str.truthy (or_else (access_token d) EmptyString))
  end.

(** The authorization header of the credential exchange. *)
Definition basic_auth (this : MpesaService) : string :=
  "Basic " +:+ Base64.encode (consumerKey this +:+ ":" +:+ consumerSecret this).

(** The cache does not answer at the instant [now]: it is EMPTY, or its
    expiry is not after [now]. *)
Definition stale (this : MpesaService) (now : Z) : Prop :=
  match cached this with
  | VALID _ expiry => (expiry <= now)%Z
  | EMPTY => True
  end.

(** The history at the point where [getAccessToken] attempts the exchange,
    when it does: the clock has been read once if the cache was VALID. *)
Definition refresh_history (o : oracle) (this : MpesaService) (tr : trace) : trace :=
  match cached this with
  | VALID _ _ => EvMoment (clock o tr) :: tr
  | EMPTY => tr
  end.

(** The reply of the authorization endpoint to that exchange. *)
Definition refresh_reply (o : oracle) (this : MpesaService) (tr : trace)
  : outcome auth_data :=
  get_reply o (refresh_history o this tr) (authUrl this) (basic_auth this).

(** The call ended with an exception. *)
Definition raised {A : Type} (r : outcome A) : bool :=
  match r with
  | Throw _ => true
  | Ok _ => false
  end.

(** The expected nested shape of a notification: an object whose [Body] is an
    object whose [stkCallback] is present (and not null). *)
Definition stkCallback_of (callbackData : value) : option value :=
  match callbackData with
  | VObj props =>
      match Js.assoc "Body" props with
      | Some (VObj bprops) => Js.assoc "stkCallback" bprops
      | _ => None
      end
  | _ => None
  end.

Definition has_shape (callbackData : value) : bool :=
  match stkCallback_of callbackData with
  | Some stk => negb (Js.nullish stk)
  | None => false
  end.

(** A field of a value that has properties, undefined when missing. *)
Definition field (v : value) (k : string) : value :=
  match v with
  | VObj props => match Js.assoc k props with Some x => x | None => VUndefined end
  | _ => VUndefined
  end.

(** The result code of a notification that has the shape. *)
Definition result_code (callbackData : value) : value :=
  match stkCallback_of callbackData with
  | Some stk => field stk "ResultCode"
  | None => VUndefined
  end.

(** A value that converts to a property name: no object hiding
    [Object.prototype.toString] is met, directly or through arrays. *)
Fixpoint key_convertible (v : value) : bool :=
  match v with
  | VArr items =>
      (fix all (l : list value) : bool :=
         match l with
         | [] => true
         | x :: rest => key_convertible x && all rest
         end) items
  | VObj props => negb (Js.has_own "toString" props)
  | _ => true
  end.

(** A metadata item that the processor can fold: not null, with a name that
    converts to a property name. *)
Definition item_ok (item : value) : bool :=
  negb (Js.nullish item) && key_convertible (field item "Name").

(** The metadata of a notification can be folded: [CallbackMetadata] is
    present and its [Item] is an array of foldable items. *)
Definition metadata_ok (callbackData : value) : bool :=
  match stkCallback_of callbackData with
  | Some stk =>
      match field stk "CallbackMetadata" with
      | VObj mprops =>
          match Js.assoc "Item" mprops with
          | Some (VArr items) => forallb item_ok items
          | _ => false
          end
      | _ => false
      end
  | None => false
  end.

(** The success branch of [processCallback] on the [stkCallback] object: the
    metadata items folded into [paymentData]. *)
Definition metadata_of (NumberToString : number -> string) (stk : value)
  : outcome Js.object :=
  callbackMetadata ← Js.getProp stk "CallbackMetadata";
  items ← Js.getProp callbackMetadata "Item";
  Service.forEach_items NumberToString items.

(** Timestamps of a record inside the window that ends at [now]. *)
Definition in_window (now w : Z) (record : list Z) : list Z :=
  filter (fun t => (now - w < t <= now)%Z) record.

(** The record of a client in the store (empty when absent). *)
Definition record_of (store : gmap (option string) (list Z)) (client : option string)
  : list Z :=
  default [] (store !! client).

(** A record written under a clock that never runs backwards: timestamps in
    order of arrival, none later than [now]. *)
Definition chronological (now : Z) (record : list Z) : Prop :=
  StronglySorted Z.le record /\ Forall (fun t => (t <= now)%Z) record.

(** Every record of the store is chronological. *)
Definition store_chronological (now : Z) (store : gmap (option string) (list Z)) : Prop :=
  forall client, chronological now (record_of store client).

(** A sequence of requests handled by one limiter: each request comes with
    the readings of the clock and of the random source made while handling
    it.  The verdicts are returned in order, with the final store. *)
Fixpoint serve (maxRequests windowMs : Z)
    (requests : list (Middleware.request * Z * Q))
    (store : gmap (option string) (list Z))
  : list Middleware.verdict * gmap (option string) (list Z) :=
  match requests with
  | [] => ([], store)
  | (req, currentTime, random) :: rest =>
      let '(v, store1) :=
        Middleware.rateLimit maxRequests windowMs req currentTime random store in
      let '(vs, store2) := serve maxRequests windowMs rest store1 in
      (v :: vs, store2)
  end.

(** ** Sample objects and oracles for the examples *)

Module Sample.

(** A freshly constructed service: configuration set, cache empty. *)
Definition service : MpesaService := {|
  consumerKey := "key";
  consumerSecret := "secret";
  businessShortCode := "174379";
  passkey := "bfb279";
  callbackUrl := "https://shop.test/api/mpesa/callback";
  accountReference := "Shop";
  transactionDesc := "Payment";
  authUrl := "https://provider.test/oauth";
  stkPushUrl := "https://provider.test/stkpush";
  queryUrl := "https://provider.test/query";
  accessToken := None;
  tokenExpiry := None
|}.

(** The same service holding a token. *)
Definition holding (tok : string) (expiry : Z) : MpesaService :=
  set_tokenExpiry (Some expiry) (set_accessToken (Some tok) service).

(** A provider that answers every call; the clock advances by one
    millisecond per event from the instant 5000. *)
Definition provider : oracle := {|
  clock := fun tr => (5000 + Z.of_nat (length tr))%Z;
  get_reply := fun _ _ _ =>
    Ok {| access_token := Some "T1"; expires_in := 3599 |};
  post_reply := fun _ _ _ _ =>
    Ok {| MerchantRequestID := Some "29115-34620561-1";
          CheckoutRequestID := Some "ws_CO_191220191020363925";
          ResponseCode := Some "0";
          ResponseDescription := Some "Success. Request accepted for processing";
          CustomerMessage := Some "Success. Request accepted for processing" |}
|}.

(** A provider whose authorization endpoint rejects every call. *)
Definition outage : oracle := {|
  clock := fun tr => (5000 + Z.of_nat (length tr))%Z;
  get_reply := fun _ _ _ =>
    Throw (AxiosError "Request failed with status code 503" None);
  post_reply := fun _ _ _ _ =>
    Throw (AxiosError "Request failed with status code 503" None)
|}.

Definition formatTimestamp (t : Z) : string := "20240101120000".

(** A client seen through its address. *)
Definition client : Middleware.request :=
  {| Middleware.ip := Some "196.201.214.7"; Middleware.remoteAddress := None |}.

(** A store where that client has one old request and three recent ones. *)
Definition busy_store : gmap (option string) (list Z) :=
  {[ Some "196.201.214.7" := [0; 600; 700; 800]%Z ]}.

(** Five requests of that client: three at once, a fourth half a second
    later, a fifth after the window of one second has passed.  The random
    source never triggers the sweep. *)
Definition burst : list (Middleware.request * Z * Q) :=
  [ (client, 0%Z, (1 # 2)%Q); (client, 10%Z, (1 # 2)%Q); (client, 20%Z, (1 # 2)%Q);
    (client, 500%Z, (1 # 2)%Q); (client, 1001%Z, (1 # 2)%Q) ].

(** A notification of a successful payment that carries no metadata. *)
Definition success_without_metadata : value :=
  VObj [("Body", VObj [("stkCallback", VObj [
    ("MerchantRequestID", VStr "29115-34620561-1");
    ("CheckoutRequestID", VStr "ws_CO_191220191020363925");
    ("ResultCode", VNum (Num.of_Z 0));
    ("ResultDesc", VStr "The service request is processed successfully.")])])].

(** The notification of a payment cancelled by the user. *)
Definition cancelled : value :=
  VObj [("Body", VObj [("stkCallback", VObj [
    ("MerchantRequestID", VStr "29115-34620561-1");
    ("CheckoutRequestID", VStr "ws_CO_191220191020363925");
    ("ResultCode", VNum (Num.of_Z 1032));
    ("ResultDesc", VStr "Request cancelled by user")])])].

(** The notification of a successful payment, with two metadata items. *)
Definition paid : value :=
  VObj [("Body", VObj [("stkCallback", VObj [
    ("MerchantRequestID", VStr "29115-34620561-1");
    ("CheckoutRequestID", VStr "ws_CO_191220191020363925");
    ("ResultCode", VNum (Num.of_Z 0));
    ("ResultDesc", VStr "The service request is processed successfully.");
    ("CallbackMetadata", VObj [("Item", VArr [
       VObj [("Name", VStr "Amount"); ("Value", VNum (Num.of_Z 1))];
       VObj [("Name", VStr "MpesaReceiptNumber"); ("Value", VStr "NLJ7RT61SV")]])])])])].

End Sample.

(** * Further code of the repository *)

(** ** src/utils/helpers.js, continued *)

(** [isValidKenyanPhoneNumber(phoneNumber)]. *)
Definition isValidKenyanPhoneNumber (phoneNumber : string) : bool :=
  match formatPhoneNumber phoneNumber with
  | Ok formatted => matches_254_9digits formatted
  | Throw _ => false
  end.

(** [ToBoolean(v)]. *)
Definition truthy_value (v : value) : bool :=
  match v with
  | VUndefined | VNull => false
  | VBool b => b
  | VNum n => negb (Num.falsy n)
  | VStr s => Str.truthy s
  | VArr _ | VObj _ => true
  end.

Module Mask.

(** The next [n] characters exist and are digits. *)
Fixpoint digits_ahead (n : nat) (s : string) : bool :=
  match n with
  | O => true
  | S n' =>
      match s with
      | EmptyString => false
      | String c rest => Str.is_digit c && digits_ahead n' rest
      end
  end.

(** [s.substring(0, n)]. *)
Fixpoint take (n : nat) (s : string) : string :=
  match n, s with
  | S n', String c rest => String c (take n' rest)
  | _, _ => EmptyString
  end.

(** [s.replace(/(\d{3})(\d{6})(\d{3})/, '$1****$3')]: the leftmost run of
    twelve digits keeps its first and last three, the six between them give
    way to four stars; the rest of the string stays. *)
Fixpoint replace_phone (s : string) : string :=
  if digits_ahead 12 s then
    take 3 s +:+ "****" +:+ take 3 (Str.substring_from 9 s)
      +:+ Str.substring_from 12 s
  else
    match s with
    | EmptyString => EmptyString
    | String c rest => String c (replace_phone rest)
    end.

(** [o.k = v] on an object that has the property [k]: the value changes, the
    order of the properties does not. *)
Fixpoint assign (k : string) (v : value) (props : list (string * value))
  : list (string * value) :=
  match props with
  | [] => [(k, v)]
  | (k', v') :: rest =>
      if String.eqb k k' then (k', v) :: rest else (k', v') :: assign k v rest
  end.

End Mask.

(** [sanitizeCallbackData(data)] for an object [data], given by its own
    properties.  A truthy [phoneNumber] that is not a string has no
    [replace] method, and the call of it raises. *)
Definition sanitizeCallbackData (data : list (string * value))
  : outcome (list (string * value)) :=
  let sanitized := data in
  match Js.assoc "phoneNumber" sanitized with
  | Some phoneNumber =>
      if truthy_value phoneNumber then
        match phoneNumber with
        | VStr s =>
            Ok (Mask.assign "phoneNumber" (VStr (Mask.replace_phone s)) sanitized)
        | _ => Throw TypeError
        end
      else Ok sanitized
  | None => Ok sanitized
  end.

Module Retry.

Section Loop.
Context {A E : Type}.

(** How the call number [n] of [fn] ends (counting from 0): with a value, or
    with a thrown error. *)
Variable fn : nat -> A + E.

(** What a run of [retryWithBackoff] did: its result (a value, or the thrown
    [lastError], [None] being undefined), the number of calls of [fn], and
    the delays it waited, in order. *)
Record run : Type := {
  result : A + option E;
  calls : nat;
  sleeps : list Z
}.

(** The [for] loop from the test [i <= maxRetries] on, with [fuel] bounding
    the number of iterations still to go. *)
Fixpoint loop (fuel : nat) (i maxRetries delay : Z) (lastError : option E)
    (n : nat) (slept : list Z) : run :=
  if Z.leb i maxRetries then
    match fn n with
    | inl a => {| result := inl a; calls := S n; sleeps := slept |}
    | inr error =>
        if Z.eqb i maxRetries then
          {| result := inr (Some error); calls := S n; sleeps := slept |}
        else
          match fuel with
          | O => {| result := inr (Some error); calls := S n; sleeps := slept |}
          | S fuel' =>
              loop fuel' (i + 1) maxRetries (delay * 2) (Some error) (S n)
                (slept ++ [delay])
          end
    end
  else {| result := inr lastError; calls := n; sleeps := slept |}.

(** [retryWithBackoff(fn, maxRetries = 3, delay = 1000)], for an integer
    [maxRetries]. *)
Definition retryWithBackoff (maxRetries delay : Z) : run :=
  loop (Z.to_nat maxRetries) 0 maxRetries delay None 0%nat [].

End Loop.

End Retry.

(** ** The other middleware of the rate limiter's file *)

Module Guards.

(** What a middleware does with a request: it calls [next()], or it answers
    with a status and a JSON body [{success: false, message, data: null}],
    which carries a list [errors] in the case of [validateRequest]. *)
Inductive guard : Type :=
| Pass
| Deny (status : Z) (message : string) (errors : option (list string)).

(** [apiKeyAuth(req, res, next)], as a function of the header
    [req.headers['x-api-key']] and of the environment variables [API_KEY]
    and [NODE_ENV]; [None] is undefined. *)
Definition apiKeyAuth (apiKey expectedApiKey nodeEnv : option string) : guard :=
  if negb (Str.truthy (or_else expectedApiKey EmptyString))
     && negb (is_string nodeEnv "production") then Pass
  else if negb (Str.truthy (or_else apiKey EmptyString))
          || negb (bool_decide (apiKey = expectedApiKey)) then
    Deny 401 "Invalid or missing API key" None
  else Pass.

(** [range.split('/')[0]]. *)
Fixpoint before_slash (s : string) : string :=
  match s with
  | EmptyString => EmptyString
  | String c rest =>
      if Ascii.eqb c "/" then EmptyString else String c (before_slash rest)
  end.

Definition allowedIpRanges : list string :=
  ["196.201.214.0/24"; "196.201.214.200/24"].

(** [validateMpesaIP(req, res, next)].  The method [startsWith] of an
    undefined address cannot be read, and the middleware raises. *)
Definition validateMpesaIP (nodeEnv : option string) (req : Middleware.request)
  : outcome guard :=
  if is_string nodeEnv "development" then Ok Pass
  else
    let clientIp := Middleware.clientIp req in
    match clientIp with
    | None => Throw TypeError
    | Some clientIp =>
        let isValidIp :=
          existsb (fun range =>
                     Str.startsWith clientIp (Mask.take 10 (before_slash range)))
                  allowedIpRanges in
        if negb isValidIp then Ok (Deny 403 "Unauthorized IP address" None)
        else Ok Pass
    end.

(** The names that every object inherits from [Object.prototype]; each of
    them answers with a function or an object, which is truthy. *)
Definition inherited (k : string) : bool :=
  existsb (String.eqb k)
    ["constructor"; "__defineGetter__"; "__defineSetter__"; "hasOwnProperty";
     "__lookupGetter__"; "__lookupSetter__"; "isPrototypeOf";
     "propertyIsEnumerable"; "toString"; "valueOf"; "__proto__";
     "toLocaleString"].

(** The truthiness of [body[field]] for an object [body] given by its own
    properties. *)
Definition field_truthy (body : list (string * value)) (field : string) : bool :=
  match Js.assoc field body with
  | Some v => truthy_value v
  | None => inherited field
  end.

(** What [validateRequest] reads of a request: [req.method], the truthiness
    of [req.is('application/json')], and the object [req.body]. *)
Record request : Type := {
  method : string;
  is_json : bool;
  body : list (string * value)
}.

(** The list [errors] built by the middleware of [validateRequest]. *)
Definition validation_errors (requiredFields : list string) (req : request)
  : list string :=
  let errors :=
    flat_map (fun field =>
                if negb (field_truthy (body req) field)
                then [field +:+ " is required"] else [])
             requiredFields in
  if String.eqb (method req) "POST" && negb (is_json req)
  then errors ++ ["Content-Type must be application/json"]
  else errors.

(** The middleware returned by [validateRequest(requiredFields)]. *)
Definition validateRequest (requiredFields : list string) (req : request) : guard :=
  let errors := validation_errors requiredFields req in
  if Nat.ltb 0 (length errors) then Deny 400 "Validation failed" (Some errors)
  else Pass.

End Guards.

(** ** controllers/mpesaController.js, continued *)

Module Handlers.

(** What [initiateSTKPush] reads of [req.body].  [amount], which the handler
    tests and converts, is any value of a parsed body ([VUndefined] when the
    field is missing).  [phone], [accountReference] and [transactionDesc] are
    handed to the service as they are, and are what its parameters are:
    strings, or missing. *)
Record stkpush_body : Type := {
  phone : option string;
  amount : value;
  accountReference : option string;
  transactionDesc : option string
}.

(** What a handler answers: a status with the body of a success, or a
    status with [{success: false, message}], to which [getStatus] adds
    [error] ([None] when the body has no such field). *)
Inductive reply (A : Type) : Type :=
| Answer (statusCode : Z) (result : A)
| Refuse (statusCode : Z) (message : string) (error : option string).
Arguments Answer {A} statusCode result.
Arguments Refuse {A} statusCode message error.

Definition statusCode {A} (r : reply A) : Z :=
  match r with
  | Answer c _ => c
  | Refuse c _ _ => c
  end.

Section Handlers.
(** Three functions of the runtime: [Number::toString], the conversion of a
    string to a number ([StringToNumber], which reads the whole string), and
    [parseFloat] on a string (which reads the longest numeric prefix). *)
Variable NumberToString : number -> string.
Variable StringToNumber : string -> number.
Variable parseFloat : string -> number.
Variable formatTimestamp : Z -> string.

(** [ToNumber(v)], which [isNaN(v)] and [v <= 0] apply to [v].  An array or
    an object is first converted to a string, as by [Js.ToString]; the string
    of an object, "[object Object]", is no number. *)
Definition ToNumber (v : value) : outcome number :=
  match v with
  | VUndefined => Ok NaN
  | VNull => Ok (Num.of_Z 0)
  | VBool true => Ok (Num.of_Z 1)
  | VBool false => Ok (Num.of_Z 0)
  | VNum n => Ok n
  | VStr s => Ok (StringToNumber s)
  | VArr _ => s ← Js.ToString NumberToString v; Ok (StringToNumber s)
  | VObj _ => _ ← Js.ToString NumberToString v; Ok NaN
  end.

(** [parseFloat(v)]: the argument is converted to a string and the string is
    read.  The string of a number reads as that number; "undefined", "null",
    "true", "false" and "[object Object]" start with no number. *)
Definition parseFloat_of (v : value) : outcome number :=
  match v with
  | VNum n => Ok n
  | VStr s => Ok (parseFloat s)
  | VArr _ => s ← Js.ToString NumberToString v; Ok (parseFloat s)
  | _ => _ ← Js.ToString NumberToString v; Ok NaN
  end.

(** [async initiateSTKPush(req, res)].  The two tests [isNaN(amount)] and
    [amount <= 0] convert [amount] in the same way, and raise if the
    conversion does. *)
Definition initiateSTKPush (body : stkpush_body) : M (reply push_result) :=
  Eff.try_catch
    (match phone body with
     | Some phone =>
         if negb (Str.truthy phone) || negb (truthy_value (amount body)) then
           mret (Refuse 400 "Phone number and amount are required" None)
         else
           n ← Eff.lift (ToNumber (amount body));
           if Num.isNaN n || Num.le n (Num.of_Z 0) then
             mret (Refuse 400 "Amount must be a valid positive number" None)
           else
             amount ← Eff.lift (parseFloat_of (amount body));
             result ← Service.initiateSTKPush formatTimestamp phone amount
                        (accountReference body) (transactionDesc body);
             mret (Answer 200 result)
     | None => mret (Refuse 400 "Phone number and amount are required" None)
     end)
    (fun error =>
       mret (Refuse 500 (or_else (Some (message_of error))
                                 "Failed to initiate STK Push") None)).

(** The constant [testData] of [testPayment]. *)
Definition testData : stkpush_body :=
  {| phone := Some "254712345678"; amount := VNum (Num.of_Z 1);
     accountReference := Some "TEST001"; transactionDesc := Some "Test payment" |}.

(** The body of the 200 answer of [testPayment]: [message], [data], which is
    [result.data], and [testData]. *)
Record test_result : Type := {
  test_message : string;
  test_data : push_data;
  test_sent : stkpush_body
}.

(** [async testPayment(req, res)], given the environment variable
    [NODE_ENV]. *)
Definition testPayment (nodeEnv : option string) : M (reply test_result) :=
  Eff.try_catch
    (if is_string nodeEnv "production" then
       mret (Refuse 403 "Test endpoint not available in production" None)
     else
       result ← Service.initiateSTKPush formatTimestamp "254712345678"
                  (Num.of_Z 1) (Some "TEST001") (Some "Test payment");
       mret (Answer 200 {| test_message := "Test payment initiated successfully";
                           test_data := push_data_of result;
                           test_sent := testData |}))
    (fun error =>
       mret (Refuse 500 (or_else (Some (message_of error)) "Test payment failed")
               None)).

End Handlers.

(** The [data] of the 200 answer of [getStatus]: the instant read by
    [new Date()], the environment variable [MPESA_BUSINESS_SHORT_CODE]
    ([None] when undefined) and [NODE_ENV || 'development']. *)
Record status_data : Type := {
  status_timestamp : Z;
  status_shortCode : option string;
  environment : string
}.

(** [async getStatus(req, res)], given the environment variables [NODE_ENV]
    and [MPESA_BUSINESS_SHORT_CODE]. *)
Definition getStatus (nodeEnv shortCode : option string) : M (reply status_data) :=
  Eff.try_catch
    (_ ← Service.getAccessToken;
     now ← Eff.moment;
     mret (Answer 200 {| status_timestamp := now;
                         status_shortCode := shortCode;
                         environment := or_else nodeEnv "development" |}))
    (fun error =>
       mret (Refuse 500 "M-Pesa service is not operational"
               (Some (message_of error)))).

End Handlers.

(** ** Vocabulary of the further properties *)

(** Nine decimal digits: a subscriber number. *)
Definition nine_digits (n : string) : Prop :=
  String.length n = 9%nat /\ all_digits n.

(** The digits of a string, in order: [s.replace(/\D/g, '')]. *)
Definition digits_of (s : string) : string := Str.filter Str.is_digit s.

(** The delays of [k] successive waits that start at [delay] and double:
    [delay], [2 delay], ..., [2^(k-1) delay]. *)
Fixpoint backoff (delay : Z) (k : nat) : list Z :=
  match k with
  | O => []
  | S k' => delay :: backoff (delay * 2) k'
  end.

(** A metadata item as the provider sends it: [{Name, Value}]. *)
Definition metadata_item (entry : string * value) : value :=
  VObj [("Name", VStr entry.1); ("Value", entry.2)].

(** The property of [paymentData] under which an item of a given name is
    stored. *)
Definition payment_key (name : string) : string :=
  if String.eqb name "Amount" then "amount"
  else if String.eqb name "MpesaReceiptNumber" then "mpesaReceiptNumber"
  else if String.eqb name "TransactionDate" then "transactionDate"
  else if String.eqb name "PhoneNumber" then "phoneNumber"
  else name.

(** The value of the last entry stored under the property [k]. *)
Fixpoint last_value (k : string) (entries : list (string * value)) : option value :=
  match entries with
  | [] => None
  | (name, v) :: rest =>
      match last_value k rest with
      | Some x => Some x
      | None => if String.eqb (payment_key name) k then Some v else None
      end
  end.

(** The instant at which a request of a sequence arrives. *)
Definition arrival (x : Middleware.request * Z * Q) : Z := x.1.2.

(** No record of the store is longer than the capacity. *)
Definition within_capacity (c : Z) (store : gmap (option string) (list Z)) : Prop :=
  forall client, Z.of_nat (length (record_of store client)) <= c.

(** Two stores hold the same timestamps after [ws] for every client. *)
Definition agree_after (ws : Z) (s1 s2 : gmap (option string) (list Z)) : Prop :=
  forall client,
    filter (fun t => ws < t) (record_of s1 client)
    = filter (fun t => ws < t) (record_of s2 client).

(* ================================================================== *)
(** * Properties *)

(** ** Sanity checks of the helper functions on sample inputs *)

Example generatePassword_sample :
  generatePassword "174379" "key" "20240101" = "MTc0Mzc5a2V5MjAyNDAxMDE=".
Proof. reflexivity. Qed.

Example formatPhoneNumber_local :
  formatPhoneNumber "0712345678" = Ok "254712345678".
Proof. reflexivity. Qed.

Example isValidAmount_one : isValidAmount (Num.of_Z 1) = true.
Proof. reflexivity. Qed.

(** ** Base64 is injective *)

Module Base64Facts.
Import Base64.

Ltac split_sextet s :=
  let a := fresh "a" in let b := fresh "b" in let c := fresh "c" in
  let d := fresh "d" in let e := fresh "e" in let f := fresh "f" in
  destruct s as [[[[[a b] c] d] e] f]; destruct a, b, c, d, e, f.

Lemma digit_not_pad (s : sextet) : digit s <> pad.
Proof. split_sextet s; vm_compute; discriminate. Qed.

Lemma digit_inj (s1 s2 : sextet) : digit s1 = digit s2 -> s1 = s2.
Proof.
  intros H. split_sextet s1; split_sextet s2;
    solve [ reflexivity | vm_compute in H; discriminate H ].
Qed.

Ltac digits :=
  repeat match goal with
    | H : digit _ = digit _ |- _ => apply digit_inj in H; injection H as ?
    | H : digit _ = pad |- _ => exfalso; exact (digit_not_pad _ H)
    | H : pad = digit _ |- _ => exfalso; symmetry in H; exact (digit_not_pad _ H)
    end.

Lemma enc3_inj x y z x' y' z' :
  enc3 x y z = enc3 x' y' z' -> x = x' /\ y = y' /\ z = z'.
Proof.
  destruct x, y, z, x', y', z'; unfold enc3; intros H.
  injection H as H1 H2 H3 H4. digits. subst. auto.
Qed.

Lemma enc2_inj x y x' y' : enc2 x y = enc2 x' y' -> x = x' /\ y = y'.
Proof.
  destruct x, y, x', y'; unfold enc2; intros H.
  injection H as H1 H2 H3. digits. subst. auto.
Qed.

Lemma enc1_inj x x' : enc1 x = enc1 x' -> x = x'.
Proof.
  destruct x, x'; unfold enc1; intros H.
  injection H as H1 H2. digits. subst. auto.
Qed.

Lemma list_ind3 {A} (P : list A -> Prop) :
  P [] -> (forall x, P [x]) -> (forall x y, P [x; y]) ->
  (forall x y z l, P l -> P (x :: y :: z :: l)) ->
  forall l, P l.
Proof.
  intros H0 H1 H2 H3.
  exact (fix IH l :=
           match l with
           | [] => H0
           | [x] => H1 x
           | [x; y] => H2 x y
           | x :: y :: z :: l' => H3 x y z l' (IH l')
           end).
Qed.

Lemma encode_bytes_inj : forall l1 l2,
  encode_bytes l1 = encode_bytes l2 -> l1 = l2.
Proof.
  induction l1 as [|x|x y|x y z l1 IH] using list_ind3;
    intros [|x' [|y' [|z' l2]]] H; try reflexivity;
    repeat match goal with a : ascii |- _ => destruct a end;
    cbn [encode_bytes enc1 enc2 enc3 app] in H;
    try discriminate H;
    injection H; intros; digits; subst; try reflexivity.
  f_equal. f_equal. f_equal. now apply IH.
Qed.

Lemma encode_inj (s1 s2 : string) : encode s1 = encode s2 -> s1 = s2.
Proof.
  unfold encode. intros H.
  apply (f_equal list_ascii_of_string) in H.
  rewrite !list_ascii_of_string_of_list_ascii in H.
  apply encode_bytes_inj in H.
  apply (f_equal string_of_list_ascii) in H.
  now rewrite !string_of_list_ascii_of_string in H.
Qed.

End Base64Facts.

(** ** The phone formatter *)

Module PhoneFacts.

Lemma prefix_append (p s : string) :
  String.prefix p s = true -> exists d, s = p +:+ d.
Proof.
  revert s. induction p as [|a p IH]; intros s.
  - intros _. now exists s.
  - destruct s as [|b s]; cbn [String.prefix]; [intros [=]|].
    destruct (ascii_dec a b) as [<-|]; [|intros [=]].
    intros H. destruct (IH _ H) as [d ->]. now exists d.
Qed.

Lemma forallb_all_digits (s : string) :
  Str.forallb Str.is_digit s = true -> all_digits s.
Proof.
  induction s as [|c s IH]; simpl; intros H x Hx; [destruct Hx|].
  apply andb_true_iff in H as [Hc Hs].
  destruct Hx as [<-|Hx]; [exact Hc | now apply IH].
Qed.

Lemma matches_canonical (s : string) :
  matches_254_9digits s = true -> canonical_msisdn s.
Proof.
  unfold matches_254_9digits. intros H.
  apply andb_true_iff in H as [H Hd]. apply andb_true_iff in H as [Hp Hl].
  apply Nat.eqb_eq in Hl.
  destruct (prefix_append _ s Hp) as [d ->].
  split; [exact Hl|]. split; [now exists d|].
  apply forallb_all_digits in Hd. simpl in Hd.
  intros c [<-|[<-|[<-|Hc]]]; try reflexivity. now apply Hd.
Qed.

End PhoneFacts.

(** C8.  [formatPhoneNumber] sends "0712345678", "+254712345678" and
    "712345678" to "254712345678", fails on "123", and on every input string
    either returns a string of exactly twelve digits that begins with 254 or
    fails with the format error. *)
Theorem formatPhoneNumber_canonical_or_error :
  formatPhoneNumber "0712345678" = Ok "254712345678" /\
  formatPhoneNumber "+254712345678" = Ok "254712345678" /\
  formatPhoneNumber "712345678" = Ok "254712345678" /\
  formatPhoneNumber "123"
    = Throw (Error "Invalid phone number format. Use 254XXXXXXXXX format") /\
  forall phoneNumber : string,
    (exists r, formatPhoneNumber phoneNumber = Ok r /\ canonical_msisdn r) \/
    formatPhoneNumber phoneNumber
      = Throw (Error "Invalid phone number format. Use 254XXXXXXXXX format").
Proof.
  repeat (split; [reflexivity|]).
  intros phoneNumber. unfold formatPhoneNumber.
  match goal with
  | |- context [matches_254_9digits ?f] =>
      destruct (matches_254_9digits f) eqn:Hm; cbn [negb]
  end.
  - left. eexists. split; [reflexivity|]. now apply PhoneFacts.matches_canonical.
  - now right.
Qed.

(** ** The amount validator *)

Module AmountFacts.

Lemma isValidAmount_iff (amount : number) :
  isValidAmount amount = true <->
  exists q, amount = Fin q /\ (1 <= q)%Q /\ (q <= 70000)%Q.
Proof.
  unfold isValidAmount, Num.ge, Num.le, Num.of_Z. split.
  - destruct amount as [| | |q]; simpl; try discriminate.
    intros H. apply andb_true_iff in H as [H1 H2].
    apply Qle_bool_iff in H1, H2. now exists q.
  - intros (q & -> & H1 & H2). simpl.
    apply andb_true_iff. split; now apply Qle_bool_iff.
Qed.

Lemma inject_Z_le (a b : Z) : (a <= b)%Z -> (inject_Z a <= inject_Z b)%Q.
Proof. intros H. now rewrite <- Zle_Qle. Qed.

Lemma isValidAmount_integer (n : Z) :
  isValidAmount (Num.of_Z n) = true <-> (1 <= n <= 70000)%Z.
Proof.
  rewrite isValidAmount_iff. unfold Num.of_Z. split.
  - intros (q & [= <-] & H1 & H2).
    change 1%Q with (inject_Z 1) in H1. change 70000%Q with (inject_Z 70000) in H2.
    rewrite <- Zle_Qle in H1, H2. lia.
  - intros [H1 H2]. exists (inject_Z n). split; [reflexivity|].
    split; [apply (inject_Z_le 1 n H1) | apply (inject_Z_le n 70000 H2)].
Qed.

(** The two guards that [initiateSTKPush] applies to its amount ([!amount],
    then [amount < 1 || amount > 70000]) let a number through exactly when
    [isValidAmount] accepts it. *)
Lemma dispatcher_guards (amount : number) :
  negb (Num.falsy amount)
  && negb (Num.lt amount (Num.of_Z 1) || Num.gt amount (Num.of_Z 70000))
  = isValidAmount amount.
Proof.
  unfold isValidAmount, Num.gt, Num.ge, Num.of_Z.
  destruct amount as [| | |q]; try reflexivity. cbn.
  destruct (Qle_bool (inject_Z 1) q) eqn:H1;
    destruct (Qle_bool q (inject_Z 70000));
    destruct (Qeq_bool q 0) eqn:H0; try reflexivity;
    apply Qeq_bool_iff in H0; apply Qle_bool_iff in H1; rewrite H0 in H1;
    now contradiction H1.
Qed.

End AmountFacts.

(** C3, refuted as stated: the validator accepts 1.5, which is not an
    integer. *)
Lemma isValidAmount_accepts_fraction :
  isValidAmount (Fin (3 # 2)) = true /\ Num.is_integer (Fin (3 # 2)) = false.
Proof. split; reflexivity. Qed.

(** C3, amended.  The amount validator accepts a number exactly when it is not
    NaN and its value lies in the closed range from 1 to 70000, whole or not:
    it accepts every integer from 1 to 70000, and rejects 0, every negative
    number, NaN, the infinities, 70001 and everything above 70000.  The
    guards of the dispatcher let through the same numbers. *)
Theorem isValidAmount_closed_range :
  (forall amount : number,
      isValidAmount amount = true <->
      exists q, amount = Fin q /\ (1 <= q)%Q /\ (q <= 70000)%Q) /\
  (forall n : Z, (1 <= n <= 70000)%Z -> isValidAmount (Num.of_Z n) = true) /\
  isValidAmount (Num.of_Z 0) = false /\
  (forall q : Q, (q < 0)%Q -> isValidAmount (Fin q) = false) /\
  isValidAmount NaN = false /\
  isValidAmount PosInf = false /\
  isValidAmount NegInf = false /\
  isValidAmount (Num.of_Z 70001) = false /\
  (forall q : Q, (70000 < q)%Q -> isValidAmount (Fin q) = false) /\
  (forall amount : number,
      negb (Num.falsy amount)
      && negb (Num.lt amount (Num.of_Z 1) || Num.gt amount (Num.of_Z 70000))
      = isValidAmount amount).
Proof.
  split; [exact AmountFacts.isValidAmount_iff|].
  split; [intros n Hn; now apply AmountFacts.isValidAmount_integer|].
  split; [reflexivity|].
  split.
  { intros q Hq. apply not_true_is_false. rewrite AmountFacts.isValidAmount_iff.
    intros (q' & [= <-] & H1 & _).
    apply (Qlt_not_le _ _ Hq). eapply Qle_trans; [|exact H1]. discriminate. }
  repeat (split; [reflexivity|]).
  split; [|exact AmountFacts.dispatcher_guards].
  intros q Hq. apply not_true_is_false. rewrite AmountFacts.isValidAmount_iff.
  intros (q' & [= <-] & _ & H2). exact (Qlt_not_le _ _ Hq H2).
Qed.

(** ** The password generator *)

Module PasswordFacts.

Lemma append_inj_l (s a b : string) : s +:+ a = s +:+ b -> a = b.
Proof.
  induction s as [|c s IH]; simpl; intros H; [exact H|].
  injection H as H. auto.
Qed.

Lemma generatePassword_eq_iff (s1 p1 t1 s2 p2 t2 : string) :
  generatePassword s1 p1 t1 = generatePassword s2 p2 t2 <->
  s1 +:+ p1 +:+ t1 = s2 +:+ p2 +:+ t2.
Proof.
  unfold generatePassword. split.
  - apply Base64Facts.encode_inj.
  - now intros ->.
Qed.

End PasswordFacts.

(** C4, refuted as stated: two different triples with the same concatenation
    receive the same password. *)
Lemma generatePassword_collision :
  ("1743", "79bfb279", "20240101120000") <> ("174379", "bfb279", "20240101120000") /\
  generatePassword "1743" "79bfb279" "20240101120000"
    = generatePassword "174379" "bfb279" "20240101120000".
Proof. split; [discriminate | reflexivity]. Qed.

(** C4, amended.  [generatePassword] is a function of its three arguments, the
    base64 encoding of their concatenation, and it is injective in that
    concatenation: two calls return the same password exactly when short-code,
    passkey and timestamp concatenate to the same string.  In particular, for
    one short-code and one passkey, different timestamps give different
    passwords. *)
Theorem generatePassword_injective_in_concatenation :
  (forall s p t : string, generatePassword s p t = Base64.encode (s +:+ p +:+ t)) /\
  (forall s1 p1 t1 s2 p2 t2 : string,
      generatePassword s1 p1 t1 = generatePassword s2 p2 t2 <->
      s1 +:+ p1 +:+ t1 = s2 +:+ p2 +:+ t2) /\
  (forall s p t1 t2 : string,
      t1 <> t2 -> generatePassword s p t1 <> generatePassword s p t2).
Proof.
  split; [reflexivity|].
  split; [exact PasswordFacts.generatePassword_eq_iff|].
  intros s p t1 t2 Hne H. apply Hne.
  apply PasswordFacts.generatePassword_eq_iff in H.
  now do 2 apply PasswordFacts.append_inj_l in H.
Qed.

(** ** Running computations *)

Module ExecFacts.

Lemma run_io_bind {A B} (o : oracle) (m : io A) (f : A -> io B) (tr : trace) :
  run o (io_bind m f) tr = let '(a, tr') := run o m tr in run o (f a) tr'.
Proof.
  revert tr. induction m as [a|k IH|u a k IH|u a p k IH]; intros tr; cbn;
    [reflexivity | apply IH..].
Qed.

Lemma exec_bind {A B} o (m : M A) (f : A -> M B) this tr :
  exec o (m ≫= f) this tr =
    match exec o m this tr with
    | (Ok a, this', tr') => exec o (f a) this' tr'
    | (Throw e, this', tr') => (Throw e, this', tr')
    end.
Proof.
  unfold exec, mbind, M_bind, Eff.bind. rewrite run_io_bind.
  destruct (run o (m this) tr) as [[[a|e] this'] tr']; reflexivity.
Qed.

Lemma exec_try_catch {A} o (m : M A) (h : exn -> M A) this tr :
  exec o (Eff.try_catch m h) this tr =
    match exec o m this tr with
    | (Ok a, this', tr') => (Ok a, this', tr')
    | (Throw e, this', tr') => exec o (h e) this' tr'
    end.
Proof.
  unfold exec, Eff.try_catch. rewrite run_io_bind.
  destruct (run o (m this) tr) as [[[a|e] this'] tr']; reflexivity.
Qed.

Lemma exec_ret {A} o (a : A) this tr : exec o (mret a) this tr = (Ok a, this, tr).
Proof. reflexivity. Qed.

Lemma exec_throw {A} o e this tr : exec o (@Eff.throw A e) this tr = (Throw e, this, tr).
Proof. reflexivity. Qed.

Lemma exec_lift {A} o (r : outcome A) this tr : exec o (Eff.lift r) this tr = (r, this, tr).
Proof. reflexivity. Qed.

Lemma exec_get_this o this tr : exec o Eff.get_this this tr = (Ok this, this, tr).
Proof. reflexivity. Qed.

Lemma exec_modify o f this tr : exec o (Eff.modify f) this tr = (Ok tt, f this, tr).
Proof. reflexivity. Qed.

Lemma exec_moment o this tr :
  exec o Eff.moment this tr = (Ok (clock o tr), this, EvMoment (clock o tr) :: tr).
Proof. reflexivity. Qed.

Lemma exec_axios_get o u a this tr :
  exec o (Eff.axios_get u a) this tr =
    (get_reply o tr u a, this, EvGet u a (get_reply o tr u a) :: tr).
Proof. reflexivity. Qed.

Lemma exec_axios_post o u a p this tr :
  exec o (Eff.axios_post u a p) this tr =
    (post_reply o tr u a p, this, EvPost u a p (post_reply o tr u a p) :: tr).
Proof. reflexivity. Qed.


Lemma network_gets_moment t tr : network_gets (EvMoment t :: tr) = network_gets tr.
Proof. reflexivity. Qed.

Lemma network_gets_post u a p r tr :
  network_gets (EvPost u a p r :: tr) = network_gets tr.
Proof. reflexivity. Qed.

End ExecFacts.

Create Rewrite HintDb exec.
#[global] Hint Rewrite @ExecFacts.exec_bind @ExecFacts.exec_try_catch
  @ExecFacts.exec_ret @ExecFacts.exec_throw @ExecFacts.exec_lift
  ExecFacts.exec_get_this ExecFacts.exec_modify ExecFacts.exec_moment
  ExecFacts.exec_axios_get ExecFacts.exec_axios_post : exec.

(** One step of symbolic execution: push [exec] through the sequencing
    operators, then reduce the matches that have become decided. *)
Ltac exec_step := autorewrite with exec; cbn [fst snd].

(** ** The token cache *)

Module TokenFacts.
Import Service.

Lemma cached_VALID this tok expiry :
  cached this = VALID tok expiry ->
  accessToken this = Some tok /\ tokenExpiry this = Some expiry /\
  Str.truthy tok = true.
Proof.
  unfold cached. destruct (accessToken this) as [t|]; [|discriminate].
  destruct (tokenExpiry this) as [e|]; [|discriminate].
  destruct (Str.truthy t) eqn:Ht; [|discriminate].
  now intros [= -> ->].
Qed.

(** A cache hit: the token is returned after one reading of the clock. *)
Lemma getAccessToken_hit o this tr tok expiry :
  cached this = VALID tok expiry -> (clock o tr < expiry)%Z ->
  exec o getAccessToken this tr = (Ok tok, this, EvMoment (clock o tr) :: tr).
Proof.
  intros Hc Hlt. apply cached_VALID in Hc as (Ha & He & Ht).
  unfold getAccessToken. exec_step.
  rewrite Ha, He, Ht. exec_step.
  apply Z.ltb_lt in Hlt. rewrite Hlt. exec_step. reflexivity.
Qed.

(** What the method does when the cache does not answer. *)
Lemma getAccessToken_stale o this tr :
  stale this (clock o tr) ->
  exec o getAccessToken this tr =
    let tr0 := refresh_history o this tr in
    let reply := refresh_reply o this tr in
    let tr1 := EvGet (authUrl this) (basic_auth this) reply :: tr0 in
    match reply with
    | Ok d =>
        if Str.truthy (or_else (access_token d) EmptyString) then
          (Ok (or_else (access_token d) EmptyString),
           set_tokenExpiry (Some (clock o tr1 + (expires_in d - 60) * 1000)%Z)
             (set_accessToken (Some (or_else (access_token d) EmptyString)) this),
           EvMoment (clock o tr1) :: tr1)
        else (Throw (Error "Failed to authenticate with M-Pesa API"), this, tr1)
    | Throw _ => (Throw (Error "Failed to authenticate with M-Pesa API"), this, tr1)
    end.
Proof.
  unfold stale, refresh_reply, refresh_history, cached, basic_auth.
  unfold getAccessToken. exec_step.
  destruct (accessToken this) as [t|] eqn:Ha;
    [destruct (tokenExpiry this) as [e|] eqn:He;
     [destruct (Str.truthy t) eqn:Ht|]|];
    intros Hs; exec_step;
    try (apply Z.ltb_ge in Hs; rewrite Hs; exec_step);
    match goal with
    | |- context [get_reply ?o ?h ?u ?a] => destruct (get_reply o h u a) as [d|e']
    end; exec_step; try reflexivity;
    destruct (access_token d) as [tok'|]; cbn [or_else Str.truthy];
      exec_step; try reflexivity;
    destruct tok'; cbn [Str.truthy]; exec_step; reflexivity.
Qed.

Lemma hit_or_stale (this : MpesaService) (now : Z) :
  (exists tok expiry, cached this = VALID tok expiry /\ (now < expiry)%Z) \/
  stale this now.
Proof.
  unfold stale. destruct (cached this) as [|tok expiry]; [now right|].
  destruct (Z.lt_ge_cases now expiry); [left; eauto | now right].
Qed.

(** A call that returns a token leaves the cache VALID with that token; a
    further call made before the expiry returns the same token, leaves the
    cache alone and makes no credential exchange. *)
Lemma second_call_reuses o this tr tok this1 tr1 :
  exec o getAccessToken this tr = (Ok tok, this1, tr1) ->
  exists expiry,
    cached this1 = VALID tok expiry /\
    forall o2 : oracle,
      (clock o2 tr1 < expiry)%Z ->
      exists tr2,
        exec o2 getAccessToken this1 tr1 = (Ok tok, this1, tr2) /\
        network_gets tr2 = network_gets tr1.
Proof.
  intros Hexec.
  assert (Hv : exists expiry, cached this1 = VALID tok expiry).
  { destruct (hit_or_stale this (clock o tr)) as [(tok0 & expiry & Hc & Hlt)|Hs].
    - rewrite (getAccessToken_hit o this tr tok0 expiry Hc Hlt) in Hexec.
      injection Hexec as <- <- <-. eauto.
    - rewrite (getAccessToken_stale o this tr Hs) in Hexec. cbv zeta in Hexec.
      destruct (refresh_reply o this tr) as [d|e]; [|discriminate Hexec].
      destruct (Str.truthy (or_else (access_token d) EmptyString)) eqn:Ht;
        [|discriminate Hexec].
      injection Hexec as <- <- <-. eexists.
      unfold cached. cbn -[Str.truthy]. now rewrite Ht. }
  destruct Hv as [expiry Hv]. exists expiry. split; [exact Hv|].
  intros o2 Hlt. eexists. split.
  - apply (getAccessToken_hit o2 this1 tr1 tok expiry Hv Hlt).
  - reflexivity.
Qed.

End TokenFacts.

Module TokenExamples.
Import Service.

Example first_call_refreshes :
  exec Sample.provider getAccessToken Sample.service [] =
    (Ok "T1", Sample.holding "T1" (5001 + 3539000),
     [EvMoment 5001;
      EvGet "https://provider.test/oauth" "Basic a2V5OnNlY3JldA=="
        (Ok {| access_token := Some "T1"; expires_in := 3599 |})]).
Proof. reflexivity. Qed.

Example second_call_hits :
  exec Sample.provider getAccessToken (Sample.holding "T1" 3544001) [] =
    (Ok "T1", Sample.holding "T1" 3544001, [EvMoment 5000]).
Proof. reflexivity. Qed.

End TokenExamples.



(** C6, refuted as stated: with an expired token stored and the
    authorization endpoint down, the call raises and the token is still
    stored afterwards. *)
Lemma getAccessToken_failure_retains_token :
  exec Sample.outage Service.getAccessToken (Sample.holding "T0" 4000) []
    = (Throw (Error "Failed to authenticate with M-Pesa API"),
       Sample.holding "T0" 4000,
       [EvGet "https://provider.test/oauth" "Basic a2V5OnNlY3JldA=="
          (Throw (AxiosError "Request failed with status code 503" None));
        EvMoment 5000]) /\
  accessToken (Sample.holding "T0" 4000) = Some "T0" /\
  cached (Sample.holding "T0" 4000) <> EMPTY.
Proof. split; [reflexivity|]. split; [reflexivity|]. discriminate. Qed.

(** C6, amended.  If the credential exchange fails, [getAccessToken] raises
    the authentication error and leaves the cache exactly as it was: a cache
    that was EMPTY is EMPTY afterwards, and a token that had expired is still
    stored, with its old expiry. *)
Theorem getAccessToken_failure_leaves_cache :
  forall o this tr r this' tr',
    exec o Service.getAccessToken this tr = (r, this', tr') ->
    stale this (clock o tr) ->
    exchange_failed (refresh_reply o this tr) = true ->
    r = Throw (Error "Failed to authenticate with M-Pesa API") /\
    this' = this /\
    (cached this = EMPTY -> cached this' = EMPTY).
Proof.
  intros o this tr r this' tr' Hexec Hs Hf.
  rewrite (TokenFacts.getAccessToken_stale o this tr Hs) in Hexec.
  cbv zeta in Hexec. unfold exchange_failed in Hf.
  destruct (refresh_reply o this tr) as [d|e].
  - apply negb_true_iff in Hf. rewrite Hf in Hexec.
    injection Hexec as <- <- <-. auto.
  - injection Hexec as <- <- <-. auto.
Qed.

(** The failure of a first exchange, from the EMPTY cache. *)
Lemma getAccessToken_failure_witness :
  stale Sample.service (clock Sample.outage []) /\
  exchange_failed (refresh_reply Sample.outage Sample.service []) = true /\
  (exec Sample.outage Service.getAccessToken Sample.service []).1.1
    = Throw (Error "Failed to authenticate with M-Pesa API") /\
  (exec Sample.outage Service.getAccessToken Sample.service []).1.2
    = Sample.service /\
  (cached Sample.service = EMPTY ->
   cached (exec Sample.outage Service.getAccessToken Sample.service []).1.2 = EMPTY).
Proof.
  split; [exact I|]. split; [reflexivity|].
  exact (getAccessToken_failure_leaves_cache
           Sample.outage Sample.service [] _ _ _ eq_refl I eq_refl).
Defined.

(** ** The payment dispatcher *)

Module DispatchFacts.
Import Service.

(** [getAccessToken] posts nothing. *)
Lemma getAccessToken_posted o this tr :
  posted (exec o getAccessToken this tr).2 = posted tr.
Proof.
  destruct (TokenFacts.hit_or_stale this (clock o tr))
  as [(tok & expiry & Hc & Hlt)|Hs].
  - now rewrite (TokenFacts.getAccessToken_hit o this tr tok expiry Hc Hlt).
  - rewrite (TokenFacts.getAccessToken_stale o this tr Hs). cbv zeta.
    assert (Hh : posted (refresh_history o this tr) = posted tr).
    { unfold refresh_history. now destruct (cached this). }
    destruct (refresh_reply o this tr) as [d|e]; [|exact Hh].
    destruct (Str.truthy _); exact Hh.
Qed.

(** Whatever the arguments and the answers of the outside world, a call of
    [initiateSTKPush] posts at most one payload, and that payload is tagged
    CustomerPayBillOnline. *)
(** The catch block: a case analysis on the error caught. *)
Ltac catch_block e :=
  destruct e as [? | | ? [?|]]; exec_step;
  try (destruct (Str.truthy _); exec_step).

Lemma initiateSTKPush_posted fmt o this tr phoneNumber amount reference description :
  let tr' := (exec o (initiateSTKPush fmt phoneNumber amount reference description)
                this tr).2 in
  posted tr' = posted tr \/
  exists payload,
    posted tr' = payload :: posted tr /\
    field payload "TransactionType" = VStr "CustomerPayBillOnline" /\
    field payload "AccountReference"
      = VStr (or_else reference (accountReference this)).
Proof.
  cbv zeta. unfold initiateSTKPush. exec_step.
  destruct (negb (Str.truthy phoneNumber) || Num.falsy amount);
    exec_step; [left; reflexivity|].
  destruct (formatPhoneNumber phoneNumber) as [formattedPhone|e];
    exec_step; [|left; catch_block e; reflexivity].
  destruct (Num.lt amount (Num.of_Z 1) || Num.gt amount (Num.of_Z 70000));
    exec_step; [left; reflexivity|].
  pose proof (getAccessToken_posted o this tr) as Hp.
  destruct (exec o getAccessToken this tr) as [[[tok|e] this1] tr1];
    cbn [snd] in Hp; exec_step; [|left; catch_block e; exact Hp].
  match goal with
  | |- context [post_reply ?o ?h ?u ?a ?p] =>
      set (payload := p);
      set (reply := post_reply o h u a payload); clearbody reply;
      destruct reply as [response|e]
  end; exec_step; right; exists payload; (split; [|split; reflexivity]).
  - destruct (is_string (ResponseCode response) "0"); exec_step;
      cbn [posted]; now rewrite Hp.
  - catch_block e; cbn [posted]; now rewrite Hp.
Qed.

End DispatchFacts.

(** C1, at an input where the code departs from it: for the reference
    "Till-0042" the local variable [transactionType] is
    CustomerBuyGoodsOnline, and the one payload that is posted carries
    CustomerPayBillOnline. *)
Theorem initiateSTKPush_till_reference_posts_paybill :
  Str.includes (Str.toLowerCase "Till-0042") "till" = true /\
  Service.transactionType (Some "Till-0042") = "CustomerBuyGoodsOnline" /\
  map (fun payload => field payload "TransactionType")
      (posted (exec Sample.provider
                 (Service.initiateSTKPush Sample.formatTimestamp
                    "0712345678" (Num.of_Z 10) (Some "Till-0042") None)
                 Sample.service []).2)
    = [VStr "CustomerPayBillOnline"].
Proof. repeat split; vm_compute; reflexivity. Qed.

(** ** The callback processor *)

Module CallbackFacts.
Import Service.

Lemma value_ind' (P : value -> Prop) :
  P VUndefined -> P VNull -> (forall b, P (VBool b)) -> (forall n, P (VNum n)) ->
  (forall s, P (VStr s)) ->
  (forall items, Forall P items -> P (VArr items)) ->
  (forall props, P (VObj props)) ->
  forall v, P v.
Proof.
  intros Hu Hn Hb Hnum Hs Ha Ho.
  exact (fix IH (v : value) : P v :=
           match v with
           | VUndefined => Hu
           | VNull => Hn
           | VBool b => Hb b
           | VNum n => Hnum n
           | VStr s => Hs s
           | VArr items =>
               Ha items
                 ((fix all (l : list value) : Forall P l :=
                     match l with
                     | [] => List.Forall_nil P
                     | x :: rest => List.Forall_cons P x rest (IH x) (all rest)
                     end) items)
           | VObj props => Ho props
           end).
Qed.

Lemma getProp_field (v : value) (k : string) :
  Js.nullish v = false -> Js.getProp v k = Ok (field v k).
Proof. destruct v; cbn; intros H; try discriminate H; reflexivity. Qed.

Lemma getProp_nullish (v : value) (k : string) :
  Js.nullish v = true -> Js.getProp v k = Throw TypeError.
Proof. destruct v; cbn; intros H; try discriminate H; reflexivity. Qed.

Section Conversion.
Variable NumberToString : number -> string.

Lemma ToString_raised (v : value) :
  raised (Js.ToString NumberToString v) = negb (key_convertible v).
Proof.
  induction v as [| |b|n|s|items IH|props] using value_ind';
    try reflexivity.
  - destruct b; reflexivity.
  - cbn [Js.ToString key_convertible].
    induction IH as [|x rest Hx _ IHrest]; [reflexivity|].
    rewrite negb_andb, <- Hx, <- IHrest.
    destruct (Js.nullish x) eqn:Hnull.
    + destruct x; try discriminate Hnull; destruct rest; cbn;
        try reflexivity;
        match goal with
        | |- context [raised ?r] => destruct r; reflexivity
        end.
    + destruct (Js.ToString NumberToString x); [|reflexivity].
      destruct rest; [reflexivity|]. cbn.
      match goal with
      | |- raised (match ?r with _ => _ end) = raised ?r' =>
          change r' with r; destruct r; reflexivity
      end.
  - cbn. destruct (Js.has_own "toString" props); reflexivity.
Qed.

Lemma fold_item_raised pd (item : value) :
  raised (fold_item NumberToString pd item) = negb (item_ok item).
Proof.
  unfold fold_item, item_ok.
  destruct (Js.nullish item) eqn:Hn.
  - now rewrite (getProp_nullish item "Name" Hn).
  - rewrite !(getProp_field item _ Hn). cbn [mbind outcome_bind negb andb].
    repeat match goal with
           | |- context [if Js.strict_eq_str ?a ?b then _ else _] =>
               let H := fresh "Hs" in
               destruct (Js.strict_eq_str a b) eqn:H;
               [destruct (field item "Name"); try discriminate H; reflexivity|]
           end.
    rewrite <- ToString_raised.
    destruct (Js.ToString NumberToString (field item "Name")); reflexivity.
Qed.

Lemma fold_items_raised (l : list value) pd :
  raised (fold_items NumberToString pd l) = negb (forallb item_ok l).
Proof.
  revert pd. induction l as [|item rest IH]; intros pd; [reflexivity|].
  cbn [fold_items forallb]. pose proof (fold_item_raised pd item) as Hi.
  destruct (fold_item NumberToString pd item) as [pd'|e]; cbn in Hi.
  - apply (f_equal negb) in Hi. rewrite negb_involutive in Hi. cbn in Hi.
    rewrite <- Hi. apply IH.
  - apply (f_equal negb) in Hi. rewrite negb_involutive in Hi. cbn in Hi.
    now rewrite <- Hi.
Qed.

End Conversion.

End CallbackFacts.

Module ProcessFacts.
Import Service CallbackFacts.

Section Process.
Variable NumberToString : number -> string.

(** Without the nested shape the call raises before reading the clock. *)
Lemma processCallback_no_shape o this tr (callbackData : value) :
  has_shape callbackData = false ->
  exec o (processCallback NumberToString callbackData) this tr
    = (Throw (Error "Failed to process M-Pesa callback"), this, tr).
Proof.
  unfold has_shape, stkCallback_of, processCallback. intros H. exec_step.
  destruct callbackData as [| | | | | |props]; cbn [Js.getProp]; exec_step;
    try reflexivity.
  destruct (Js.assoc "Body" props) as [[| | | | | |bprops]|];
    cbn [Js.getProp]; exec_step; try reflexivity.
  destruct (Js.assoc "stkCallback" bprops) as [stk|];
    cbn [Js.getProp]; exec_step; [|reflexivity].
  apply negb_false_iff in H.
  rewrite (getProp_nullish stk _ H). exec_step. reflexivity.
Qed.

(** With the nested shape: the four fields are read, the clock is read
    once, and the result code decides between the two branches. *)
Lemma processCallback_shape o this tr (callbackData stk : value) :
  stkCallback_of callbackData = Some stk -> Js.nullish stk = false ->
  exec o (processCallback NumberToString callbackData) this tr =
    let now := clock o tr in
    let fields pd st :=
      {| merchantRequestID := field stk "MerchantRequestID";
         checkoutRequestID := field stk "CheckoutRequestID";
         resultCode := field stk "ResultCode";
         resultDesc := field stk "ResultDesc";
         timestamp := now; paymentData := pd; status := st |} in
    if Js.strict_eq_zero (field stk "ResultCode") then
      match metadata_of NumberToString stk with
      | Ok pd => (Ok (fields (Some pd) "SUCCESS"), this, EvMoment now :: tr)
      | Throw _ =>
          (Throw (Error "Failed to process M-Pesa callback"), this,
           EvMoment now :: tr)
      end
    else (Ok (fields None "FAILED"), this, EvMoment now :: tr).
Proof.
  unfold stkCallback_of, processCallback, metadata_of. intros Hs Hn.
  destruct callbackData as [| | | | | |props]; try discriminate Hs.
  destruct (Js.assoc "Body" props) as [[| | | | | |bprops]|] eqn:HB;
    try discriminate Hs.
  exec_step. cbn [Js.getProp]. rewrite HB. exec_step.
  cbn [Js.getProp]. rewrite Hs. exec_step.
  rewrite !(getProp_field stk _ Hn). exec_step. cbv zeta.
  cbn [mbind outcome_bind].
  destruct (Js.strict_eq_zero (field stk "ResultCode")); exec_step;
    [|reflexivity].
  destruct (Js.getProp (field stk "CallbackMetadata") "Item") as [items|e];
    cbn [mbind outcome_bind]; exec_step; [|reflexivity].
  destruct (forEach_items NumberToString items); exec_step; reflexivity.
Qed.

Lemma metadata_of_raised (callbackData stk : value) :
  stkCallback_of callbackData = Some stk -> Js.nullish stk = false ->
  raised (metadata_of NumberToString stk) = negb (metadata_ok callbackData).
Proof.
  intros Hs Hn. unfold metadata_of, metadata_ok. rewrite Hs.
  rewrite (getProp_field stk _ Hn). cbn [mbind outcome_bind].
  destruct (field stk "CallbackMetadata") as [| | | | | |mprops];
    try reflexivity.
  cbn [Js.getProp mbind outcome_bind].
  destruct (Js.assoc "Item" mprops) as [[| | | | |items|]|]; try reflexivity.
  cbn [forEach_items]. apply fold_items_raised.
Qed.

End Process.

End ProcessFacts.

Module CallbackExamples.

Example paid_is_success (nts : number -> string) :
  (exec Sample.provider (Service.processCallback nts Sample.paid)
     Sample.service []).1.1
  = Ok {| merchantRequestID := VStr "29115-34620561-1";
          checkoutRequestID := VStr "ws_CO_191220191020363925";
          resultCode := VNum (Num.of_Z 0);
          resultDesc := VStr "The service request is processed successfully.";
          timestamp := 5000;
          paymentData :=
            Some {| Js.own := <["mpesaReceiptNumber" := VStr "NLJ7RT61SV"]>
                                (<["amount" := VNum (Num.of_Z 1)]> ∅);
                    Js.proto := Js.ObjectPrototype |};
          status := "SUCCESS" |}.
Proof. reflexivity. Qed.

Example cancelled_is_failed (nts : number -> string) :
  (exec Sample.provider (Service.processCallback nts Sample.cancelled)
     Sample.service []).1.1
  = Ok {| merchantRequestID := VStr "29115-34620561-1";
          checkoutRequestID := VStr "ws_CO_191220191020363925";
          resultCode := VNum (Num.of_Z 1032);
          resultDesc := VStr "Request cancelled by user";
          timestamp := 5000;
          paymentData := None;
          status := "FAILED" |}.
Proof. reflexivity. Qed.

End CallbackExamples.

(** C2, refuted as stated: a notification with the nested shape and result
    code 0 but no metadata makes [processCallback] raise. *)
Lemma processCallback_raises_with_shape_present :
  has_shape Sample.success_without_metadata = true /\
  forall NumberToString : number -> string,
    exec Sample.provider
      (Service.processCallback NumberToString Sample.success_without_metadata)
      Sample.service []
    = (Throw (Error "Failed to process M-Pesa callback"), Sample.service,
       [EvMoment 5000]).
Proof. split; [reflexivity | intros; reflexivity]. Qed.

(** C2, amended.  [processCallback] raises the callback error exactly when
    the nested shape is absent, or the result code is 0 and the metadata
    cannot be folded (no [CallbackMetadata], an [Item] that is not an array,
    a null item, an item name that does not convert to a property name).
    For every input whose nested shape is present and whose result code is
    not 0 it returns the normalized record with status FAILED and no payment
    data: a non-zero result code never makes it raise.  Every record it
    returns is SUCCESS with payment data and result code 0, or FAILED without
    payment data. *)
Theorem processCallback_raises_iff :
  forall (NumberToString : number -> string) o this tr callbackData r this' tr',
    exec o (Service.processCallback NumberToString callbackData) this tr
      = (r, this', tr') ->
    this' = this /\
    (raised r = true <->
       has_shape callbackData = false \/
       (Js.strict_eq_zero (result_code callbackData) = true /\
        metadata_ok callbackData = false)) /\
    (raised r = true -> r = Throw (Error "Failed to process M-Pesa callback")) /\
    (has_shape callbackData = true ->
     Js.strict_eq_zero (result_code callbackData) = false ->
     exists res,
       r = Ok res /\ status res = "FAILED" /\ paymentData res = None /\
       resultCode res = result_code callbackData) /\
    (forall res, r = Ok res ->
       (status res = "SUCCESS" /\ is_Some (paymentData res) /\
        Js.strict_eq_zero (resultCode res) = true) \/
       (status res = "FAILED" /\ paymentData res = None /\
        Js.strict_eq_zero (resultCode res) = false)).
Proof.
  intros nts o this tr v r this' tr' Hexec.
  destruct (has_shape v) eqn:Hshape.
  - unfold has_shape in Hshape. unfold result_code.
    destruct (stkCallback_of v) as [stk|] eqn:Hstk; [|discriminate Hshape].
    apply negb_true_iff in Hshape.
    rewrite (ProcessFacts.processCallback_shape nts o this tr v stk Hstk Hshape)
      in Hexec.
    pose proof (ProcessFacts.metadata_of_raised nts v stk Hstk Hshape) as Hmd.
    cbv zeta in Hexec.
    destruct (Js.strict_eq_zero (field stk "ResultCode")) eqn:Hz.
    + destruct (metadata_of nts stk) as [pd|e]; cbn [raised] in Hmd;
        injection Hexec as <- <- <-; cbn [raised].
      * apply (f_equal negb) in Hmd. rewrite negb_involutive in Hmd.
        cbn [negb] in Hmd. rewrite <- Hmd.
        repeat split; try discriminate; try tauto.
        -- intros [H|[_ H]]; discriminate H.
        -- intros res [= <-]. left. cbn. eauto.
      * apply (f_equal negb) in Hmd. rewrite negb_involutive in Hmd.
        cbn [negb] in Hmd. rewrite <- Hmd.
        repeat split; try discriminate; auto.
    + injection Hexec as <- <- <-. cbn [raised].
      repeat split; try discriminate.
      * intros [H|[H _]]; discriminate H.
      * intros _ _. eexists. repeat split.
      * intros res [= <-]. right. cbn. auto.
  - rewrite (ProcessFacts.processCallback_no_shape nts o this tr v Hshape) in Hexec.
    injection Hexec as <- <- <-. cbn [raised].
    repeat split; try discriminate; auto.
Qed.

(** The cancelled payment: shape present, result code 1032, status FAILED. *)
Lemma processCallback_raises_iff_witness :
  has_shape Sample.cancelled = true /\
  Js.strict_eq_zero (result_code Sample.cancelled) = false /\
  forall NumberToString : number -> string,
  exists res,
    (exec Sample.provider (Service.processCallback NumberToString Sample.cancelled)
       Sample.service []).1.1 = Ok res /\
    status res = "FAILED" /\ paymentData res = None /\
    resultCode res = VNum (Num.of_Z 1032).
Proof.
  split; [reflexivity|]. split; [reflexivity|]. intros nts.
  destruct (processCallback_raises_iff nts Sample.provider Sample.service []
              Sample.cancelled _ _ _ eq_refl)
    as (_ & _ & _ & H & _).
  destruct (H eq_refl eq_refl) as (res & Hr & Hs & Hp & Hc).
  exists res. auto.
Defined.

(** ** The callback endpoint *)

(** C9.  The callback handler answers with status 200 for every request
    body: with [success: true] and the normalized record when processing
    succeeds, and with [success: false] and the error message inside the body
    when processing raises. *)
Theorem handleCallback_always_200 :
  forall (NumberToString : number -> string) o this tr (req_body : value),
  exists resp,
    (exec o (Controller.handleCallback NumberToString req_body) this tr).1.1
      = Ok resp /\
    Controller.statusCode resp = 200 /\
    match (exec o (Service.processCallback NumberToString req_body) this tr).1.1 with
    | Ok result =>
        Controller.success (Controller.body resp) = true /\
        Controller.data (Controller.body resp) = Some result
    | Throw e =>
        Controller.success (Controller.body resp) = false /\
        Controller.error (Controller.body resp) = Some (message_of e)
    end.
Proof.
  intros nts o this tr req_body. unfold Controller.handleCallback. exec_step.
  destruct (exec o (Service.processCallback nts req_body) this tr)
    as [[[result|e] this1] tr1]; exec_step; eexists; repeat split.
Qed.

(** ** The rate limiter *)

Module RateFacts.
Import Middleware.

Lemma filter_all (P : Z -> Prop) `{!forall x, Decision (P x)} (l : list Z) :
  Forall P l -> filter P l = l.
Proof.
  induction 1 as [|x l Hx _ IH]; [reflexivity|].
  now rewrite filter_cons_True, IH.
Qed.

Lemma Forall_filter_holds (P : Z -> Prop) `{!forall x, Decision (P x)} (l : list Z) :
  Forall P (filter P l).
Proof. apply Forall_forall. intros x Hx. now apply list_elem_of_filter in Hx. Qed.

Lemma Forall_filter_keeps (P Q : Z -> Prop) `{!forall x, Decision (P x)} (l : list Z) :
  Forall Q l -> Forall Q (filter P l).
Proof.
  rewrite !Forall_forall. intros HQ x Hx.
  apply list_elem_of_filter in Hx as [_ Hx]. now apply HQ.
Qed.

Lemma StronglySorted_filter (P : Z -> Prop) `{!forall x, Decision (P x)} (l : list Z) :
  StronglySorted Z.le l -> StronglySorted Z.le (filter P l).
Proof.
  induction 1 as [|x l Hl IH Hx]; [constructor|].
  rewrite filter_cons. destruct (decide (P x)); [|exact IH].
  constructor; [exact IH | now apply Forall_filter_keeps].
Qed.

(** Under a clock that does not run backwards, the timestamps kept by the
    limiter are those inside the window. *)
Lemma kept_in_window (now w : Z) (record : list Z) :
  Forall (fun t => t <= now) record ->
  filter (fun t => now - w < t) record = in_window now w record.
Proof.
  unfold in_window. induction 1 as [|x l Hx _ IH]; [reflexivity|].
  rewrite !filter_cons, IH.
  destruct (decide (now - w < x)), (decide (now - w < x <= now));
    try reflexivity; lia.
Qed.

Lemma ceil_seconds_bounds (x : Z) :
  0 < x ->
  0 < ceil_seconds x /\
  1000 * (ceil_seconds x - 1) < x <= 1000 * ceil_seconds x.
Proof.
  intros Hx. unfold ceil_seconds.
  pose proof (Z.div_mod (- x) 1000 ltac:(lia)) as Hd.
  pose proof (Z.mod_pos_bound (- x) 1000 ltac:(lia)) as Hm.
  lia.
Qed.

(** The rejection branch, as the code takes it. *)
Lemma rateLimit_reject (c w : Z) (req : request) (now : Z) (rnd : Q)
    (store : gmap (option string) (list Z)) :
  let kept := filter (fun t => now - w < t) (record_of store (clientIp req)) in
  c <= Z.of_nat (length kept) ->
  rateLimit c w req now rnd store =
    (Respond 429 false "Too many requests, please try again later"
       {| limit := c; windowMs := w;
          remainingTime :=
            match kept with
            | oldest :: _ => Some (ceil_seconds (oldest + w - now))
            | [] => None
            end |},
     store).
Proof.
  cbv zeta. unfold rateLimit, record_of. intros H.
  apply Z.leb_le in H. now rewrite H.
Qed.

(** The admission branch, as the code takes it. *)
Lemma rateLimit_admit (c w : Z) (req : request) (now : Z) (rnd : Q)
    (store : gmap (option string) (list Z)) :
  let kept := filter (fun t => now - w < t) (record_of store (clientIp req)) in
  Z.of_nat (length kept) < c ->
  rateLimit c w req now rnd store =
    (Next,
     let store1 := <[clientIp req := kept ++ [now]]> store in
     if negb (Qle_bool (1 # 10) rnd)
     then cleanupRateLimitStore (now - w) store1
     else store1).
Proof.
  cbv zeta. unfold rateLimit, record_of. intros H.
  apply Z.leb_gt in H. now rewrite H.
Qed.

Lemma cleanup_lookup (ws : Z) (store : gmap (option string) (list Z))
    (client : option string) :
  record_of (cleanupRateLimitStore ws store) client
    = filter (fun t => ws < t) (record_of store client).
Proof.
  unfold record_of, cleanupRateLimitStore. rewrite lookup_omap.
  destruct (store !! client) as [l|]; [|reflexivity]. cbn.
  destruct (filter (fun t => ws < t) l); reflexivity.
Qed.

Lemma record_of_insert (store : gmap (option string) (list Z))
    (client : option string) (l : list Z) :
  record_of (<[client := l]> store) client = l.
Proof. unfold record_of. now rewrite lookup_insert_eq. Qed.

Lemma record_of_insert_ne (store : gmap (option string) (list Z))
    (client client' : option string) (l : list Z) :
  client <> client' ->
  record_of (<[client := l]> store) client' = record_of store client'.
Proof. intros H. unfold record_of. now rewrite lookup_insert_ne. Qed.

(** After an admission the record of the client is the kept timestamps
    followed by the current one, whether the sweep ran or not. *)
Lemma rateLimit_admit_record (c w : Z) (req : request) (now : Z) (rnd : Q)
    (store : gmap (option string) (list Z)) :
  0 < w ->
  let kept := filter (fun t => now - w < t) (record_of store (clientIp req)) in
  Z.of_nat (length kept) < c ->
  record_of (rateLimit c w req now rnd store).2 (clientIp req) = kept ++ [now].
Proof.
  cbv zeta. intros Hw H. rewrite (rateLimit_admit c w req now rnd store H).
  cbn [snd]. destruct (negb (Qle_bool (1 # 10) rnd)).
  - rewrite cleanup_lookup, record_of_insert. apply filter_all.
    apply Forall_app. split; [apply Forall_filter_holds|].
    constructor; [lia | constructor].
  - apply record_of_insert.
Qed.

Lemma chronological_weaken (now now' : Z) (record : list Z) :
  now <= now' -> chronological now record -> chronological now' record.
Proof.
  intros Hle [Hs Hb]. split; [exact Hs|].
  eapply Forall_impl; [exact Hb|]. intros t Ht. cbn in Ht. lia.
Qed.

Lemma chronological_filter (P : Z -> Prop) `{!forall x, Decision (P x)}
    (now : Z) (record : list Z) :
  chronological now record -> chronological now (filter P record).
Proof.
  intros [Hs Hb]. split;
    [now apply StronglySorted_filter | now apply Forall_filter_keeps].
Qed.

Lemma chronological_snoc (now now' : Z) (record : list Z) :
  now <= now' -> chronological now record -> chronological now' (record ++ [now']).
Proof.
  intros Hle [Hs Hb]. split.
  - apply StronglySorted_app_2; [|exact Hs | repeat constructor].
    intros t1 t2 H1 H2. apply list_elem_of_singleton in H2 as ->.
    rewrite Forall_forall in Hb. specialize (Hb _ H1). cbn in Hb. lia.
  - apply Forall_app. split.
    + eapply Forall_impl; [exact Hb|]. intros t Ht. cbn in Ht. lia.
    + constructor; [lia | constructor].
Qed.

Lemma cleanup_chronological (ws now : Z) (store : gmap (option string) (list Z)) :
  store_chronological now store ->
  store_chronological now (cleanupRateLimitStore ws store).
Proof.
  intros H client. rewrite cleanup_lookup. apply chronological_filter, H.
Qed.

(** The limiter keeps every record chronological as long as the clock does
    not run backwards. *)
Lemma rateLimit_chronological (c w : Z) (req : request) (now now' : Z) (rnd : Q)
    (store : gmap (option string) (list Z)) :
  now <= now' ->
  store_chronological now store ->
  store_chronological now' (rateLimit c w req now' rnd store).2.
Proof.
  intros Hle Hst.
  assert (Hst' : store_chronological now' store).
  { intros client. eapply chronological_weaken; [exact Hle | apply Hst]. }
  destruct (Z.le_gt_cases c
              (Z.of_nat (length (filter (fun t => now' - w < t)
                                   (record_of store (clientIp req))))))
    as [Hrej|Hadm].
  - now rewrite (rateLimit_reject c w req now' rnd store Hrej).
  - rewrite (rateLimit_admit c w req now' rnd store Hadm). cbn [snd].
    assert (Hins : store_chronological now'
              (<[clientIp req :=
                   filter (fun t => now' - w < t) (record_of store (clientIp req))
                     ++ [now']]> store)).
    { intros client. destruct (decide (clientIp req = client)) as [<-|Hne].
      - rewrite record_of_insert.
        apply (chronological_snoc now'); [lia|].
        apply chronological_filter, Hst'.
      - rewrite (record_of_insert_ne _ _ _ _ Hne). apply Hst'. }
    destruct (negb (Qle_bool (1 # 10) rnd));
      [now apply cleanup_chronological | exact Hins].
Qed.

Lemma empty_chronological (now : Z) : store_chronological now ∅.
Proof. intros client. unfold record_of. rewrite lookup_empty. split; constructor. Qed.

(** One admitted request, in terms of the client's record. *)
Lemma admit_step (c w : Z) (req : request) (now : Z) (rnd : Q)
    (store : gmap (option string) (list Z)) (kept : list Z) :
  0 < w ->
  filter (fun t => now - w < t) (record_of store (clientIp req)) = kept ->
  Z.of_nat (length kept) < c ->
  exists store',
    rateLimit c w req now rnd store = (Next, store') /\
    record_of store' (clientIp req) = kept ++ [now].
Proof.
  intros Hw <- Hlt.
  pose proof (rateLimit_admit_record c w req now rnd store Hw Hlt) as Hr.
  rewrite (rateLimit_admit c w req now rnd store Hlt) in Hr |- *.
  eexists. split; [reflexivity | exact Hr].
Qed.

(** One rejected request, in terms of the client's record. *)
Lemma reject_step (c w : Z) (req : request) (now : Z) (rnd : Q)
    (store : gmap (option string) (list Z)) (oldest : Z) (rest : list Z) :
  filter (fun t => now - w < t) (record_of store (clientIp req)) = oldest :: rest ->
  c <= Z.of_nat (length (oldest :: rest)) ->
  rateLimit c w req now rnd store =
    (Respond 429 false "Too many requests, please try again later"
       {| limit := c; windowMs := w;
          remainingTime := Some (ceil_seconds (oldest + w - now)) |},
     store).
Proof.
  intros Hk Hge. rewrite <- Hk in Hge.
  rewrite (rateLimit_reject c w req now rnd store Hge). now rewrite Hk.
Qed.

(** Capacity 3, window 1000 ms, one client, a clock that does not run
    backwards: three requests within the window pass, a fourth within the
    window of the first is rejected with a positive estimate, and a request
    made once the window of the first has elapsed passes, the first timestamp
    having left the record.  The sweep may run or not at every step. *)
Lemma three_pass_fourth_waits (req : request) (t1 t2 t3 t4 t5 : Z)
    (r1 r2 r3 r4 r5 : Q) :
  t1 <= t2 -> t2 <= t3 -> t3 <= t4 -> t4 < t1 + 1000 ->
  t4 <= t5 -> t1 + 1000 <= t5 ->
  exists wait store,
    serve 3 1000
      [(req, t1, r1); (req, t2, r2); (req, t3, r3); (req, t4, r4); (req, t5, r5)] ∅
    = ([Next; Next; Next;
        Respond 429 false "Too many requests, please try again later"
          {| limit := 3; windowMs := 1000; remainingTime := Some wait |};
        Next],
       store) /\
    0 < wait /\
    t1 ∉ record_of store (clientIp req).
Proof.
  intros H12 H23 H34 H41 H45 H15.
  destruct (admit_step 3 1000 req t1 r1 ∅ [] ltac:(lia)) as (s1 & E1 & R1);
    [unfold record_of; now rewrite lookup_empty | cbn; lia |].
  destruct (admit_step 3 1000 req t2 r2 s1 [t1] ltac:(lia)) as (s2 & E2 & R2);
    [rewrite R1; cbn [app]; now rewrite filter_cons_True by lia | cbn; lia |].
  destruct (admit_step 3 1000 req t3 r3 s2 [t1; t2] ltac:(lia)) as (s3 & E3 & R3);
    [rewrite R2; cbn [app]; now rewrite !filter_cons_True by lia | cbn; lia |].
  pose proof (reject_step 3 1000 req t4 r4 s3 t1 [t2; t3]) as E4.
  rewrite R3 in E4. cbn [app] in E4.
  rewrite !filter_cons_True in E4 by lia.
  specialize (E4 eq_refl ltac:(cbn; lia)).
  destruct (admit_step 3 1000 req t5 r5 s3
              (filter (fun t => t5 - 1000 < t) [t2; t3]) ltac:(lia))
    as (s5 & E5 & R5).
  { rewrite R3. cbn [app]. now rewrite filter_cons_False by lia. }
  { pose proof (length_filter (fun t => t5 - 1000 < t) [t2; t3]) as Hl.
    cbn [length] in Hl. lia. }
  exists (ceil_seconds (t1 + 1000 - t4)), s5. split; [|split].
  - cbn [serve]. rewrite E1, E2, E3, E4, E5. reflexivity.
  - apply ceil_seconds_bounds. lia.
  - rewrite R5. intros Hin. apply elem_of_app in Hin as [Hin|Hin].
    + apply list_elem_of_filter in Hin as [Hin _]. lia.
    + apply list_elem_of_singleton in Hin. lia.
Qed.

End RateFacts.

Module RateExamples.
Import Middleware.

(** Capacity 3, window 1000 ms: three requests pass, the fourth is
    rejected with one second to wait, the fifth passes once the window has
    moved on, and the oldest entry has left the record. *)
Example burst_of_five :
  serve 3 1000 Sample.burst ∅ =
    ([Next; Next; Next;
      Respond 429 false "Too many requests, please try again later"
        {| limit := 3; windowMs := 1000; remainingTime := Some 1 |};
      Next],
     {[ Some "196.201.214.7" := [10; 20; 1001] ]}).
Proof. vm_compute. reflexivity. Qed.

(** With capacity 0 every request is rejected and no estimate can be
    computed from an empty record. *)
Example capacity_zero :
  rateLimit 0 1000 Sample.client 500 (1 # 2) ∅ =
    (Respond 429 false "Too many requests, please try again later"
       {| limit := 0; windowMs := 1000; remainingTime := None |}, ∅).
Proof. reflexivity. Qed.

End RateExamples.

(** C7.  For a limiter of capacity [c >= 1] and window [w > 0] and a client
    whose record was written under a clock that does not run backwards: a
    request arriving when fewer than [c] recorded timestamps lie in
    (now - w, now] is admitted and [now] is appended to the retained
    timestamps; a request arriving when at least [c] lie there is rejected
    with status 429, the store untouched, and a positive retry-after
    estimate, the time until the oldest retained timestamp leaves the window
    in seconds rounded up; timestamps at or before [now - w] are not
    counted. *)
Theorem rateLimit_sliding_window :
  forall (c w : Z) (req : Middleware.request) (now : Z) (rnd : Q)
         (store : gmap (option string) (list Z)),
    0 < c -> 0 < w ->
    chronological now (record_of store (Middleware.clientIp req)) ->
    let record := record_of store (Middleware.clientIp req) in
    let retained := in_window now w record in
    (Z.of_nat (length retained) < c ->
       exists store',
         Middleware.rateLimit c w req now rnd store = (Middleware.Next, store') /\
         record_of store' (Middleware.clientIp req) = retained ++ [now]) /\
    (c <= Z.of_nat (length retained) ->
       exists oldest r,
         head retained = Some oldest /\
         Forall (fun t => oldest <= t) retained /\
         Middleware.rateLimit c w req now rnd store =
           (Middleware.Respond 429 false "Too many requests, please try again later"
              {| Middleware.limit := c; Middleware.windowMs := w;
                 Middleware.remainingTime := Some r |},
            store) /\
         r = Middleware.ceil_seconds (oldest + w - now) /\
         0 < r /\
         1000 * (r - 1) < oldest + w - now <= 1000 * r) /\
    (forall t, t ∈ retained <-> t ∈ record /\ now - w < t <= now).
Proof.
  intros c w req now rnd store Hc Hw [Hsorted Hbound]. cbv zeta.
  pose proof (RateFacts.kept_in_window now w _ Hbound) as Hkept.
  split; [|split].
  - intros Hlt. rewrite <- Hkept in Hlt |- *. eexists. split.
    + apply (RateFacts.rateLimit_admit c w req now rnd store Hlt).
    + pose proof (RateFacts.rateLimit_admit_record c w req now rnd store Hw Hlt) as Hr.
      rewrite (RateFacts.rateLimit_admit c w req now rnd store Hlt) in Hr.
      exact Hr.
  - intros Hge. rewrite <- Hkept in Hge |- *.
    pose proof (RateFacts.rateLimit_reject c w req now rnd store Hge) as Hrej.
    pose proof (RateFacts.StronglySorted_filter (fun t => now - w < t) _ Hsorted)
      as Hs.
    pose proof (RateFacts.Forall_filter_holds (fun t => now - w < t)
                  (record_of store (Middleware.clientIp req))) as Hin.
    destruct (filter (fun t => now - w < t)
                (record_of store (Middleware.clientIp req)))
      as [|oldest rest]; [cbn in Hge; lia|].
    apply Forall_cons in Hin as [Hold _].
    apply StronglySorted_cons in Hs as [Hmin _].
    destruct (RateFacts.ceil_seconds_bounds (oldest + w - now)) as [Hpos Hb];
      [lia|].
    exists oldest, (Middleware.ceil_seconds (oldest + w - now)).
    split; [reflexivity|]. split; [constructor; [lia | exact Hmin]|].
    split; [exact Hrej|]. split; [reflexivity|]. split; [exact Hpos | exact Hb].
  - intros t. unfold in_window. rewrite list_elem_of_filter. tauto.
Qed.

(** A rejection at capacity 3, and an admission at capacity 4, of the same
    request. *)
Lemma rateLimit_sliding_window_witness :
  (exists r,
     Middleware.rateLimit 3 1000 Sample.client 1200 (1 # 2) Sample.busy_store =
       (Middleware.Respond 429 false "Too many requests, please try again later"
          {| Middleware.limit := 3; Middleware.windowMs := 1000;
             Middleware.remainingTime := Some r |},
        Sample.busy_store) /\
     0 < r) /\
  (exists store',
     Middleware.rateLimit 4 1000 Sample.client 1200 (1 # 2) Sample.busy_store =
       (Middleware.Next, store') /\
     record_of store' (Middleware.clientIp Sample.client) = [600; 700; 800; 1200]).
Proof.
  assert (Hchron : chronological 1200
                     (record_of Sample.busy_store (Middleware.clientIp Sample.client))).
  { split; vm_compute; repeat constructor; discriminate. }
  split.
  - destruct (rateLimit_sliding_window 3 1000 Sample.client 1200 (1 # 2)
                Sample.busy_store eq_refl eq_refl Hchron) as (_ & Hrej & _).
    destruct Hrej as (oldest & r & _ & _ & Hr & _ & Hpos & _);
      [vm_compute; discriminate|].
    exists r. split; [exact Hr | exact Hpos].
  - destruct (rateLimit_sliding_window 4 1000 Sample.client 1200 (1 # 2)
                Sample.busy_store eq_refl eq_refl Hchron) as (Hadm & _).
    destruct Hadm as (store' & Hr & Hrec); [vm_compute; reflexivity|].
    exists store'. split; [exact Hr | exact Hrec].
Defined.

(** C10.  When the limiter rejects a request the store is left exactly as it
    was: the current timestamp is not appended, and the pruned copy of the
    client's record is not written back. *)
Theorem rateLimit_rejection_leaves_store :
  forall (c w : Z) (req : Middleware.request) (now : Z) (rnd : Q)
         (store store' : gmap (option string) (list Z))
         (status : Z) (success : bool) (message : string)
         (data : Middleware.limit_data),
    Middleware.rateLimit c w req now rnd store
      = (Middleware.Respond status success message data, store') ->
    store' = store /\
    record_of store' (Middleware.clientIp req)
      = record_of store (Middleware.clientIp req).
Proof.
  intros c w req now rnd store store' status success message data H.
  unfold Middleware.rateLimit in H.
  destruct (Z.leb c _) in H.
  - injection H as _ _ _ _ <-. split; reflexivity.
  - discriminate H.
Qed.

(** The rejected request leaves the expired timestamp 0 in the record. *)
Lemma rateLimit_rejection_witness :
  Middleware.rateLimit 3 1000 Sample.client 1200 (1 # 2) Sample.busy_store
    = (Middleware.Respond 429 false "Too many requests, please try again later"
         {| Middleware.limit := 3; Middleware.windowMs := 1000;
            Middleware.remainingTime := Some 1 |},
       Sample.busy_store) /\
  record_of Sample.busy_store (Middleware.clientIp Sample.client)
    = [0; 600; 700; 800] /\
  Sample.busy_store = Sample.busy_store /\
  record_of Sample.busy_store (Middleware.clientIp Sample.client)
    = record_of Sample.busy_store (Middleware.clientIp Sample.client).
Proof.
  split; [reflexivity|]. split; [reflexivity|].
  exact (rateLimit_rejection_leaves_store 3 1000 Sample.client 1200 (1 # 2)
           Sample.busy_store Sample.busy_store 429 false
           "Too many requests, please try again later"
           {| Middleware.limit := 3; Middleware.windowMs := 1000;
              Middleware.remainingTime := Some 1 |}
           eq_refl).
Defined.

(** * Further properties *)

(** ** The phone helpers, continued *)

Module PhoneMore.

Lemma all_digits_forallb (s : string) :
  all_digits s -> Str.forallb Str.is_digit s = true.
Proof.
  induction s as [|c s IH]; [reflexivity|]. intros H. cbn [Str.forallb].
  apply andb_true_iff. split.
  - apply H. now left.
  - apply IH. intros x Hx. apply H. now right.
Qed.

Lemma startsWith_append (p x : string) : Str.startsWith (p +:+ x) p = true.
Proof.
  unfold Str.startsWith. induction p as [|c p IH].
  - now destruct x.
  - change (String c p +:+ x) with (String c (p +:+ x)). cbn [String.prefix].
    destruct (ascii_dec c c) as [_|Hne]; [exact IH | now contradiction Hne].
Qed.

Lemma matches_254 (x : string) :
  matches_254_9digits ("254" +:+ x)
  = Nat.eqb (String.length x) 9 && Str.forallb Str.is_digit x.
Proof.
  unfold matches_254_9digits. rewrite startsWith_append.
  change ("254" +:+ x) with (String "2" (String "5" (String "4" x))).
  reflexivity.
Qed.

Lemma matches_iff (s : string) :
  matches_254_9digits s = true <-> exists n, s = "254" +:+ n /\ nine_digits n.
Proof.
  split.
  - intros H. assert (Hp : Str.startsWith s "254" = true).
    { unfold matches_254_9digits in H.
      now apply andb_true_iff in H as [H%andb_true_iff _]. }
    destruct (PhoneFacts.prefix_append _ _ Hp) as [n ->]. exists n.
    split; [reflexivity|]. rewrite matches_254 in H.
    apply andb_true_iff in H as [Hl Hd]. split.
    + now apply Nat.eqb_eq.
    + now apply PhoneFacts.forallb_all_digits.
  - intros (n & -> & Hl & Hd). rewrite matches_254.
    apply andb_true_iff. split.
    + now apply Nat.eqb_eq.
    + now apply all_digits_forallb.
Qed.

Lemma digits_of_digits (s : string) : Str.forallb Str.is_digit (digits_of s) = true.
Proof.
  unfold digits_of. induction s as [|c s IH]; [reflexivity|]. cbn [Str.filter].
  destruct (Str.is_digit c) eqn:Hc; [|exact IH].
  cbn [Str.forallb]. now rewrite Hc.
Qed.

Lemma digits_of_fixed (s : string) :
  Str.forallb Str.is_digit s = true -> digits_of s = s.
Proof.
  unfold digits_of. induction s as [|c s IH]; [reflexivity|].
  cbn [Str.forallb Str.filter]. intros H.
  apply andb_true_iff in H as [Hc Hs]. now rewrite Hc, IH.
Qed.

(** What [formatPhoneNumber] computes from the digits of its argument. *)
Lemma formatPhoneNumber_digits (s : string) :
  formatPhoneNumber s =
    let d := digits_of s in
    let formatted :=
      if Str.startsWith d "0" then "254" +:+ Str.substring_from 1 d
      else if Str.startsWith d "712" || Str.startsWith d "722"
              || Str.startsWith d "733" then "254" +:+ d
      else d in
    if matches_254_9digits formatted then Ok formatted
    else Throw (Error "Invalid phone number format. Use 254XXXXXXXXX format").
Proof.
  unfold formatPhoneNumber, digits_of. cbv zeta.
  set (d := Str.filter Str.is_digit s).
  assert (Hplus : Str.startsWith d "+254" = false).
  { pose proof (digits_of_digits s) as Hd. fold d in Hd. unfold digits_of in Hd.
    fold d in Hd. destruct d as [|c d']; [reflexivity|].
    cbn [Str.forallb] in Hd. apply andb_true_iff in Hd as [Hc _].
    unfold Str.startsWith. cbn [String.prefix].
    destruct (ascii_dec "+" c) as [<-|]; [discriminate Hc | reflexivity]. }
  rewrite Hplus.
  destruct (Str.startsWith d "0");
    [|destruct (Str.startsWith d "712" || Str.startsWith d "722"
               || Str.startsWith d "733")];
    match goal with
    | |- context [matches_254_9digits ?f] => destruct (matches_254_9digits f)
    end; reflexivity.
Qed.

(** The arguments that [formatPhoneNumber] accepts, by their digits, and
    what it returns for them. *)
Lemma accepted_forms (s r : string) :
  formatPhoneNumber s = Ok r <->
  exists n,
    nine_digits n /\ r = "254" +:+ n /\
    (digits_of s = "0" +:+ n \/
     digits_of s = "254" +:+ n \/
     (digits_of s = n /\
      (Str.startsWith n "712" = true \/ Str.startsWith n "722" = true \/
       Str.startsWith n "733" = true))).
Proof.
  rewrite formatPhoneNumber_digits. cbv zeta.
  set (d := digits_of s). split.
  - destruct (Str.startsWith d "0") eqn:H0.
    + destruct (PhoneFacts.prefix_append _ _ H0) as [rest Hd].
      rewrite Hd. change (Str.substring_from 1 ("0" +:+ rest)) with rest.
      destruct (matches_254_9digits ("254" +:+ rest)) eqn:Hm; [|discriminate].
      intros [= <-]. apply matches_iff in Hm as (n & Hn & Hnine).
      apply PasswordFacts.append_inj_l in Hn as <-. exists rest. auto.
    + destruct (Str.startsWith d "712" || Str.startsWith d "722"
                || Str.startsWith d "733") eqn:H7.
      * destruct (matches_254_9digits ("254" +:+ d)) eqn:Hm; [|discriminate].
        intros [= <-]. apply matches_iff in Hm as (n & Hn & Hnine).
        apply PasswordFacts.append_inj_l in Hn as <-.
        exists d. split; [exact Hnine|]. split; [reflexivity|].
        right. right. split; [reflexivity|].
        apply orb_true_iff in H7 as [H7%orb_true_iff|H7]; tauto.
      * destruct (matches_254_9digits d) eqn:Hm; [|discriminate].
        intros [= <-]. apply matches_iff in Hm as (n & Hn & Hnine).
        exists n. auto.
  - intros (n & Hnine & -> & [Hd|[Hd|[Hd H7]]]); rewrite Hd.
    + rewrite startsWith_append.
      change (Str.substring_from 1 ("0" +:+ n)) with n.
      assert (Hm : matches_254_9digits ("254" +:+ n) = true)
        by (apply matches_iff; eauto).
      now rewrite Hm.
    + change (Str.startsWith ("254" +:+ n) "0") with false.
      change (Str.startsWith ("254" +:+ n) "712") with false.
      change (Str.startsWith ("254" +:+ n) "722") with false.
      change (Str.startsWith ("254" +:+ n) "733") with false.
      cbn [orb]. cbv iota.
      assert (Hm : matches_254_9digits ("254" +:+ n) = true)
        by (apply matches_iff; eauto).
      now rewrite Hm.
    + assert (H0 : Str.startsWith n "0" = false).
      { destruct H7 as [H|[H|H]];
          destruct (PhoneFacts.prefix_append _ _ H) as [rest ->]; reflexivity. }
      rewrite H0.
      assert (H7' : Str.startsWith n "712" || Str.startsWith n "722"
                    || Str.startsWith n "733" = true).
      { destruct H7 as [H|[H|H]]; rewrite H; now rewrite ?orb_true_r. }
      rewrite H7'.
      assert (Hm : matches_254_9digits ("254" +:+ n) = true)
        by (apply matches_iff; eauto).
      now rewrite Hm.
Qed.

End PhoneMore.

(** X1.  [formatPhoneNumber] accepts an argument exactly when its digits
    (every other character is dropped) are [0] followed by nine digits, [254]
    followed by nine digits, or nine digits that begin with 712, 722 or 733;
    the result is then [254] followed by those nine digits. *)
Theorem formatPhoneNumber_accepted_forms :
  forall s r : string,
    formatPhoneNumber s = Ok r <->
    exists n,
      nine_digits n /\ r = "254" +:+ n /\
      (digits_of s = "0" +:+ n \/
       digits_of s = "254" +:+ n \/
       (digits_of s = n /\
        (Str.startsWith n "712" = true \/ Str.startsWith n "722" = true \/
         Str.startsWith n "733" = true))).
Proof. exact PhoneMore.accepted_forms. Qed.

(** X2.  [formatPhoneNumber] is idempotent: a number it returns is returned
    unchanged when formatted again. *)
Theorem formatPhoneNumber_idempotent :
  forall s r : string,
    formatPhoneNumber s = Ok r -> formatPhoneNumber r = Ok r.
Proof.
  intros s r H. apply PhoneMore.accepted_forms in H as (n & Hn & -> & _).
  apply PhoneMore.accepted_forms. exists n.
  split; [exact Hn|]. split; [reflexivity|]. right. left.
  apply PhoneMore.digits_of_fixed.
  destruct Hn as [_ Hd]. apply PhoneMore.all_digits_forallb in Hd.
  change ("254" +:+ n) with (String "2" (String "5" (String "4" n))).
  cbn [Str.forallb]. now rewrite Hd.
Qed.

Lemma formatPhoneNumber_idempotent_witness :
  formatPhoneNumber "+254 712-345-678" = Ok "254712345678" /\
  formatPhoneNumber "254712345678" = Ok "254712345678".
Proof.
  split; [reflexivity|].
  exact (formatPhoneNumber_idempotent "+254 712-345-678" "254712345678" eq_refl).
Defined.

(** X3.  [isValidKenyanPhoneNumber] never raises, and it accepts exactly the
    arguments that [formatPhoneNumber] formats: those whose digits are [0]
    or [254] followed by nine digits, or nine digits that begin with 712, 722
    or 733. *)
Theorem isValidKenyanPhoneNumber_iff :
  forall s : string,
    isValidKenyanPhoneNumber s = true <->
    exists n,
      nine_digits n /\
      (digits_of s = "0" +:+ n \/
       digits_of s = "254" +:+ n \/
       (digits_of s = n /\
        (Str.startsWith n "712" = true \/ Str.startsWith n "722" = true \/
         Str.startsWith n "733" = true))).
Proof.
  intros s. unfold isValidKenyanPhoneNumber. split.
  - destruct (formatPhoneNumber s) as [r|e] eqn:Hr; [|discriminate].
    intros _. apply PhoneMore.accepted_forms in Hr as (n & Hn & _ & Hd). eauto.
  - intros (n & Hn & Hd).
    assert (Hr : formatPhoneNumber s = Ok ("254" +:+ n))
      by (apply PhoneMore.accepted_forms; eauto).
    rewrite Hr. apply PhoneMore.matches_iff. eauto.
Qed.

(** ** The sanitizer *)

Module MaskFacts.

Lemma digits_ahead_length (n : nat) (s : string) :
  Mask.digits_ahead n s = true -> (n <= String.length s)%nat.
Proof.
  revert s. induction n as [|n IH]; intros s; cbn; [lia|].
  destruct s as [|c s]; [discriminate|]. intros H.
  apply andb_true_iff in H as [_ H]. apply IH in H. cbn. lia.
Qed.

Lemma replace_phone_short (s : string) :
  (String.length s < 12)%nat -> Mask.replace_phone s = s.
Proof.
  induction s as [|c s IH]; [reflexivity|]. intros Hlen.
  cbn [Mask.replace_phone].
  destruct (Mask.digits_ahead 12 (String c s)) eqn:Hd.
  - apply digits_ahead_length in Hd. lia.
  - rewrite IH; [reflexivity|]. cbn in Hlen. lia.
Qed.

Lemma assign_lookup (k : string) (v : value) (props : list (string * value)) :
  Js.assoc k (Mask.assign k v props) = Some v.
Proof.
  induction props as [|[k' v'] props IH]; cbn.
  - now rewrite String.eqb_refl.
  - destruct (String.eqb k k') eqn:Hk; cbn; now rewrite Hk.
Qed.

Lemma assign_other (k k' : string) (v : value) (props : list (string * value)) :
  k <> k' -> Js.assoc k' (Mask.assign k v props) = Js.assoc k' props.
Proof.
  intros Hne. assert (Hk' : String.eqb k' k = false).
  { apply String.eqb_neq. congruence. }
  induction props as [|[k0 v0] props IH]; cbn.
  - now rewrite Hk'.
  - destruct (String.eqb k k0) eqn:Hk; cbn.
    + apply String.eqb_eq in Hk as <-. now rewrite Hk'.
    + destruct (String.eqb k' k0); [reflexivity | exact IH].
Qed.

Lemma length_three (s : string) :
  String.length s = 3%nat ->
  exists x y z, s = String x (String y (String z EmptyString)).
Proof.
  destruct s as [|x [|y [|z [|? ?]]]]; cbn; intros H; try discriminate H.
  eauto.
Qed.

Lemma length_six (s : string) :
  String.length s = 6%nat ->
  exists a b, s = a +:+ b /\ String.length a = 3%nat /\ String.length b = 3%nat.
Proof.
  destruct s as [|x1 [|x2 [|x3 [|x4 [|x5 [|x6 [|? ?]]]]]]]; cbn; intros H;
    try discriminate H.
  exists (String x1 (String x2 (String x3 EmptyString))),
         (String x4 (String x5 (String x6 EmptyString))).
  repeat split.
Qed.

End MaskFacts.

(** X4.  When [phoneNumber] is a string that begins with twelve digits, the
    sanitizer returns a copy of the object in which the six middle digits
    have given way to four stars, the first three digits, the last three and
    whatever follows them being kept; every other property is as it was. *)
Theorem sanitizeCallbackData_masks_twelve_digits :
  forall (data : list (string * value)) (a b c rest : string),
    String.length a = 3%nat -> String.length b = 6%nat ->
    String.length c = 3%nat -> all_digits (a +:+ b +:+ c) ->
    Js.assoc "phoneNumber" data = Some (VStr (a +:+ b +:+ c +:+ rest)) ->
    exists data',
      sanitizeCallbackData data = Ok data' /\
      Js.assoc "phoneNumber" data' = Some (VStr (a +:+ "****" +:+ c +:+ rest)) /\
      forall k, k <> "phoneNumber" -> Js.assoc k data' = Js.assoc k data.
Proof.
  intros data a b c rest Ha Hb Hc Hd Hp.
  destruct (MaskFacts.length_three a Ha) as (a1 & a2 & a3 & ->).
  destruct (MaskFacts.length_three c Hc) as (c1 & c2 & c3 & ->).
  destruct (MaskFacts.length_six b Hb) as (b' & b'' & -> & Hb' & Hb'').
  destruct (MaskFacts.length_three b' Hb') as (b1 & b2 & b3 & ->).
  destruct (MaskFacts.length_three b'' Hb'') as (b4 & b5 & b6 & ->).
  apply PhoneMore.all_digits_forallb in Hd.
  cbv [String.append] in Hd, Hp |- *. cbn [Str.forallb] in Hd.
  repeat (apply andb_true_iff in Hd as [?H Hd]).
  unfold sanitizeCallbackData. cbv zeta. rewrite Hp.
  cbn [truthy_value Str.truthy].
  eexists. split; [reflexivity|]. split.
  - rewrite MaskFacts.assign_lookup. cbn [Mask.replace_phone Mask.digits_ahead].
    repeat match goal with H : Str.is_digit _ = true |- _ => rewrite H; clear H end.
    cbn [andb Mask.take Str.substring_from]. cbv [String.append]. reflexivity.
  - intros k Hk. apply MaskFacts.assign_other. congruence.
Qed.

Lemma sanitizeCallbackData_masks_witness :
  exists data',
    sanitizeCallbackData
      [("phoneNumber", VStr "254712345678"); ("amount", VNum (Num.of_Z 1))]
      = Ok data' /\
    Js.assoc "phoneNumber" data' = Some (VStr "254****678") /\
    forall k, k <> "phoneNumber" ->
      Js.assoc k data'
      = Js.assoc k [("phoneNumber", VStr "254712345678"); ("amount", VNum (Num.of_Z 1))].
Proof.
  apply (sanitizeCallbackData_masks_twelve_digits
           [("phoneNumber", VStr "254712345678"); ("amount", VNum (Num.of_Z 1))]
           "254" "712345" "678" EmptyString eq_refl eq_refl eq_refl).
  - intros ch Hin. cbn in Hin.
    repeat (destruct Hin as [<-|Hin]; [reflexivity|]). destruct Hin.
  - reflexivity.
Defined.

(** X5.  A truthy [phoneNumber] that is not a string (a number, as in the
    metadata of the provider, [true], an array, an object) makes the
    sanitizer raise a TypeError: such a value has no [replace] method. *)
Theorem sanitizeCallbackData_rejects_non_string :
  forall (data : list (string * value)) (v : value),
    Js.assoc "phoneNumber" data = Some v ->
    truthy_value v = true ->
    (forall s, v <> VStr s) ->
    sanitizeCallbackData data = Throw TypeError.
Proof.
  intros data v Hp Ht Hs. unfold sanitizeCallbackData. cbv zeta.
  rewrite Hp, Ht. destruct v; try reflexivity. now contradiction (Hs s).
Qed.

Lemma sanitizeCallbackData_rejects_witness :
  sanitizeCallbackData [("phoneNumber", VNum (Num.of_Z 254712345678))]
    = Throw TypeError.
Proof.
  apply (sanitizeCallbackData_rejects_non_string
           [("phoneNumber", VNum (Num.of_Z 254712345678))]
           (VNum (Num.of_Z 254712345678)) eq_refl eq_refl).
  intros s. discriminate.
Defined.

(** X6.  A [phoneNumber] string of fewer than twelve characters (a number in
    the local form 07XXXXXXXX, say) is not masked: the sanitizer returns the
    properties unchanged. *)
Theorem sanitizeCallbackData_keeps_short_numbers :
  forall (data : list (string * value)) (s : string),
    Js.assoc "phoneNumber" data = Some (VStr s) ->
    (String.length s < 12)%nat ->
    exists data',
      sanitizeCallbackData data = Ok data' /\
      forall k, Js.assoc k data' = Js.assoc k data.
Proof.
  intros data s Hp Hlen. unfold sanitizeCallbackData. cbv zeta. rewrite Hp.
  cbn [truthy_value]. destruct (Str.truthy s); eexists; (split; [reflexivity|]);
    [|reflexivity].
  intros k. rewrite (MaskFacts.replace_phone_short s Hlen).
  destruct (String.eqb k "phoneNumber") eqn:Hk.
  - apply String.eqb_eq in Hk as ->. now rewrite MaskFacts.assign_lookup.
  - apply String.eqb_neq in Hk. apply MaskFacts.assign_other. congruence.
Qed.

Lemma sanitizeCallbackData_short_witness :
  exists data',
    sanitizeCallbackData [("phoneNumber", VStr "0712345678")] = Ok data' /\
    forall k, Js.assoc k data' = Js.assoc k [("phoneNumber", VStr "0712345678")].
Proof.
  apply (sanitizeCallbackData_keeps_short_numbers
           [("phoneNumber", VStr "0712345678")] "0712345678" eq_refl).
  cbn. lia.
Defined.

(** ** Retrying with exponential backoff *)

Module RetryFacts.

Section Facts.
Context {A E : Type} (fn : nat -> A + E).

Lemma backoff_sum (delay : Z) (k : nat) :
  foldr Z.add 0 (backoff delay k) = delay * (2 ^ Z.of_nat k - 1).
Proof.
  revert delay. induction k as [|k IH]; intros delay; cbn [backoff foldr].
  - change (Z.of_nat 0) with 0. rewrite Z.pow_0_r. lia.
  - rewrite IH, Nat2Z.inj_succ, Z.pow_succ_r by lia. lia.
Qed.

(** The loop entered with [k] failures ahead of a call that ends it, either
    with a value or, at the last index, with the error thrown. *)
Lemma loop_run (k : nat) :
  forall (fuel : nat) (i maxRetries delay : Z) (lastError : option E)
         (n : nat) (slept : list Z) (final : A + option E),
    i + Z.of_nat k <= maxRetries ->
    maxRetries - i <= Z.of_nat fuel ->
    (forall j, (j < k)%nat -> exists e, fn (n + j) = inr e) ->
    match fn (n + k) with
    | inl a => final = inl a
    | inr e => i + Z.of_nat k = maxRetries /\ final = inr (Some e)
    end ->
    Retry.loop fn fuel i maxRetries delay lastError n slept
    = {| Retry.result := final; Retry.calls := S (n + k);
         Retry.sleeps := slept ++ backoff delay k |}.
Proof.
  induction k as [|k IH]; intros fuel i maxRetries delay lastError n slept final
    Hi Hfuel Hfail Hend.
  - rewrite Nat.add_0_r in *. rewrite app_nil_r.
    assert (Hle : Z.leb i maxRetries = true) by (apply Z.leb_le; lia).
    destruct fuel; cbn [Retry.loop]; rewrite Hle; revert Hend;
      (destruct (fn n) as [a|e]; [now intros ->|]);
      intros [Heq ->];
      (assert (Hq : Z.eqb i maxRetries = true) by (apply Z.eqb_eq; lia));
      now rewrite Hq.
  - assert (Hle : Z.leb i maxRetries = true) by (apply Z.leb_le; lia).
    assert (Hq : Z.eqb i maxRetries = false) by (apply Z.eqb_neq; lia).
    destruct (Hfail 0%nat ltac:(lia)) as [e He]. rewrite Nat.add_0_r in He.
    destruct fuel as [|fuel]; [lia|]. cbn [Retry.loop]. rewrite Hle, He, Hq.
    rewrite (IH fuel (i + 1) maxRetries (delay * 2) (Some e) (S n)
               (slept ++ [delay]) final).
    + f_equal; [lia | rewrite <- app_assoc; reflexivity].
    + lia.
    + lia.
    + intros j Hj. replace (S n + j)%nat with (n + S j)%nat by lia.
      apply Hfail. lia.
    + replace (S n + k)%nat with (n + S k)%nat by lia.
      destruct (fn (n + S k)); [exact Hend|].
      destruct Hend as [Heq ->]. split; [lia | reflexivity].
Qed.

(** The loop entered past its bound throws [lastError] at once. *)
Lemma loop_over (fuel : nat) (i maxRetries delay : Z) (lastError : option E)
    (n : nat) (slept : list Z) :
  maxRetries < i ->
  Retry.loop fn fuel i maxRetries delay lastError n slept
  = {| Retry.result := inr lastError; Retry.calls := n; Retry.sleeps := slept |}.
Proof.
  intros H. assert (Hle : Z.leb i maxRetries = false) by (apply Z.leb_gt; lia).
  destruct fuel; cbn [Retry.loop]; now rewrite Hle.
Qed.

(** Every run with at least one iteration ahead ends after some [k]
    failures, as [loop_run] describes. *)
Lemma ending (n : nat) (bound : nat) :
  exists k, (k <= bound)%nat /\
    (forall j, (j < k)%nat -> exists e, fn (n + j) = inr e) /\
    ((exists e, fn (n + k) = inr e) -> k = bound).
Proof.
  induction bound as [|bound (k & Hk & Hfail & Hend)].
  - exists 0%nat. split; [lia|]. split; [intros j Hj; lia | reflexivity].
  - destruct (fn (n + k)) as [a|e] eqn:Hfn.
    + exists k. split; [lia|]. split; [exact Hfail|].
      intros [e He]. rewrite Hfn in He. discriminate He.
    + assert (k = bound) as -> by (apply Hend; eauto).
      destruct (fn (n + S bound)) as [a|e'] eqn:Hfn'.
      * exists (S bound). split; [lia|]. split.
        -- intros j Hj. destruct (decide (j = bound)) as [->|]; [eauto|].
           apply Hfail. lia.
        -- reflexivity.
      * exists (S bound). split; [lia|]. split; [|reflexivity].
        intros j Hj. destruct (decide (j = bound)) as [->|]; [eauto|].
        apply Hfail. lia.
Qed.

End Facts.

End RetryFacts.

(** X7.  If the calls number 0 to k-1 of [fn] fail and the call number k
    succeeds, with k at most [maxRetries], then [retryWithBackoff] returns
    the value of that call after exactly k+1 calls, having waited [delay],
    [2 delay], ..., [2^(k-1) delay] between them. *)
Theorem retryWithBackoff_first_success :
  forall (A E : Type) (fn : nat -> A + E) (maxRetries delay : Z) (k : nat) (a : A),
    Z.of_nat k <= maxRetries ->
    (forall j, (j < k)%nat -> exists e, fn j = inr e) ->
    fn k = inl a ->
    Retry.retryWithBackoff fn maxRetries delay
    = {| Retry.result := inl a; Retry.calls := S k;
         Retry.sleeps := backoff delay k |}.
Proof.
  intros A E fn maxRetries delay k a Hk Hfail Hok.
  unfold Retry.retryWithBackoff.
  apply (RetryFacts.loop_run fn k (Z.to_nat maxRetries) 0 maxRetries delay None
           0%nat [] (inl a)); [lia | lia | exact Hfail |].
  cbn [Nat.add]. now rewrite Hok.
Qed.

(** X8.  If every call fails then, for [maxRetries >= 0], [retryWithBackoff]
    raises the error of the last call after exactly [maxRetries + 1] calls;
    it has waited [maxRetries] times, [delay (2^maxRetries - 1)] in all, and
    does not wait after the last failure. *)
Theorem retryWithBackoff_exhausted :
  forall (A E : Type) (fn : nat -> A + E) (maxRetries delay : Z) (e : E),
    0 <= maxRetries ->
    (forall j, (j < Z.to_nat maxRetries)%nat -> exists e', fn j = inr e') ->
    fn (Z.to_nat maxRetries) = inr e ->
    Retry.retryWithBackoff fn maxRetries delay
    = {| Retry.result := inr (Some e);
         Retry.calls := S (Z.to_nat maxRetries);
         Retry.sleeps := backoff delay (Z.to_nat maxRetries) |} /\
    foldr Z.add 0 (backoff delay (Z.to_nat maxRetries))
    = delay * (2 ^ maxRetries - 1).
Proof.
  intros A E fn maxRetries delay e Hm Hfail Hlast. split.
  - unfold Retry.retryWithBackoff.
    apply (RetryFacts.loop_run fn (Z.to_nat maxRetries) (Z.to_nat maxRetries) 0
             maxRetries delay None 0%nat [] (inr (Some e)));
      [lia | lia | exact Hfail |].
    cbn [Nat.add]. rewrite Hlast. split; [lia | reflexivity].
  - rewrite RetryFacts.backoff_sum. now rewrite Z2Nat.id.
Qed.

(** X9.  Whatever [fn] does, [retryWithBackoff] calls it at most
    [maxRetries + 1] times and waits once between two calls, the delays
    doubling from [delay].  With a negative [maxRetries] it calls nothing and
    raises undefined.  Otherwise it makes a call, and what it returns is the
    value of its last call; when it raises, it has made all its
    [maxRetries + 1] calls and raises the error of the last one. *)
Theorem retryWithBackoff_bounds :
  forall (A E : Type) (fn : nat -> A + E) (maxRetries delay : Z),
    let r := Retry.retryWithBackoff fn maxRetries delay in
    Z.of_nat (Retry.calls r) <= Z.max 0 (maxRetries + 1) /\
    Retry.sleeps r = backoff delay (pred (Retry.calls r)) /\
    (maxRetries < 0 ->
     r = {| Retry.result := inr None; Retry.calls := 0; Retry.sleeps := [] |}) /\
    (0 <= maxRetries ->
     (1 <= Retry.calls r)%nat /\
     match Retry.result r with
     | inl a => fn (pred (Retry.calls r)) = inl a
     | inr thrown =>
         Z.of_nat (Retry.calls r) = maxRetries + 1 /\
         exists e, thrown = Some e /\ fn (pred (Retry.calls r)) = inr e
     end).
Proof.
  intros A E fn maxRetries delay. cbv zeta. unfold Retry.retryWithBackoff.
  destruct (Z.lt_ge_cases maxRetries 0) as [Hneg|Hpos].
  - rewrite RetryFacts.loop_over by lia. cbn. repeat split; try lia; reflexivity.
  - destruct (RetryFacts.ending fn 0%nat (Z.to_nat maxRetries))
      as (k & Hk & Hfail & Hend).
    cbn [Nat.add] in Hfail, Hend.
    destruct (fn k) as [a|e] eqn:Hfn.
    + rewrite (RetryFacts.loop_run fn k (Z.to_nat maxRetries) 0 maxRetries delay
                 None 0%nat [] (inl a)); try lia; try exact Hfail;
        [|cbn [Nat.add]; now rewrite Hfn].
      cbn. repeat split; try lia. exact Hfn.
    + assert (k = Z.to_nat maxRetries) as -> by (apply Hend; eauto).
      rewrite (RetryFacts.loop_run fn (Z.to_nat maxRetries) (Z.to_nat maxRetries)
                 0 maxRetries delay None 0%nat [] (inr (Some e)));
        try lia; try exact Hfail;
        [|cbn [Nat.add]; rewrite Hfn; split; [lia | reflexivity]].
      cbn. repeat split; try lia. eauto.
Qed.

Lemma retryWithBackoff_first_success_witness :
  Retry.retryWithBackoff
    (fun n : nat => if Nat.ltb n 2 then inr "ETIMEDOUT" else inl 42 : Z + string)
    3 1000
  = {| Retry.result := inl 42; Retry.calls := 3;
       Retry.sleeps := [1000; 2000] |}.
Proof.
  apply (retryWithBackoff_first_success Z string
           (fun n : nat => if Nat.ltb n 2 then inr "ETIMEDOUT" else inl 42)
           3 1000 2 42).
  - cbn. lia.
  - intros j Hj. exists "ETIMEDOUT".
    destruct j as [|[|j]]; [reflexivity | reflexivity | lia].
  - reflexivity.
Defined.

Lemma retryWithBackoff_exhausted_witness :
  Retry.retryWithBackoff (fun _ : nat => inr "ETIMEDOUT" : Z + string) 3 1000
  = {| Retry.result := inr (Some "ETIMEDOUT"); Retry.calls := 4;
       Retry.sleeps := [1000; 2000; 4000] |} /\
  foldr Z.add 0 [1000; 2000; 4000] = 1000 * (2 ^ 3 - 1).
Proof.
  apply (retryWithBackoff_exhausted Z string (fun _ : nat => inr "ETIMEDOUT")
           3 1000 "ETIMEDOUT").
  - lia.
  - intros j _. now exists "ETIMEDOUT".
  - reflexivity.
Defined.

(** ** The payment dispatcher, continued *)

Module PushFacts.
Import Service.

Lemma or_else_truthy (a : option string) (b : string) :
  Str.truthy b = true -> Str.truthy (or_else a b) = true.
Proof.
  intros Hb. destruct a as [s|]; [|exact Hb]. cbn [or_else].
  destruct (Str.truthy s) eqn:Hs; [exact Hs | exact Hb].
Qed.

Lemma or_else_some (m b : string) : Str.truthy m = true -> or_else (Some m) b = m.
Proof. intros H. cbn [or_else]. now rewrite H. Qed.

Lemma getAccessToken_throws o this tr e this1 tr1 :
  exec o getAccessToken this tr = (Throw e, this1, tr1) ->
  e = Error "Failed to authenticate with M-Pesa API" /\ this1 = this.
Proof.
  destruct (TokenFacts.hit_or_stale this (clock o tr))
    as [(tok & expiry & Hc & Hlt)|Hs].
  - rewrite (TokenFacts.getAccessToken_hit o this tr tok expiry Hc Hlt).
    discriminate.
  - rewrite (TokenFacts.getAccessToken_stale o this tr Hs). cbv zeta.
    destruct (refresh_reply o this tr) as [d|e'].
    + destruct (Str.truthy _); [discriminate|]. now intros [= <- <- _].
    + now intros [= <- <- _].
Qed.

Lemma formatPhoneNumber_truthy (phoneNumber formatted : string) :
  formatPhoneNumber phoneNumber = Ok formatted -> Str.truthy phoneNumber = true.
Proof. destruct phoneNumber; [discriminate | reflexivity]. Qed.

Lemma valid_amount_guards (amount : number) :
  isValidAmount amount = true ->
  Num.falsy amount = false /\
  Num.lt amount (Num.of_Z 1) || Num.gt amount (Num.of_Z 70000) = false.
Proof.
  rewrite <- AmountFacts.dispatcher_guards.
  destruct (Num.falsy amount); [discriminate|].
  destruct (Num.lt amount (Num.of_Z 1) || Num.gt amount (Num.of_Z 70000));
    [discriminate | now idtac].
Qed.

(** The three refusals that precede every effect. *)
Lemma initiateSTKPush_required fmt o this tr phoneNumber amount reference description :
  negb (Str.truthy phoneNumber) || Num.falsy amount = true ->
  exec o (initiateSTKPush fmt phoneNumber amount reference description) this tr
  = (Throw (Error "Phone number and amount are required"), this, tr).
Proof.
  intros H. unfold initiateSTKPush. exec_step. rewrite H. exec_step. reflexivity.
Qed.

Lemma initiateSTKPush_bad_phone fmt o this tr phoneNumber amount reference description e :
  negb (Str.truthy phoneNumber) || Num.falsy amount = false ->
  formatPhoneNumber phoneNumber = Throw e ->
  exec o (initiateSTKPush fmt phoneNumber amount reference description) this tr
  = (Throw (Error "Invalid phone number format. Use 254XXXXXXXXX format"), this, tr).
Proof.
  intros H He. unfold initiateSTKPush. exec_step. rewrite H. exec_step.
  rewrite He. exec_step.
  unfold formatPhoneNumber in He. destruct (negb _) in He; [|discriminate He].
  injection He as <-. exec_step. reflexivity.
Qed.

Lemma initiateSTKPush_bad_amount fmt o this tr phoneNumber amount reference description
    formatted :
  negb (Str.truthy phoneNumber) || Num.falsy amount = false ->
  formatPhoneNumber phoneNumber = Ok formatted ->
  Num.lt amount (Num.of_Z 1) || Num.gt amount (Num.of_Z 70000) = true ->
  exec o (initiateSTKPush fmt phoneNumber amount reference description) this tr
  = (Throw (Error "Amount must be between 1 and 70,000 KES"), this, tr).
Proof.
  intros H Hf Ha. unfold initiateSTKPush. exec_step. rewrite H. exec_step.
  rewrite Hf. exec_step. rewrite Ha. exec_step. reflexivity.
Qed.

(** A call with valid arguments: the token, the clock, then one POST whose
    reply decides the outcome. *)
Lemma initiateSTKPush_valid fmt o this tr phoneNumber amount reference description
    formatted :
  formatPhoneNumber phoneNumber = Ok formatted ->
  isValidAmount amount = true ->
  match exec o getAccessToken this tr with
  | (Throw _, this1, tr1) =>
      exec o (initiateSTKPush fmt phoneNumber amount reference description) this tr
      = (Throw (Error "Failed to authenticate with M-Pesa API"), this1, tr1)
  | (Ok token, this1, tr1) =>
      exists payload,
        let tr2 := EvMoment (clock o tr1) :: tr1 in
        let authorization := "Bearer " +:+ token in
        let reply := post_reply o tr2 (stkPushUrl this) authorization payload in
        exec o (initiateSTKPush fmt phoneNumber amount reference description) this tr
        = (match reply with
           | Ok d =>
               if is_string (ResponseCode d) "0" then
                 Ok {| push_success := true;
                       push_message := "STK Push initiated successfully";
                       push_data_of := {|
                         push_merchantRequestID := MerchantRequestID d;
                         push_checkoutRequestID := CheckoutRequestID d;
                         responseCode := ResponseCode d;
                         responseDescription := ResponseDescription d;
                         customerMessage := CustomerMessage d |} |}
               else Throw (Error (or_else (ResponseDescription d) "STK Push failed"))
           | Throw (AxiosError m (Some errorMessage)) =>
               Throw (Error (if Str.truthy errorMessage then errorMessage
                             else or_else (Some m) "Failed to initiate STK Push"))
           | Throw e =>
               Throw (Error (or_else (Some (message_of e))
                                     "Failed to initiate STK Push"))
           end,
           this1,
           EvPost (stkPushUrl this) authorization payload reply :: tr2) /\
        payload = VObj [
           ("BusinessShortCode", VStr (businessShortCode this));
           ("Password", VStr (generatePassword (businessShortCode this) (passkey this)
                                (fmt (clock o tr1))));
           ("Timestamp", VStr (fmt (clock o tr1)));
           ("TransactionType", VStr "CustomerPayBillOnline");
           ("Amount", VNum (Num.round amount));
           ("PartyA", VStr formatted);
           ("PartyB", VStr (businessShortCode this));
           ("PhoneNumber", VStr formatted);
           ("CallBackURL", VStr (callbackUrl this));
           ("AccountReference", VStr (or_else reference (accountReference this)));
           ("TransactionDesc", VStr (or_else description (transactionDesc this)))]
  end.
Proof.
  intros Hf Ha.
  pose proof (formatPhoneNumber_truthy _ _ Hf) as Hp.
  destruct (valid_amount_guards amount Ha) as [Hz Hr].
  destruct (exec o getAccessToken this tr) as [[[token|e] this1] tr1] eqn:Htok.
  - eexists. cbv zeta. split; [|reflexivity].
    unfold initiateSTKPush. exec_step. rewrite Hp, Hz. cbn [negb orb]. exec_step.
    rewrite Hf. exec_step. rewrite Hr. exec_step. rewrite Htok. exec_step.
    match goal with
    | |- context [post_reply ?o ?h ?u ?a ?p] =>
        set (reply := post_reply o h u a p); clearbody reply;
        destruct reply as [d|e]
    end; exec_step.
    + destruct (is_string (ResponseCode d) "0"); exec_step; [reflexivity|].
      rewrite or_else_some by (now apply or_else_truthy). reflexivity.
    + clear Hp. destruct e as [m| |m [em|]]; exec_step;
        try reflexivity.
      destruct (Str.truthy em); exec_step; reflexivity.
  - apply getAccessToken_throws in Htok as Hthrow. destruct Hthrow as [-> ->].
    unfold initiateSTKPush. exec_step. rewrite Hp, Hz. cbn [negb orb]. exec_step.
    rewrite Hf. exec_step. rewrite Hr. exec_step. rewrite Htok. exec_step.
    reflexivity.
Qed.

End PushFacts.

Module AmountMore.

Lemma round_in_range (amount : number) :
  isValidAmount amount = true ->
  exists n : Z, 1 <= n <= 70000 /\ Num.round amount = Num.of_Z n.
Proof.
  intros H. apply AmountFacts.isValidAmount_iff in H as (q & -> & Hlo & Hhi).
  exists (Qfloor (q + (1 # 2))). split; [|reflexivity]. split.
  - change 1 with (Qfloor (inject_Z 1)). apply Qfloor_resp_le.
    apply Qle_trans with q; [exact Hlo|].
    rewrite <- (Qplus_0_r q) at 1. apply Qplus_le_r. discriminate.
  - change 70000 with (Qfloor (inject_Z 70000 + (1 # 2))).
    apply Qfloor_resp_le. now apply Qplus_le_l.
Qed.

End AmountMore.

Module PushMore.
Import Service.

(** [getAccessToken] always consults the clock or the provider: the trace
    grows, by clock readings and credential exchanges only. *)
Lemma getAccessToken_grows o this tr :
  (length tr < length (exec o getAccessToken this tr).2)%nat.
Proof.
  destruct (TokenFacts.hit_or_stale this (clock o tr))
    as [(tok & expiry & Hc & Hlt)|Hs].
  - rewrite (TokenFacts.getAccessToken_hit o this tr tok expiry Hc Hlt).
    cbn [snd length]. lia.
  - rewrite (TokenFacts.getAccessToken_stale o this tr Hs). cbv zeta.
    assert (Hh : (length tr <= length (refresh_history o this tr))%nat).
    { unfold refresh_history. destruct (cached this); cbn [length]; lia. }
    destruct (refresh_reply o this tr) as [d|e]; [|cbn [snd length]; lia].
    destruct (Str.truthy _); cbn [snd length]; lia.
Qed.

Lemma valid_phone (phoneNumber : string) :
  isValidKenyanPhoneNumber phoneNumber = true ->
  exists formatted,
    formatPhoneNumber phoneNumber = Ok formatted /\ canonical_msisdn formatted.
Proof.
  unfold isValidKenyanPhoneNumber.
  destruct (formatPhoneNumber phoneNumber) as [formatted|e]; [|discriminate].
  intros H. exists formatted. split; [reflexivity|].
  now apply PhoneFacts.matches_canonical.
Qed.

Lemma invalid_phone (phoneNumber : string) :
  isValidKenyanPhoneNumber phoneNumber = false ->
  exists e, formatPhoneNumber phoneNumber = Throw e.
Proof.
  unfold isValidKenyanPhoneNumber, formatPhoneNumber.
  destruct (matches_254_9digits _) eqn:Hm; cbn [negb]; [|eauto].
  now rewrite Hm.
Qed.

Lemma initiateSTKPush_invalid fmt o this tr phoneNumber amount reference description :
  isValidKenyanPhoneNumber phoneNumber && isValidAmount amount = false ->
  exec o (initiateSTKPush fmt phoneNumber amount reference description) this tr
  = (Throw (Error
              (if negb (Str.truthy phoneNumber) || Num.falsy amount
               then "Phone number and amount are required"
               else if isValidKenyanPhoneNumber phoneNumber
               then "Amount must be between 1 and 70,000 KES"
               else "Invalid phone number format. Use 254XXXXXXXXX format")),
     this, tr).
Proof.
  intros Hbad.
  destruct (negb (Str.truthy phoneNumber) || Num.falsy amount) eqn:Hreq.
  { now apply PushFacts.initiateSTKPush_required. }
  destruct (isValidKenyanPhoneNumber phoneNumber) eqn:Hphone.
  - destruct (valid_phone _ Hphone) as (formatted & Hf & _).
    apply (PushFacts.initiateSTKPush_bad_amount _ _ _ _ _ _ _ _ formatted);
      [exact Hreq | exact Hf |].
    cbn [andb] in Hbad. rewrite <- AmountFacts.dispatcher_guards in Hbad.
    apply orb_false_iff in Hreq as [_ Hz]. rewrite Hz in Hbad.
    cbn [negb andb] in Hbad. now apply negb_false_iff in Hbad.
  - destruct (invalid_phone _ Hphone) as [e He].
    now apply (PushFacts.initiateSTKPush_bad_phone _ _ _ _ _ _ _ _ e).
Qed.

End PushMore.

(** X10.  A call of the dispatcher with an invalid argument raises before
    any effect: the clock is not read, the provider is not called and the
    object is unchanged.  The message is 'Phone number and amount are
    required' for an empty phone number or an amount that is 0 or NaN,
    otherwise the message of [formatPhoneNumber] for a phone number it
    refuses, otherwise 'Amount must be between 1 and 70,000 KES'.  With valid
    arguments the call always reaches the outside world: the trace grows. *)
Theorem initiateSTKPush_invalid_input_has_no_effect :
  forall (fmt : Z -> string) (o : oracle) (this : MpesaService) (tr : trace)
         (phoneNumber : string) (amount : number)
         (reference description : option string),
    let call :=
      exec o (Service.initiateSTKPush fmt phoneNumber amount reference description)
        this tr in
    (isValidKenyanPhoneNumber phoneNumber && isValidAmount amount = false ->
     call = (Throw (Error
                      (if negb (Str.truthy phoneNumber) || Num.falsy amount
                       then "Phone number and amount are required"
                       else if isValidKenyanPhoneNumber phoneNumber
                       then "Amount must be between 1 and 70,000 KES"
                       else "Invalid phone number format. Use 254XXXXXXXXX format")),
             this, tr)) /\
    (isValidKenyanPhoneNumber phoneNumber && isValidAmount amount = true ->
     (length tr < length call.2)%nat).
Proof.
  intros fmt o this tr phoneNumber amount reference description. cbv zeta. split.
  - apply PushMore.initiateSTKPush_invalid.
  - intros Hok. apply andb_true_iff in Hok as [Hphone Hamount].
    destruct (PushMore.valid_phone _ Hphone) as (formatted & Hf & _).
    pose proof (PushFacts.initiateSTKPush_valid fmt o this tr phoneNumber amount
                  reference description formatted Hf Hamount) as Hrun.
    pose proof (PushMore.getAccessToken_grows o this tr) as Hg.
    destruct (exec o Service.getAccessToken this tr) as [[[token|e] this1] tr1];
      cbn [snd] in Hg.
    + destruct Hrun as (payload & Hrun & _). cbv zeta in Hrun. rewrite Hrun.
      cbn [snd length]. lia.
    + rewrite Hrun. exact Hg.
Qed.

(** X11.  Whatever the arguments and the answers of the outside world, a
    call of the dispatcher posts nothing or one payload; in that payload
    [PartyA] and [PhoneNumber] are the canonical form of the phone number,
    [Amount] is the amount rounded, an integer between 1 and 70000,
    [Password] is the password generated from the short code, the passkey
    and the payload's own [Timestamp], and [BusinessShortCode] and [PartyB]
    are the short code of the service. *)
Theorem initiateSTKPush_payload_well_formed :
  forall (fmt : Z -> string) (o : oracle) (this : MpesaService) (tr : trace)
         (phoneNumber : string) (amount : number)
         (reference description : option string),
    let tr' :=
      (exec o (Service.initiateSTKPush fmt phoneNumber amount reference description)
         this tr).2 in
    posted tr' = posted tr \/
    exists (payload : value) (msisdn timestamp : string) (n : Z),
      posted tr' = payload :: posted tr /\
      formatPhoneNumber phoneNumber = Ok msisdn /\ canonical_msisdn msisdn /\
      field payload "PartyA" = VStr msisdn /\
      field payload "PhoneNumber" = VStr msisdn /\
      1 <= n <= 70000 /\ Num.round amount = Num.of_Z n /\
      field payload "Amount" = VNum (Num.of_Z n) /\
      field payload "Timestamp" = VStr timestamp /\
      field payload "Password"
        = VStr (generatePassword (businessShortCode this) (passkey this) timestamp) /\
      field payload "BusinessShortCode" = VStr (businessShortCode this) /\
      field payload "PartyB" = VStr (businessShortCode this) /\
      field payload "CallBackURL" = VStr (callbackUrl this).
Proof.
  intros fmt o this tr phoneNumber amount reference description. cbv zeta.
  destruct (isValidKenyanPhoneNumber phoneNumber && isValidAmount amount) eqn:Hv.
  - apply andb_true_iff in Hv as [Hphone Hamount].
    destruct (PushMore.valid_phone _ Hphone) as (formatted & Hf & Hc).
    pose proof (PushFacts.initiateSTKPush_valid fmt o this tr phoneNumber amount
                  reference description formatted Hf Hamount) as Hrun.
    pose proof (DispatchFacts.getAccessToken_posted o this tr) as Hp.
    destruct (exec o Service.getAccessToken this tr) as [[[token|e] this1] tr1];
      cbn [snd] in Hp.
    + destruct Hrun as (payload & Hrun & ->). cbv zeta in Hrun. rewrite Hrun.
      destruct (AmountMore.round_in_range amount Hamount) as (n & Hn & Hround).
      right. eexists _, formatted, (fmt (clock o tr1)), n. cbn [snd posted].
      rewrite Hp, Hround. repeat split; try reflexivity; try lia; try exact Hf;
        apply Hc.
    + rewrite Hrun. left. exact Hp.
  - left.
    now rewrite (PushMore.initiateSTKPush_invalid fmt o this tr phoneNumber amount
                   reference description Hv).
Qed.

(** X12.  A call of the dispatcher that posts nothing raises.  A call that
    posts ends with the reply to its POST as the last event, and the reply
    decides the outcome: a reply whose [ResponseCode] is the string "0"
    gives the success record carrying the five fields of the reply; any other
    reply raises its [ResponseDescription], or 'STK Push failed' when it has
    none; a rejected request raises the [errorMessage] of the provider when
    there is one, and the message of the rejection otherwise. *)
Theorem initiateSTKPush_outcome_follows_reply :
  forall (fmt : Z -> string) (o : oracle) (this : MpesaService) (tr : trace)
         (phoneNumber : string) (amount : number)
         (reference description : option string),
    let call :=
      exec o (Service.initiateSTKPush fmt phoneNumber amount reference description)
        this tr in
    (posted call.2 = posted tr /\ raised call.1.1 = true) \/
    exists (url authorization : string) (payload : value)
           (reply : outcome stk_data) (rest : trace),
      call.2 = EvPost url authorization payload reply :: rest /\
      posted rest = posted tr /\
      call.1.1 =
        match reply with
        | Ok d =>
            if is_string (ResponseCode d) "0" then
              Ok {| push_success := true;
                    push_message := "STK Push initiated successfully";
                    push_data_of := {|
                      push_merchantRequestID := MerchantRequestID d;
                      push_checkoutRequestID := CheckoutRequestID d;
                      responseCode := ResponseCode d;
                      responseDescription := ResponseDescription d;
                      customerMessage := CustomerMessage d |} |}
            else Throw (Error (or_else (ResponseDescription d) "STK Push failed"))
        | Throw (AxiosError m (Some errorMessage)) =>
            Throw (Error (if Str.truthy errorMessage then errorMessage
                          else or_else (Some m) "Failed to initiate STK Push"))
        | Throw e =>
            Throw (Error (or_else (Some (message_of e)) "Failed to initiate STK Push"))
        end.
Proof.
  intros fmt o this tr phoneNumber amount reference description. cbv zeta.
  destruct (isValidKenyanPhoneNumber phoneNumber && isValidAmount amount) eqn:Hv.
  - apply andb_true_iff in Hv as [Hphone Hamount].
    destruct (PushMore.valid_phone _ Hphone) as (formatted & Hf & Hc).
    pose proof (PushFacts.initiateSTKPush_valid fmt o this tr phoneNumber amount
                  reference description formatted Hf Hamount) as Hrun.
    pose proof (DispatchFacts.getAccessToken_posted o this tr) as Hp.
    destruct (exec o Service.getAccessToken this tr) as [[[token|e] this1] tr1];
      cbn [snd] in Hp.
    + destruct Hrun as (payload & Hrun & _). cbv zeta in Hrun. rewrite Hrun.
      right. eexists _, _, _, _, _. cbn [fst snd].
      split; [reflexivity|]. split; [exact Hp | reflexivity].
    + rewrite Hrun. left. split; [exact Hp | reflexivity].
  - left.
    rewrite (PushMore.initiateSTKPush_invalid fmt o this tr phoneNumber amount
               reference description Hv).
    split; reflexivity.
Qed.

Module PushOutcome.

(** The dispatcher returns a success or raises an [Error] that has a message. *)
Lemma outcome_shape :
  forall (fmt : Z -> string) (o : oracle) (this : MpesaService) (tr : trace)
         (phoneNumber : string) (amount : number)
         (reference description : option string),
    match (exec o (Service.initiateSTKPush fmt phoneNumber amount reference
                     description) this tr).1.1 with
    | Ok result => push_success result = true
    | Throw e => exists m, e = Error m /\ m <> EmptyString
    end.
Proof.
  intros fmt o this tr phoneNumber amount reference description.
  assert (Hne : forall m, Str.truthy m = true -> m <> EmptyString)
    by (intros m Hm ->; discriminate Hm).
  destruct (isValidKenyanPhoneNumber phoneNumber && isValidAmount amount) eqn:Hv.
  - apply andb_true_iff in Hv as [Hphone Hamount].
    destruct (PushMore.valid_phone _ Hphone) as (formatted & Hf & Hc).
    pose proof (PushFacts.initiateSTKPush_valid fmt o this tr phoneNumber amount
                  reference description formatted Hf Hamount) as Hrun.
    destruct (exec o Service.getAccessToken this tr) as [[[token|e] this1] tr1].
    + destruct Hrun as (payload & Hrun & _). cbv zeta in Hrun. rewrite Hrun.
      cbn [fst].
      destruct (post_reply _ _ _ _ _) as [d|[m| |m [em|]]].
      * destruct (is_string (ResponseCode d) "0"); [reflexivity|].
        eexists. split; [reflexivity|]. now apply Hne, PushFacts.or_else_truthy.
      * eexists. split; [reflexivity|]. now apply Hne, PushFacts.or_else_truthy.
      * eexists. split; [reflexivity|]. now apply Hne, PushFacts.or_else_truthy.
      * eexists. split; [reflexivity|]. apply Hne.
        destruct (Str.truthy em) eqn:Hem; [exact Hem|].
        now apply PushFacts.or_else_truthy.
      * eexists. split; [reflexivity|]. now apply Hne, PushFacts.or_else_truthy.
    + rewrite Hrun. cbn [fst]. eexists. split; [reflexivity | discriminate].
  - rewrite (PushMore.initiateSTKPush_invalid fmt o this tr phoneNumber amount
               reference description Hv).
    cbn [fst]. eexists. split; [reflexivity|].
    destruct (negb (Str.truthy phoneNumber) || Num.falsy amount); [discriminate|].
    destruct (isValidKenyanPhoneNumber phoneNumber); discriminate.
Qed.

End PushOutcome.

(** X13.  The dispatcher returns a record whose [success] is true, or raises
    an [Error] with a non-empty message: no TypeError and no HTTP-client
    error leaves it. *)
Theorem initiateSTKPush_raises_errors_with_message :
  forall (fmt : Z -> string) (o : oracle) (this : MpesaService) (tr : trace)
         (phoneNumber : string) (amount : number)
         (reference description : option string),
    match (exec o (Service.initiateSTKPush fmt phoneNumber amount reference
                     description) this tr).1.1 with
    | Ok result => push_success result = true
    | Throw e => exists m, e = Error m /\ m <> EmptyString
    end.
Proof. exact PushOutcome.outcome_shape. Qed.

(** X14.  With valid arguments, when the access token cannot be obtained the
    dispatcher raises 'Failed to authenticate with M-Pesa API' right after
    the failed exchange: the timestamp is not taken, nothing is posted, and
    the object is as before the call. *)
Theorem initiateSTKPush_authentication_failure :
  forall (fmt : Z -> string) (o : oracle) (this : MpesaService) (tr : trace)
         (phoneNumber : string) (amount : number)
         (reference description : option string),
    isValidKenyanPhoneNumber phoneNumber = true ->
    isValidAmount amount = true ->
    raised (exec o Service.getAccessToken this tr).1.1 = true ->
    exec o (Service.initiateSTKPush fmt phoneNumber amount reference description)
      this tr
    = (Throw (Error "Failed to authenticate with M-Pesa API"), this,
       (exec o Service.getAccessToken this tr).2) /\
    posted (exec o Service.getAccessToken this tr).2 = posted tr.
Proof.
  intros fmt o this tr phoneNumber amount reference description Hphone Hamount Hr.
  destruct (PushMore.valid_phone _ Hphone) as (formatted & Hf & Hc).
  pose proof (PushFacts.initiateSTKPush_valid fmt o this tr phoneNumber amount
                reference description formatted Hf Hamount) as Hrun.
  pose proof (DispatchFacts.getAccessToken_posted o this tr) as Hp.
  destruct (exec o Service.getAccessToken this tr) as [[[token|e] this1] tr1] eqn:Ht;
    [discriminate Hr|].
  apply PushFacts.getAccessToken_throws in Ht as [_ ->].
  split; [exact Hrun | exact Hp].
Qed.

Lemma initiateSTKPush_authentication_failure_witness :
  exec Sample.outage
    (Service.initiateSTKPush Sample.formatTimestamp "0712345678" (Num.of_Z 10)
       None None) Sample.service []
  = (Throw (Error "Failed to authenticate with M-Pesa API"), Sample.service,
     (exec Sample.outage Service.getAccessToken Sample.service []).2) /\
  posted (exec Sample.outage Service.getAccessToken Sample.service []).2 = posted [].
Proof.
  apply (initiateSTKPush_authentication_failure Sample.formatTimestamp
           Sample.outage Sample.service [] "0712345678" (Num.of_Z 10) None None);
    reflexivity.
Defined.

(** X15.  A call of the dispatcher that returns leaves a token cached; any
    further call made before the expiry of that token, whatever its
    arguments and outcome, makes no credential exchange and leaves the cache
    as it is. *)
Theorem initiateSTKPush_reuses_token :
  forall (fmt : Z -> string) (o : oracle) (this : MpesaService) (tr : trace)
         (phoneNumber : string) (amount : number)
         (reference description : option string)
         (result : push_result) (this1 : MpesaService) (tr1 : trace),
    exec o (Service.initiateSTKPush fmt phoneNumber amount reference description)
      this tr = (Ok result, this1, tr1) ->
    exists (token : string) (expiry : Z),
      cached this1 = VALID token expiry /\
      forall (o2 : oracle) (phoneNumber2 : string) (amount2 : number)
             (reference2 description2 : option string),
        clock o2 tr1 < expiry ->
        let call2 :=
          exec o2 (Service.initiateSTKPush fmt phoneNumber2 amount2 reference2
                     description2) this1 tr1 in
        network_gets call2.2 = network_gets tr1 /\ call2.1.2 = this1.
Proof.
  intros fmt o this tr phoneNumber amount reference description result this1 tr1
    Hcall.
  destruct (isValidKenyanPhoneNumber phoneNumber && isValidAmount amount) eqn:Hv;
    [|rewrite (PushMore.initiateSTKPush_invalid fmt o this tr phoneNumber amount
                 reference description Hv) in Hcall; discriminate Hcall].
  apply andb_true_iff in Hv as [Hphone Hamount].
  destruct (PushMore.valid_phone _ Hphone) as (formatted & Hf & _).
  pose proof (PushFacts.initiateSTKPush_valid fmt o this tr phoneNumber amount
                reference description formatted Hf Hamount) as Hrun.
  destruct (exec o Service.getAccessToken this tr) as [[[token|e] this0] tr0] eqn:Ht;
    [|rewrite Hrun in Hcall; discriminate Hcall].
  destruct Hrun as (payload & Hrun & _). cbv zeta in Hrun.
  rewrite Hrun in Hcall. injection Hcall as _ <- _.
  destruct (TokenFacts.second_call_reuses o this tr token this0 tr0 Ht)
    as (expiry & Hc & _).
  exists token, expiry. split; [exact Hc|].
  intros o2 phoneNumber2 amount2 reference2 description2 Hlt. cbv zeta.
  destruct (isValidKenyanPhoneNumber phoneNumber2 && isValidAmount amount2) eqn:Hv2.
  - apply andb_true_iff in Hv2 as [Hphone2 Hamount2].
    destruct (PushMore.valid_phone _ Hphone2) as (formatted2 & Hf2 & _).
    pose proof (PushFacts.initiateSTKPush_valid fmt o2 this0 tr1 phoneNumber2 amount2
                  reference2 description2 formatted2 Hf2 Hamount2) as Hrun2.
    rewrite (TokenFacts.getAccessToken_hit o2 this0 tr1 token expiry Hc Hlt) in Hrun2.
    destruct Hrun2 as (payload2 & Hrun2 & _). cbv zeta in Hrun2. rewrite Hrun2.
    cbn [fst snd]. split; [|reflexivity].
    now rewrite ExecFacts.network_gets_post, !ExecFacts.network_gets_moment.
  - rewrite (PushMore.initiateSTKPush_invalid fmt o2 this0 tr1 phoneNumber2 amount2
               reference2 description2 Hv2).
    split; reflexivity.
Qed.

Lemma initiateSTKPush_reuses_token_witness :
  exists (token : string) (expiry : Z),
    cached (exec Sample.provider
              (Service.initiateSTKPush Sample.formatTimestamp "0712345678"
                 (Num.of_Z 10) None None) Sample.service []).1.2
    = VALID token expiry /\
    forall (o2 : oracle) (phoneNumber2 : string) (amount2 : number)
           (reference2 description2 : option string),
      clock o2 (exec Sample.provider
                  (Service.initiateSTKPush Sample.formatTimestamp "0712345678"
                     (Num.of_Z 10) None None) Sample.service []).2 < expiry ->
      let call2 :=
        exec o2 (Service.initiateSTKPush Sample.formatTimestamp phoneNumber2
                   amount2 reference2 description2)
          (exec Sample.provider
             (Service.initiateSTKPush Sample.formatTimestamp "0712345678"
                (Num.of_Z 10) None None) Sample.service []).1.2
          (exec Sample.provider
             (Service.initiateSTKPush Sample.formatTimestamp "0712345678"
                (Num.of_Z 10) None None) Sample.service []).2 in
      network_gets call2.2
      = network_gets (exec Sample.provider
                        (Service.initiateSTKPush Sample.formatTimestamp "0712345678"
                           (Num.of_Z 10) None None) Sample.service []).2 /\
      call2.1.2 = (exec Sample.provider
                     (Service.initiateSTKPush Sample.formatTimestamp "0712345678"
                        (Num.of_Z 10) None None) Sample.service []).1.2.
Proof.
  apply (initiateSTKPush_reuses_token Sample.formatTimestamp Sample.provider
           Sample.service [] "0712345678" (Num.of_Z 10) None None
           {| push_success := true;
              push_message := "STK Push initiated successfully";
              push_data_of := {|
                push_merchantRequestID := Some "29115-34620561-1";
                push_checkoutRequestID := Some "ws_CO_191220191020363925";
                responseCode := Some "0";
                responseDescription := Some "Success. Request accepted for processing";
                customerMessage := Some "Success. Request accepted for processing" |} |}).
  reflexivity.
Defined.

(** ** The handlers of the controller *)

Module HandlerFacts.

(** The second guard of the handler lets through the positive numbers. *)
Lemma guards_positive (n : number) :
  Num.isNaN n || Num.le n (Num.of_Z 0) = negb (Num.gt n (Num.of_Z 0)).
Proof.
  unfold Num.gt, Num.of_Z. destruct n as [| | |q]; try reflexivity.
  cbn. now rewrite negb_involutive.
Qed.

(** A positive number is truthy. *)
Lemma positive_truthy (n : number) :
  Num.gt n (Num.of_Z 0) = true -> Num.falsy n = false.
Proof.
  unfold Num.gt, Num.of_Z. destruct n as [| | |q]; try discriminate; try reflexivity.
  cbn. intros H. apply negb_true_iff in H. apply not_true_is_false. intros Hq.
  apply Qeq_bool_iff in Hq. apply not_true_iff_false in H. apply H.
  apply Qle_bool_iff. rewrite Hq. apply Qle_refl.
Qed.

Section Conversions.
Variable NumberToString : number -> string.
Variable StringToNumber : string -> number.
Variable parseFloat : string -> number.

(** The conversion to a string raises nothing but a TypeError. *)
Lemma ToString_TypeError (v : value) :
  forall e, Js.ToString NumberToString v = Throw e -> e = TypeError.
Proof.
  induction v as [| |b|n|s|items IH|props] using CallbackFacts.value_ind';
    intros e; try discriminate.
  - destruct b; discriminate.
  - cbn [Js.ToString]. revert e.
    induction IH as [|x rest Hx _ IHrest]; intros e; [discriminate|].
    destruct (Js.nullish x).
    + destruct rest as [|y rest']; [discriminate|].
      match goal with
      | |- match ?r with _ => _ end = _ -> _ =>
          destruct r as [sr|e'] eqn:Hr; [discriminate|]
      end.
      intros [= <-]. now apply IHrest.
    + destruct (Js.ToString NumberToString x) as [sx|ex] eqn:Hsx.
      * destruct rest as [|y rest']; [discriminate|].
        match goal with
        | |- match ?r with _ => _ end = _ -> _ =>
            destruct r as [sr|e'] eqn:Hr; [discriminate|]
        end.
        intros [= <-]. now apply IHrest.
      * intros [= <-]. now apply Hx.
  - cbn. destruct (Js.has_own "toString" props); [now intros [= <-] | discriminate].
Qed.

Lemma ToNumber_TypeError (v : value) (e : exn) :
  Handlers.ToNumber NumberToString StringToNumber v = Throw e -> e = TypeError.
Proof.
  destruct v as [| |[|]| | |items|props]; try discriminate;
    unfold Handlers.ToNumber; cbn [mbind outcome_bind];
    destruct (Js.ToString NumberToString _) as [s|e'] eqn:Hs; try discriminate;
    intros [= <-]; exact (ToString_TypeError _ _ Hs).
Qed.

(** What [isNaN] could convert, [parseFloat] can read. *)
Lemma parseFloat_of_converted (v : value) (n : number) :
  Handlers.ToNumber NumberToString StringToNumber v = Ok n ->
  exists a, Handlers.parseFloat_of NumberToString parseFloat v = Ok a.
Proof.
  destruct v as [| |[|]| | |items|props]; try (intros _; eexists; reflexivity);
    unfold Handlers.ToNumber, Handlers.parseFloat_of; cbn [mbind outcome_bind];
    destruct (Js.ToString NumberToString _) as [s|e']; try discriminate;
    intros _; eexists; reflexivity.
Qed.

End Conversions.

End HandlerFacts.

Module HandlerRuns.
Import Handlers.

Section Runs.
Variable NumberToString : number -> string.
Variable StringToNumber : string -> number.
Variable parseFloat : string -> number.
Variable fmt : Z -> string.

(** The handler of the payment route, branch by branch. *)
Lemma initiateSTKPush_run o this tr (body : stkpush_body) :
  exec o (Handlers.initiateSTKPush NumberToString StringToNumber parseFloat fmt body)
    this tr =
    match phone body with
    | Some p =>
        if negb (Str.truthy p) || negb (truthy_value (amount body)) then
          (Ok (Refuse 400 "Phone number and amount are required" None), this, tr)
        else
          match ToNumber NumberToString StringToNumber (amount body) with
          | Throw e => (Ok (Refuse 500 (message_of TypeError) None), this, tr)
          | Ok n =>
              if Num.isNaN n || Num.le n (Num.of_Z 0) then
                (Ok (Refuse 400 "Amount must be a valid positive number" None),
                 this, tr)
              else
                match parseFloat_of NumberToString parseFloat (amount body) with
                | Throw e => (Ok (Refuse 500 (message_of TypeError) None), this, tr)
                | Ok a =>
                    let service :=
                      exec o (Service.initiateSTKPush fmt p a (accountReference body)
                                (transactionDesc body)) this tr in
                    (Ok match service.1.1 with
                        | Ok result => Answer 200 result
                        | Throw e => Refuse 500 (message_of e) None
                        end,
                     service.1.2, service.2)
                end
          end
    | None =>
        (Ok (Refuse 400 "Phone number and amount are required" None), this, tr)
    end.
Proof.
  unfold Handlers.initiateSTKPush. exec_step.
  destruct (phone body) as [p|]; [|exec_step; reflexivity].
  destruct (negb (Str.truthy p) || negb (truthy_value (amount body)));
    [exec_step; reflexivity|].
  exec_step.
  destruct (ToNumber NumberToString StringToNumber (amount body)) as [n|e] eqn:Hn;
    exec_step.
  2:{ apply HandlerFacts.ToNumber_TypeError in Hn as ->. reflexivity. }
  destruct (Num.isNaN n || Num.le n (Num.of_Z 0)); [exec_step; reflexivity|].
  exec_step.
  destruct (HandlerFacts.parseFloat_of_converted NumberToString StringToNumber
              parseFloat (amount body) n Hn) as [a Ha].
  rewrite Ha. exec_step. cbv zeta.
  pose proof (PushOutcome.outcome_shape fmt o this tr p a (accountReference body)
                (transactionDesc body)) as Hshape.
  destruct (exec o (Service.initiateSTKPush fmt p a (accountReference body)
                      (transactionDesc body)) this tr) as [[[result|e] this1] tr1];
    cbn [fst snd] in Hshape |- *; exec_step; [reflexivity|].
  destruct Hshape as (m & -> & Hm). destruct m as [|c m]; [now contradiction Hm|].
  reflexivity.
Qed.

End Runs.

End HandlerRuns.

(** X16.  The handler of the payment route always answers, whatever value
    [amount] is.  It answers 400, without any effect, when [phone] is missing
    or empty, when [amount] is falsy, and when [amount] converts, as [isNaN]
    and [<=] convert it, to NaN or to a number that is not positive; it
    answers 500, without any effect, when that conversion raises.  Otherwise
    it calls the dispatcher once, with [parseFloat(amount)] for the amount,
    and answers 200 with the dispatcher's result when that call returns, and
    500 with the message of its error when it raises. *)
Theorem controller_initiateSTKPush_status :
  forall (NumberToString : number -> string)
         (StringToNumber parseFloat : string -> number) (fmt : Z -> string)
         (o : oracle) (this : MpesaService) (tr : trace)
         (body : Handlers.stkpush_body),
    let call :=
      exec o (Handlers.initiateSTKPush NumberToString StringToNumber parseFloat
                fmt body) this tr in
    exists reply : Handlers.reply push_result,
      call.1.1 = Ok reply /\
      match Handlers.phone body with
      | Some p =>
          if Str.truthy p && truthy_value (Handlers.amount body) then
            match Handlers.ToNumber NumberToString StringToNumber
                    (Handlers.amount body) with
            | Ok n =>
                if Num.gt n (Num.of_Z 0) then
                  exists a,
                    Handlers.parseFloat_of NumberToString parseFloat
                      (Handlers.amount body) = Ok a /\
                    let service :=
                      exec o (Service.initiateSTKPush fmt p a
                                (Handlers.accountReference body)
                                (Handlers.transactionDesc body)) this tr in
                    call.1.2 = service.1.2 /\ call.2 = service.2 /\
                    reply = match service.1.1 with
                            | Ok result => Handlers.Answer 200 result
                            | Throw e => Handlers.Refuse 500 (message_of e) None
                            end
                else
                  Handlers.statusCode reply = 400 /\ call.1.2 = this /\ call.2 = tr
            | Throw _ =>
                Handlers.statusCode reply = 500 /\ call.1.2 = this /\ call.2 = tr
            end
          else Handlers.statusCode reply = 400 /\ call.1.2 = this /\ call.2 = tr
      | None => Handlers.statusCode reply = 400 /\ call.1.2 = this /\ call.2 = tr
      end.
Proof.
  intros nts s2n pf fmt o this tr body. cbv zeta.
  rewrite HandlerRuns.initiateSTKPush_run.
  destruct (Handlers.phone body) as [p|];
    [|eexists; split; [reflexivity | now idtac]].
  rewrite <- negb_andb.
  destruct (Str.truthy p && truthy_value (Handlers.amount body)); cbn [negb];
    [|eexists; split; [reflexivity | now idtac]].
  destruct (Handlers.ToNumber nts s2n (Handlers.amount body)) as [n|e] eqn:Hn;
    [|eexists; split; [reflexivity | now idtac]].
  rewrite HandlerFacts.guards_positive.
  destruct (Num.gt n (Num.of_Z 0)); cbn [negb];
    [|eexists; split; [reflexivity | now idtac]].
  destruct (HandlerFacts.parseFloat_of_converted nts s2n pf
              (Handlers.amount body) n Hn) as [a Ha].
  rewrite Ha. eexists. split; [reflexivity|]. exists a. now idtac.
Qed.

(** X30.  A request with a non-empty [phone] whose [amount] is truthy and
    converts to a positive number, so that it passes both guards of the
    handler, but that [parseFloat] reads as NaN or 0 (the value [true], the
    string "0x10"), reaches the dispatcher with that reading and is answered
    500 'Phone number and amount are required'; nothing has been sent to the
    provider. *)
Theorem controller_initiateSTKPush_unread_amount_is_500 :
  forall (NumberToString : number -> string)
         (StringToNumber parseFloat : string -> number) (fmt : Z -> string)
         (o : oracle) (this : MpesaService) (tr : trace)
         (body : Handlers.stkpush_body) (p : string) (n a : number),
    Handlers.phone body = Some p ->
    Str.truthy p = true ->
    truthy_value (Handlers.amount body) = true ->
    Handlers.ToNumber NumberToString StringToNumber (Handlers.amount body) = Ok n ->
    Num.gt n (Num.of_Z 0) = true ->
    Handlers.parseFloat_of NumberToString parseFloat (Handlers.amount body) = Ok a ->
    Num.falsy a = true ->
    exec o (Handlers.initiateSTKPush NumberToString StringToNumber parseFloat fmt
              body) this tr
    = (Ok (Handlers.Refuse 500 "Phone number and amount are required" None),
       this, tr).
Proof.
  intros nts s2n pf fmt o this tr body p n a Hphone Hp Ht Hn Hpos Ha Hz.
  rewrite HandlerRuns.initiateSTKPush_run, Hphone, Hp, Ht, Hn. cbn [negb orb].
  rewrite HandlerFacts.guards_positive, Hpos, Ha. cbn [negb]. cbv zeta.
  rewrite (PushFacts.initiateSTKPush_required fmt o this tr p a _ _)
    by (rewrite Hz; apply orb_true_r).
  reflexivity.
Qed.

Lemma controller_initiateSTKPush_unread_amount_is_500_witness :
  exec Sample.provider
    (Handlers.initiateSTKPush (fun _ => "1") (fun _ => NaN) (fun _ => NaN)
       Sample.formatTimestamp
       {| Handlers.phone := Some "0712345678";
          Handlers.amount := VBool true;
          Handlers.accountReference := None;
          Handlers.transactionDesc := None |}) Sample.service []
  = (Ok (Handlers.Refuse 500 "Phone number and amount are required" None),
     Sample.service, []).
Proof.
  apply (controller_initiateSTKPush_unread_amount_is_500
           (fun _ => "1") (fun _ => NaN) (fun _ => NaN) Sample.formatTimestamp
           Sample.provider Sample.service []
           {| Handlers.phone := Some "0712345678";
              Handlers.amount := VBool true;
              Handlers.accountReference := None;
              Handlers.transactionDesc := None |}
           "0712345678" (Num.of_Z 1) NaN); reflexivity.
Defined.

(** X17.  A request with a non-empty [phone] and a positive number for
    [amount] that the dispatcher refuses (a phone number that cannot be
    formatted, an amount below 1 or above 70000) is answered with status 500,
    not 400, and with the dispatcher's message; nothing has been sent to the
    provider. *)
Theorem controller_initiateSTKPush_invalid_is_500 :
  forall (NumberToString : number -> string)
         (StringToNumber parseFloat : string -> number) (fmt : Z -> string)
         (o : oracle) (this : MpesaService) (tr : trace)
         (body : Handlers.stkpush_body) (p : string) (a : number),
    Handlers.phone body = Some p ->
    Handlers.amount body = VNum a ->
    Str.truthy p = true ->
    Num.gt a (Num.of_Z 0) = true ->
    isValidKenyanPhoneNumber p && isValidAmount a = false ->
    exec o (Handlers.initiateSTKPush NumberToString StringToNumber parseFloat fmt
              body) this tr
    = (Ok (Handlers.Refuse 500
             (if isValidKenyanPhoneNumber p
              then "Amount must be between 1 and 70,000 KES"
              else "Invalid phone number format. Use 254XXXXXXXXX format")
             None),
       this, tr).
Proof.
  intros nts s2n pf fmt o this tr body p a Hphone Hamount Hp Ha Hbad.
  pose proof (HandlerFacts.positive_truthy a Ha) as Hz.
  rewrite HandlerRuns.initiateSTKPush_run, Hphone, Hamount, Hp.
  cbn [truthy_value Handlers.ToNumber Handlers.parseFloat_of]. rewrite Hz.
  cbn [negb orb]. rewrite HandlerFacts.guards_positive, Ha. cbn [negb]. cbv zeta.
  rewrite (PushMore.initiateSTKPush_invalid fmt o this tr p a _ _ Hbad).
  rewrite Hp, Hz. reflexivity.
Qed.

Lemma controller_initiateSTKPush_invalid_is_500_witness :
  exec Sample.provider
    (Handlers.initiateSTKPush (fun _ => "1") (fun _ => NaN) (fun _ => NaN)
       Sample.formatTimestamp
       {| Handlers.phone := Some "0712345678";
          Handlers.amount := VNum (Num.of_Z 70001);
          Handlers.accountReference := None;
          Handlers.transactionDesc := None |}) Sample.service []
  = (Ok (Handlers.Refuse 500 "Amount must be between 1 and 70,000 KES" None),
     Sample.service, []).
Proof.
  apply (controller_initiateSTKPush_invalid_is_500
           (fun _ => "1") (fun _ => NaN) (fun _ => NaN) Sample.formatTimestamp
           Sample.provider Sample.service []
           {| Handlers.phone := Some "0712345678";
              Handlers.amount := VNum (Num.of_Z 70001);
              Handlers.accountReference := None;
              Handlers.transactionDesc := None |}
           "0712345678" (Num.of_Z 70001)); reflexivity.
Defined.

(** X18.  The status route obtains a token and posts nothing.  It answers 200,
    with the instant read after the token was obtained, the configured short
    code and the environment ('development' when [NODE_ENV] is unset or
    empty), exactly when [getAccessToken] returns; otherwise it answers 500
    with the error 'Failed to authenticate with M-Pesa API'.  The cache is
    left as [getAccessToken] leaves it. *)
Theorem getStatus_reports_token_availability :
  forall (o : oracle) (this : MpesaService) (tr : trace)
         (nodeEnv shortCode : option string),
    let token := exec o Service.getAccessToken this tr in
    let call := exec o (Handlers.getStatus nodeEnv shortCode) this tr in
    call.1.2 = token.1.2 /\
    posted call.2 = posted tr /\
    match token.1.1 with
    | Ok _ =>
        call.1.1 = Ok (Handlers.Answer 200
                         {| Handlers.status_timestamp := clock o token.2;
                            Handlers.status_shortCode := shortCode;
                            Handlers.environment := or_else nodeEnv "development" |}) /\
        call.2 = EvMoment (clock o token.2) :: token.2
    | Throw _ =>
        call.1.1 = Ok (Handlers.Refuse 500 "M-Pesa service is not operational"
                         (Some "Failed to authenticate with M-Pesa API")) /\
        call.2 = token.2
    end.
Proof.
  intros o this tr nodeEnv shortCode. cbv zeta.
  pose proof (DispatchFacts.getAccessToken_posted o this tr) as Hp.
  unfold Handlers.getStatus. exec_step.
  destruct (exec o Service.getAccessToken this tr) as [[[token|e] this1] tr1] eqn:Ht;
    cbn [fst snd] in Hp |- *; exec_step.
  - repeat split; try reflexivity. exact Hp.
  - apply PushFacts.getAccessToken_throws in Ht as [-> ->].
    repeat split; try reflexivity. exact Hp.
Qed.

(** X19.  In production the test route answers 403 without any effect.  In
    every other environment ([NODE_ENV] unset included) it runs the
    dispatcher for 1 KES to 254712345678 with the reference TEST001: any
    payload posted carries these values, and the answer is 200 with the data
    of the dispatcher's result, or 500 with the message of its error. *)
Theorem testPayment_pushes_one_shilling_outside_production :
  forall (fmt : Z -> string) (o : oracle) (this : MpesaService) (tr : trace)
         (nodeEnv : option string),
    let call := exec o (Handlers.testPayment fmt nodeEnv) this tr in
    let service :=
      exec o (Service.initiateSTKPush fmt "254712345678" (Num.of_Z 1)
                (Some "TEST001") (Some "Test payment")) this tr in
    if is_string nodeEnv "production" then
      call = (Ok (Handlers.Refuse 403 "Test endpoint not available in production"
                    None), this, tr)
    else
      call.1.2 = service.1.2 /\ call.2 = service.2 /\
      call.1.1 = Ok match service.1.1 with
                    | Ok result =>
                        Handlers.Answer 200
                          {| Handlers.test_message :=
                               "Test payment initiated successfully";
                             Handlers.test_data := push_data_of result;
                             Handlers.test_sent := Handlers.testData |}
                    | Throw e => Handlers.Refuse 500 (message_of e) None
                    end /\
      (posted call.2 = posted tr \/
       exists payload,
         posted call.2 = payload :: posted tr /\
         field payload "PhoneNumber" = VStr "254712345678" /\
         field payload "Amount" = VNum (Num.of_Z 1) /\
         field payload "AccountReference" = VStr "TEST001").
Proof.
  intros fmt o this tr nodeEnv. cbv zeta.
  unfold Handlers.testPayment. exec_step.
  destruct (is_string nodeEnv "production"); exec_step; [reflexivity|].
  pose proof (PushOutcome.outcome_shape fmt o this tr "254712345678" (Num.of_Z 1)
                (Some "TEST001") (Some "Test payment")) as Hshape.
  pose proof (PushFacts.initiateSTKPush_valid fmt o this tr "254712345678"
                (Num.of_Z 1) (Some "TEST001") (Some "Test payment")
                "254712345678" eq_refl eq_refl) as Hrun.
  pose proof (DispatchFacts.getAccessToken_posted o this tr) as Hp.
  assert (Hposted :
    let tr' := (exec o (Service.initiateSTKPush fmt "254712345678" (Num.of_Z 1)
                          (Some "TEST001") (Some "Test payment")) this tr).2 in
    posted tr' = posted tr \/
    exists payload,
      posted tr' = payload :: posted tr /\
      field payload "PhoneNumber" = VStr "254712345678" /\
      field payload "Amount" = VNum (Num.of_Z 1) /\
      field payload "AccountReference" = VStr "TEST001").
  { cbv zeta.
    destruct (exec o Service.getAccessToken this tr) as [[[token|e] this1] tr1];
      cbn [snd] in Hp.
    - destruct Hrun as (payload & Hrun & ->). cbv zeta in Hrun. rewrite Hrun.
      right. eexists. cbn [snd posted]. rewrite Hp.
      split; [reflexivity|]. repeat split; reflexivity.
    - rewrite Hrun. left. exact Hp. }
  cbv zeta in Hposted.
  destruct (exec o (Service.initiateSTKPush fmt "254712345678" (Num.of_Z 1)
                      (Some "TEST001") (Some "Test payment")) this tr)
    as [[[result|e] this1] tr1]; cbn [fst snd] in Hshape, Hposted |- *; exec_step.
  - repeat split; try reflexivity. exact Hposted.
  - destruct Hshape as (m & -> & Hm). destruct m as [|c m]; [now contradiction Hm|].
    repeat split; try reflexivity. exact Hposted.
Qed.

(** ** The callback processor, continued *)

Module MetadataFacts.
Import Service.

Lemma payment_key_proto (name : string) :
  payment_key name = "__proto__" <-> name = "__proto__".
Proof.
  unfold payment_key.
  destruct (String.eqb name "Amount") eqn:H1;
    [apply String.eqb_eq in H1 as ->; split; discriminate|].
  destruct (String.eqb name "MpesaReceiptNumber") eqn:H2;
    [apply String.eqb_eq in H2 as ->; split; discriminate|].
  destruct (String.eqb name "TransactionDate") eqn:H3;
    [apply String.eqb_eq in H3 as ->; split; discriminate|].
  destruct (String.eqb name "PhoneNumber") eqn:H4;
    [apply String.eqb_eq in H4 as ->; split; discriminate|].
  reflexivity.
Qed.

(** An assignment to a name other than [__proto__] creates or updates an own
    property and leaves the prototype alone. *)
Lemma setProp_plain (pd : Js.object) (key : string) (v : value) :
  key <> "__proto__" ->
  Js.setProp pd key v
  = {| Js.own := <[key := v]> (Js.own pd); Js.proto := Js.proto pd |}.
Proof.
  intros Hne. unfold Js.setProp.
  apply String.eqb_neq in Hne. now rewrite Hne.
Qed.

(** An assignment to [__proto__] leaves every other own property alone. *)
Lemma setProp_proto_frame (pd : Js.object) (v : value) (k : string) :
  k <> "__proto__" ->
  Js.own (Js.setProp pd "__proto__" v) !! k = Js.own pd !! k.
Proof.
  intros Hne. unfold Js.setProp.
  destruct (String.eqb "__proto__" "__proto__" && Js.reaches_accessor pd).
  - now destruct v.
  - cbn [Js.own]. apply lookup_insert_ne. congruence.
Qed.

Section Fold.
Variable NumberToString : number -> string.

Lemma fold_item_entry (pd : Js.object) (name : string) (v : value) :
  fold_item NumberToString pd (metadata_item (name, v))
  = Ok (Js.setProp pd (payment_key name) v).
Proof.
  unfold fold_item, metadata_item, payment_key. cbn.
  destruct (String.eqb name "Amount"); [reflexivity|].
  destruct (String.eqb name "MpesaReceiptNumber"); [reflexivity|].
  destruct (String.eqb name "TransactionDate"); [reflexivity|].
  destruct (String.eqb name "PhoneNumber"); reflexivity.
Qed.

Lemma fold_items_entries (entries : list (string * value)) :
  forall pd : Js.object,
  exists pd',
    fold_items NumberToString pd (map metadata_item entries) = Ok pd' /\
    (forall k, k <> "__proto__" ->
       Js.own pd' !! k =
         match last_value k entries with
         | Some v => Some v
         | None => Js.own pd !! k
         end) /\
    ((forall v, ~ In ("__proto__", v) entries) ->
     Js.own pd' !! "__proto__" = Js.own pd !! "__proto__" /\
     Js.proto pd' = Js.proto pd).
Proof.
  induction entries as [|[name v] rest IH]; intros pd.
  - exists pd. split; [reflexivity|]. split; [now intros k _ | now intros _].
  - cbn [map fold_items]. rewrite fold_item_entry.
    destruct (IH (Js.setProp pd (payment_key name) v))
      as (pd' & Hfold & Hlook & Hproto).
    exists pd'. split; [exact Hfold|]. split.
    + intros k Hk. rewrite (Hlook k Hk). cbn [last_value].
      destruct (last_value k rest) as [x|]; [reflexivity|].
      destruct (String.eqb (payment_key name) k) eqn:Hkey.
      * apply String.eqb_eq in Hkey. subst k.
        rewrite (setProp_plain pd _ v Hk). cbn [Js.own]. apply lookup_insert_eq.
      * apply String.eqb_neq in Hkey.
        destruct (decide (payment_key name = "__proto__")) as [Hp|Hp].
        -- rewrite Hp. now apply setProp_proto_frame.
        -- rewrite (setProp_plain pd _ v Hp). cbn [Js.own].
           now apply lookup_insert_ne.
    + intros Hnone.
      assert (Hname : payment_key name <> "__proto__").
      { intros Hp. apply (proj1 (payment_key_proto name)) in Hp.
        apply (Hnone v). left. now rewrite Hp. }
      destruct Hproto as [Ho Hp].
      { intros v' Hin. apply (Hnone v'). now right. }
      rewrite Ho, Hp, (setProp_plain pd _ v Hname). cbn [Js.own Js.proto].
      split; [|reflexivity]. apply lookup_insert_ne. exact Hname.
Qed.

End Fold.

(** Two items named [__proto__]: the first, whose value is null, takes the
    prototype away; the second then creates an own property. *)
Example proto_twice (nts : number -> string) :
  fold_items nts Js.empty_object
    (map metadata_item [("__proto__", VNull); ("__proto__", VNum (Num.of_Z 5))])
  = Ok {| Js.own := <["__proto__" := VNum (Num.of_Z 5)]> ∅;
          Js.proto := Js.NullPrototype |}.
Proof. reflexivity. Qed.

(** An item named [__proto__] whose value is a number leaves the object as it
    is, and one whose value is an object makes it the prototype. *)
Example proto_setter (nts : number -> string) :
  fold_items nts Js.empty_object
    (map metadata_item [("__proto__", VNum (Num.of_Z 5))]) = Ok Js.empty_object /\
  fold_items nts Js.empty_object
    (map metadata_item [("__proto__", VObj [("amount", VStr "x")])])
  = Ok {| Js.own := ∅; Js.proto := Js.ValuePrototype (VObj [("amount", VStr "x")]) |}.
Proof. split; reflexivity. Qed.

End MetadataFacts.

(** X20.  For a notification whose result code is 0 and whose metadata is a
    list of [{Name, Value}] items with string names, [processCallback]
    returns a SUCCESS record after one reading of the clock, and its
    [paymentData] holds, as own property under each name other than
    [__proto__], the [Value] of the last item stored there: [Amount],
    [MpesaReceiptNumber], [TransactionDate] and [PhoneNumber] are stored
    under [amount], [mpesaReceiptNumber], [transactionDate] and
    [phoneNumber], every other name under itself.  When no item is named
    [__proto__], the object has no own property of that name and keeps
    [Object.prototype] as its prototype. *)
Theorem processCallback_payment_data :
  forall (NumberToString : number -> string) (o : oracle) (this : MpesaService)
         (tr : trace) (callbackData stk : value)
         (mprops : list (string * value)) (entries : list (string * value)),
    stkCallback_of callbackData = Some stk ->
    Js.strict_eq_zero (field stk "ResultCode") = true ->
    field stk "CallbackMetadata" = VObj mprops ->
    Js.assoc "Item" mprops = Some (VArr (map metadata_item entries)) ->
    exists (result : callback_result) (pd : Js.object),
      exec o (Service.processCallback NumberToString callbackData) this tr
      = (Ok result, this, EvMoment (clock o tr) :: tr) /\
      status result = "SUCCESS" /\
      paymentData result = Some pd /\
      (forall k, k <> "__proto__" -> Js.own pd !! k = last_value k entries) /\
      ((forall v, ~ In ("__proto__", v) entries) ->
       Js.own pd !! "__proto__" = None /\ Js.proto pd = Js.ObjectPrototype).
Proof.
  intros nts o this tr callbackData stk mprops entries Hs Hz Hm Hi.
  assert (Hn : Js.nullish stk = false).
  { destruct stk; try reflexivity; discriminate Hz. }
  rewrite (ProcessFacts.processCallback_shape nts o this tr callbackData stk Hs Hn).
  cbv zeta. rewrite Hz.
  unfold metadata_of. rewrite (CallbackFacts.getProp_field stk _ Hn), Hm.
  cbn [mbind outcome_bind Js.getProp]. rewrite Hi. cbn [Service.forEach_items].
  destruct (MetadataFacts.fold_items_entries nts entries Js.empty_object)
    as (pd & -> & Hlook & Hproto).
  eexists _, pd. split; [reflexivity|]. split; [reflexivity|].
  split; [reflexivity|]. split.
  - intros k Hk. rewrite (Hlook k Hk). cbn [Js.empty_object Js.own].
    rewrite lookup_empty. now destruct (last_value k entries).
  - intros Hnone. destruct (Hproto Hnone) as [Ho Hp]. rewrite Ho, Hp.
    split; reflexivity.
Qed.

Lemma processCallback_payment_data_witness :
  exists (result : callback_result) (pd : Js.object),
    exec Sample.provider
      (Service.processCallback (fun _ => "1") Sample.paid) Sample.service []
    = (Ok result, Sample.service, [EvMoment 5000]) /\
    status result = "SUCCESS" /\
    paymentData result = Some pd /\
    (forall k, k <> "__proto__" ->
       Js.own pd !! k
       = last_value k [("Amount", VNum (Num.of_Z 1));
                       ("MpesaReceiptNumber", VStr "NLJ7RT61SV")]) /\
    ((forall v, ~ In ("__proto__", v)
                    [("Amount", VNum (Num.of_Z 1));
                     ("MpesaReceiptNumber", VStr "NLJ7RT61SV")]) ->
     Js.own pd !! "__proto__" = None /\ Js.proto pd = Js.ObjectPrototype).
Proof.
  apply (processCallback_payment_data (fun _ => "1") Sample.provider
           Sample.service [] Sample.paid _ _
           [("Amount", VNum (Num.of_Z 1)); ("MpesaReceiptNumber", VStr "NLJ7RT61SV")]
           eq_refl eq_refl eq_refl eq_refl).
Defined.

(** X21.  The callback route never touches the service: for every request
    body the token cache is unchanged, no request goes to the provider, and
    the clock is read once when the body has the nested shape and not at all
    otherwise. *)
Theorem handleCallback_leaves_the_service_alone :
  forall (NumberToString : number -> string) (o : oracle) (this : MpesaService)
         (tr : trace) (req_body : value),
    let call := exec o (Controller.handleCallback NumberToString req_body) this tr in
    call.1.2 = this /\
    call.2 = (if has_shape req_body then EvMoment (clock o tr) :: tr else tr) /\
    posted call.2 = posted tr /\
    network_gets call.2 = network_gets tr.
Proof.
  intros nts o this tr req_body. cbv zeta.
  unfold Controller.handleCallback. exec_step.
  destruct (has_shape req_body) eqn:Hshape.
  - unfold has_shape in Hshape.
    destruct (stkCallback_of req_body) as [stk|] eqn:Hs; [|discriminate Hshape].
    apply negb_true_iff in Hshape.
    rewrite (ProcessFacts.processCallback_shape nts o this tr req_body stk Hs Hshape).
    cbv zeta.
    destruct (Js.strict_eq_zero (field stk "ResultCode"));
      [destruct (metadata_of nts stk)|]; exec_step; repeat split.
  - rewrite (ProcessFacts.processCallback_no_shape nts o this tr req_body Hshape).
    exec_step. repeat split.
Qed.

(** ** The other middleware *)

Module GuardFacts.
Import Guards.

Lemma is_string_iff (a : option string) (s : string) :
  is_string a s = true <-> a = Some s.
Proof.
  destruct a as [x|]; cbn; [|split; discriminate].
  rewrite String.eqb_eq. split; congruence.
Qed.

Lemma validation_errors_nil (requiredFields : list string) (req : request) :
  validation_errors requiredFields req = [] <->
  (forall field, In field requiredFields -> field_truthy (body req) field = true) /\
  (method req = "POST" -> is_json req = true).
Proof.
  unfold validation_errors.
  assert (Hflat :
    flat_map (fun field =>
                if negb (field_truthy (body req) field)
                then [field +:+ " is required"] else []) requiredFields = [] <->
    forall field, In field requiredFields -> field_truthy (body req) field = true).
  { induction requiredFields as [|f rest IH]; cbn [flat_map].
    - split; [intros _ field [] | reflexivity].
    - destruct (field_truthy (body req) f) eqn:Hf; cbn [negb app].
      + rewrite IH. split.
        * intros H field [<-|Hin]; [exact Hf | now apply H].
        * intros H field Hin. apply H. now right.
      + split; [discriminate|]. intros H.
        specialize (H f (or_introl eq_refl)). congruence. }
  destruct (String.eqb (method req) "POST") eqn:Hm; cbn [andb].
  - apply String.eqb_eq in Hm. destruct (is_json req); cbn [negb].
    + rewrite Hflat. split; [intros H; split; [exact H | reflexivity] | now intros [H _]].
    + split.
      * intros H. apply app_eq_nil in H as [_ H]. discriminate H.
      * intros [_ H]. specialize (H Hm). discriminate H.
  - apply String.eqb_neq in Hm. rewrite Hflat.
    split; [intros H; split; [exact H | now intros Hp] | now intros [H _]].
Qed.

End GuardFacts.

(** X22.  [apiKeyAuth] lets a request through exactly when no key is
    configured ([API_KEY] unset or empty) and the environment is not
    production, or the header [x-api-key] is a non-empty string equal to the
    configured key; every other request is answered 401.  In production
    without a configured key no request passes. *)
Theorem apiKeyAuth_pass_iff :
  forall apiKey expectedApiKey nodeEnv : option string,
    (Guards.apiKeyAuth apiKey expectedApiKey nodeEnv = Guards.Pass <->
     ((expectedApiKey = None \/ expectedApiKey = Some EmptyString) /\
      nodeEnv <> Some "production") \/
     (exists key, key <> EmptyString /\ apiKey = Some key /\ expectedApiKey = Some key)) /\
    (Guards.apiKeyAuth apiKey expectedApiKey nodeEnv = Guards.Pass \/
     Guards.apiKeyAuth apiKey expectedApiKey nodeEnv
     = Guards.Deny 401 "Invalid or missing API key" None).
Proof.
  intros apiKey expectedApiKey nodeEnv. unfold Guards.apiKeyAuth.
  destruct (is_string nodeEnv "production") eqn:Hprod.
  - apply GuardFacts.is_string_iff in Hprod as ->.
    rewrite andb_false_r.
    destruct apiKey as [[|c key]|], expectedApiKey as [[|c' key']|];
      cbn [or_else Str.truthy negb orb];
      try (split; [split; [discriminate | intros [[_ H]|(k & Hk & [= <-] & [= ])];
                                          congruence]
                  | now right]).
    + (* both keys non-empty *)
      destruct (bool_decide (Some (String c key) = Some (String c' key'))) eqn:Hd;
        cbn [negb].
      * apply bool_decide_eq_true in Hd. injection Hd as <- <-.
        split; [|now left]. split; [intros _|reflexivity].
        right. exists (String c key). split; [discriminate | now split].
      * apply bool_decide_eq_false in Hd.
        split; [|now right]. split; [discriminate|].
        intros [[[H|H] _]|(k & _ & [= <-] & H)]; try discriminate H.
        now contradiction Hd.
  - assert (Hnp : nodeEnv <> Some "production").
    { intros H. apply GuardFacts.is_string_iff in H. congruence. }
    rewrite andb_true_r.
    destruct expectedApiKey as [[|c' key']|]; cbn [or_else Str.truthy negb].
    + split; [|now left]. split; [intros _|reflexivity]. left. split; [now right|exact Hnp].
    + destruct apiKey as [[|c key]|]; cbn [or_else Str.truthy negb orb].
      * split; [|now right]. split; [discriminate|].
        intros [[[H|H] _]|(k & Hk & [= <-] & _)]; try discriminate H.
        now contradiction Hk.
      * destruct (bool_decide (Some (String c key) = Some (String c' key'))) eqn:Hd;
          cbn [negb].
        -- apply bool_decide_eq_true in Hd. injection Hd as <- <-.
           split; [|now left]. split; [intros _|reflexivity].
           right. exists (String c key). split; [discriminate | now split].
        -- apply bool_decide_eq_false in Hd.
           split; [|now right]. split; [discriminate|].
           intros [[[H|H] _]|(k & _ & [= <-] & H)]; try discriminate H.
           now contradiction Hd.
      * split; [|now right]. split; [discriminate|].
        intros [[[H|H] _]|(k & _ & H & _)]; discriminate H.
    + split; [|now left]. split; [intros _|reflexivity]. left. split; [now left|exact Hnp].
Qed.

(** X23.  In development [validateMpesaIP] lets every request through.
    Elsewhere it lets a request through exactly when the client address
    begins with the ten characters 196.201.21, the first ten characters of
    both listed ranges; it answers 403 for any other address, and raises a
    TypeError when the request carries no address. *)
Theorem validateMpesaIP_accepts_by_prefix :
  forall (nodeEnv : option string) (req : Middleware.request),
    (nodeEnv = Some "development" ->
     Guards.validateMpesaIP nodeEnv req = Ok Guards.Pass) /\
    (nodeEnv <> Some "development" ->
     match Middleware.clientIp req with
     | Some address =>
         Guards.validateMpesaIP nodeEnv req
         = Ok (if Str.startsWith address "196.201.21" then Guards.Pass
               else Guards.Deny 403 "Unauthorized IP address" None)
     | None => Guards.validateMpesaIP nodeEnv req = Throw TypeError
     end).
Proof.
  intros nodeEnv req. unfold Guards.validateMpesaIP. split.
  - intros ->. reflexivity.
  - intros Hd. destruct (is_string nodeEnv "development") eqn:H.
    { apply GuardFacts.is_string_iff in H. congruence. }
    destruct (Middleware.clientIp req) as [address|]; [|reflexivity].
    change (existsb _ Guards.allowedIpRanges)
      with (Str.startsWith address "196.201.21"
            || (Str.startsWith address "196.201.21" || false)).
    now destruct (Str.startsWith address "196.201.21").
Qed.

(** X24.  The validator of [validateRequest(requiredFields)] lets a request
    through exactly when [body[field]] is truthy for every required field
    and the request is not a POST without a JSON content type; so a field
    holding 0, the empty string, false or null counts as missing.  Any other
    request is answered 400 'Validation failed' with a list of errors that
    names every missing field and, for such a POST, the content type. *)
Theorem validateRequest_pass_iff :
  forall (requiredFields : list string) (req : Guards.request),
    (Guards.validateRequest requiredFields req = Guards.Pass <->
     (forall field, In field requiredFields ->
                    Guards.field_truthy (Guards.body req) field = true) /\
     (Guards.method req = "POST" -> Guards.is_json req = true)) /\
    (Guards.validateRequest requiredFields req = Guards.Pass \/
     exists errors,
       Guards.validateRequest requiredFields req
       = Guards.Deny 400 "Validation failed" (Some errors) /\
       (forall field, In field requiredFields ->
                      Guards.field_truthy (Guards.body req) field = false ->
                      In (field +:+ " is required") errors) /\
       (Guards.method req = "POST" -> Guards.is_json req = false ->
        In "Content-Type must be application/json" errors)).
Proof.
  intros requiredFields req. unfold Guards.validateRequest. cbv zeta.
  rewrite <- GuardFacts.validation_errors_nil.
  destruct (Guards.validation_errors requiredFields req) as [|e errors] eqn:He.
  - cbn. split; [now split | now left].
  - cbn [length Nat.ltb Nat.leb]. split; [split; discriminate|]. right.
    exists (e :: errors). split; [reflexivity|]. rewrite <- He.
    unfold Guards.validation_errors. split.
    + intros field Hin Hf.
      assert (Hflat : In (field +:+ " is required")
                (flat_map (fun field =>
                     if negb (Guards.field_truthy (Guards.body req) field)
                     then [field +:+ " is required"] else []) requiredFields)).
      { apply in_flat_map. exists field. split; [exact Hin|].
        rewrite Hf. now left. }
      destruct (_ && _); [apply in_or_app; now left | exact Hflat].
    + intros Hm Hj. rewrite Hm, Hj. cbn [String.eqb andb negb].
      change (String.eqb "POST" "POST") with true. cbn [andb].
      apply in_or_app. right. now left.
Qed.

(** ** The rate limiter over a sequence of requests *)

Module SweepFacts.
Import Middleware.

Lemma serve_cons (c w : Z) (req : request) (now : Z) (rnd : Q)
    (rest : list (request * Z * Q)) (store : gmap (option string) (list Z)) :
  serve c w ((req, now, rnd) :: rest) store
  = ((rateLimit c w req now rnd store).1
       :: (serve c w rest (rateLimit c w req now rnd store).2).1,
     (serve c w rest (rateLimit c w req now rnd store).2).2).
Proof.
  cbn [serve]. destruct (rateLimit c w req now rnd store) as [v store1].
  cbn [fst snd]. now destruct (serve c w rest store1).
Qed.

Lemma filter_filter_le (ws ws' : Z) (l : list Z) :
  ws <= ws' ->
  filter (fun t => ws' < t) (filter (fun t => ws < t) l)
  = filter (fun t => ws' < t) l.
Proof.
  intros Hle. induction l as [|x l IH]; [reflexivity|].
  rewrite !(filter_cons _ x).
  destruct (decide (ws < x)), (decide (ws' < x)); try lia.
  - rewrite filter_cons_True by assumption. now rewrite IH.
  - rewrite filter_cons_False by assumption. exact IH.
  - exact IH.
Qed.

Lemma rateLimit_within_capacity (c w : Z) (req : request) (now : Z) (rnd : Q)
    (store : gmap (option string) (list Z)) :
  within_capacity c store ->
  within_capacity c (rateLimit c w req now rnd store).2.
Proof.
  intros Hst.
  destruct (Z.le_gt_cases c
              (Z.of_nat (length (filter (fun t => now - w < t)
                                   (record_of store (clientIp req))))))
    as [Hrej|Hadm].
  - now rewrite (RateFacts.rateLimit_reject c w req now rnd store Hrej).
  - rewrite (RateFacts.rateLimit_admit c w req now rnd store Hadm). cbn [snd].
    assert (Hins : within_capacity c
              (<[clientIp req :=
                   filter (fun t => now - w < t) (record_of store (clientIp req))
                     ++ [now]]> store)).
    { intros client. destruct (decide (clientIp req = client)) as [<-|Hne].
      - rewrite RateFacts.record_of_insert, length_app. cbn [length]. lia.
      - rewrite (RateFacts.record_of_insert_ne _ _ _ _ Hne). apply Hst. }
    destruct (negb (Qle_bool (1 # 10) rnd)); [|exact Hins].
    intros client. rewrite RateFacts.cleanup_lookup.
    pose proof (length_filter (fun t => now - w < t)
                  (record_of
                     (<[clientIp req :=
                          filter (fun t => now - w < t)
                            (record_of store (clientIp req)) ++ [now]]> store)
                     client)) as Hl.
    specialize (Hins client). lia.
Qed.

(** What decides the verdict is the part of the client's record after the
    window start; two stores that agree there give the same verdict and
    agree there afterwards, whatever the sweeps do. *)
Lemma rateLimit_agree (c w : Z) (req : request) (now : Z) (r1 r2 : Q) (ws : Z)
    (s1 s2 : gmap (option string) (list Z)) :
  ws <= now - w ->
  agree_after ws s1 s2 ->
  (rateLimit c w req now r1 s1).1 = (rateLimit c w req now r2 s2).1 /\
  agree_after (now - w) (rateLimit c w req now r1 s1).2
                        (rateLimit c w req now r2 s2).2.
Proof.
  intros Hle Hag.
  assert (Hag' : agree_after (now - w) s1 s2).
  { intros client.
    rewrite <- (filter_filter_le ws (now - w) (record_of s1 client) Hle).
    rewrite <- (filter_filter_le ws (now - w) (record_of s2 client) Hle).
    now rewrite Hag. }
  pose proof (Hag' (clientIp req)) as Hk.
  destruct (Z.le_gt_cases c
              (Z.of_nat (length (filter (fun t => now - w < t)
                                   (record_of s1 (clientIp req))))))
    as [Hrej|Hadm].
  - rewrite (RateFacts.rateLimit_reject c w req now r1 s1 Hrej).
    rewrite Hk in Hrej.
    rewrite (RateFacts.rateLimit_reject c w req now r2 s2 Hrej).
    cbn [fst snd]. rewrite Hk. split; [reflexivity | exact Hag'].
  - rewrite (RateFacts.rateLimit_admit c w req now r1 s1 Hadm).
    rewrite Hk in Hadm.
    rewrite (RateFacts.rateLimit_admit c w req now r2 s2 Hadm).
    cbn [fst snd]. split; [reflexivity|].
    assert (Hins : agree_after (now - w)
              (<[clientIp req :=
                   filter (fun t => now - w < t) (record_of s1 (clientIp req))
                     ++ [now]]> s1)
              (<[clientIp req :=
                   filter (fun t => now - w < t) (record_of s2 (clientIp req))
                     ++ [now]]> s2)).
    { intros client. destruct (decide (clientIp req = client)) as [<-|Hne].
      - rewrite !RateFacts.record_of_insert. now rewrite Hk.
      - rewrite !(RateFacts.record_of_insert_ne _ _ _ _ Hne). apply Hag'. }
    intros client. specialize (Hins client).
    destruct (negb (Qle_bool (1 # 10) r1)), (negb (Qle_bool (1 # 10) r2));
      rewrite ?RateFacts.cleanup_lookup, ?filter_filter_le by lia; exact Hins.
Qed.

End SweepFacts.

(** X25.  The limiter never stores more than [maxRequests] timestamps for a
    client: if no record of the store exceeds that length, none does after
    any sequence of requests, whatever the clock and the random source
    give. *)
Theorem serve_within_capacity :
  forall (c w : Z) (requests : list (Middleware.request * Z * Q))
         (store : gmap (option string) (list Z)),
    within_capacity c store ->
    within_capacity c (serve c w requests store).2.
Proof.
  intros c w requests. induction requests as [|[[req now] rnd] rest IH];
    intros store Hst; [exact Hst|].
  rewrite SweepFacts.serve_cons. cbn [snd].
  apply IH, SweepFacts.rateLimit_within_capacity, Hst.
Qed.

Lemma serve_within_capacity_witness :
  within_capacity 3 ∅ /\ within_capacity 3 (serve 3 1000 Sample.burst ∅).2.
Proof.
  assert (H : within_capacity 3 ∅).
  { intros client. unfold record_of. rewrite lookup_empty. cbn. lia. }
  split; [exact H | apply (serve_within_capacity 3 1000 Sample.burst ∅ H)].
Defined.

(** X26.  Under a clock that does not run backwards the limiter keeps every
    record in order of arrival, with no timestamp later than the clock: the
    property holds after any sequence of requests if it held before.  The
    head of a record is then its oldest timestamp, which is what the
    estimate [remainingTime] reads. *)
Theorem serve_chronological :
  forall (c w : Z) (requests : list (Middleware.request * Z * Q))
         (store : gmap (option string) (list Z)) (start finish : Z),
    store_chronological start store ->
    StronglySorted Z.le (start :: map arrival requests ++ [finish]) ->
    store_chronological finish (serve c w requests store).2.
Proof.
  intros c w requests. induction requests as [|[[req now] rnd] rest IH];
    intros store start finish Hst Hs.
  - cbn in Hs |- *. apply StronglySorted_inv in Hs as [_ Hs].
    apply Forall_inv in Hs. intros client.
    eapply RateFacts.chronological_weaken; [exact Hs | apply Hst].
  - rewrite SweepFacts.serve_cons. cbn [snd].
    cbn [map app] in Hs. apply StronglySorted_inv in Hs as [Hs Hh].
    apply Forall_inv in Hh. change (arrival (req, now, rnd)) with now in *.
    apply (IH _ now); [|exact Hs].
    now apply (RateFacts.rateLimit_chronological c w req start now rnd store).
Qed.

Lemma serve_chronological_witness :
  store_chronological 0 ∅ /\
  StronglySorted Z.le (0 :: map arrival Sample.burst ++ [5000]) /\
  store_chronological 5000 (serve 3 1000 Sample.burst ∅).2.
Proof.
  assert (Hs : StronglySorted Z.le (0 :: map arrival Sample.burst ++ [5000])).
  { cbn. repeat (constructor; [|repeat constructor; lia]). constructor. }
  split; [apply RateFacts.empty_chronological|]. split; [exact Hs|].
  apply (serve_chronological 3 1000 Sample.burst ∅ 0 5000
           (RateFacts.empty_chronological 0) Hs).
Defined.

(** X27.  The random sweep is invisible: under a clock that does not run
    backwards, two runs of the limiter on the same requests at the same
    instants from the same store give the same verdicts, whatever the random
    source gives in each. *)
Theorem serve_verdicts_ignore_sweeps :
  forall (c w : Z) (requests requests' : list (Middleware.request * Z * Q))
         (store : gmap (option string) (list Z)),
    map fst requests = map fst requests' ->
    StronglySorted Z.le (map arrival requests) ->
    (serve c w requests store).1 = (serve c w requests' store).1.
Proof.
  intros c w requests requests' store Hsame Hs.
  assert (Hgen : forall (reqs reqs' : list (Middleware.request * Z * Q))
                        (ws : Z) (s1 s2 : gmap (option string) (list Z)),
             map fst reqs = map fst reqs' ->
             StronglySorted Z.le (map arrival reqs) ->
             Forall (fun x => ws <= arrival x - w) reqs ->
             agree_after ws s1 s2 ->
             (serve c w reqs s1).1 = (serve c w reqs' s2).1).
  { clear. induction reqs as [|[[req now] r1] rest IH];
      intros [|[[req' now'] r2] rest'] ws s1 s2 Hsame Hs Hlow Hag;
      try discriminate Hsame; [reflexivity|].
    cbn [map fst] in Hsame. injection Hsame as -> -> Hrest.
    rewrite !SweepFacts.serve_cons. cbn [fst].
    apply Forall_cons in Hlow as [Hnow Hlow]. cbn [arrival fst snd] in Hnow.
    cbn [map] in Hs. apply StronglySorted_inv in Hs as [Hs Hh].
    destruct (SweepFacts.rateLimit_agree c w req' now' r1 r2 ws s1 s2 Hnow Hag)
      as [Hv Hag'].
    rewrite Hv. f_equal.
    apply (IH rest' (now' - w)); [exact Hrest | exact Hs | | exact Hag'].
    rewrite Forall_map in Hh. eapply Forall_impl; [exact Hh|].
    intros x Hx. cbn in Hx. change (arrival (req', now', r1)) with now' in Hx. lia. }
  destruct requests as [|[[req now] r1] rest].
  - destruct requests'; [reflexivity | discriminate Hsame].
  - apply (Hgen _ _ (now - w)); [exact Hsame | exact Hs | | intros client; reflexivity].
    cbn [map] in Hs. apply StronglySorted_inv in Hs as [_ Hh].
    constructor; [cbn; lia|].
    rewrite Forall_map in Hh. eapply Forall_impl; [exact Hh|].
    intros x Hx. cbn in Hx. change (arrival (req, now, r1)) with now in Hx. lia.
Qed.

Lemma serve_verdicts_ignore_sweeps_witness :
  map fst Sample.burst = map fst (map (fun x => (x.1, 0%Q)) Sample.burst) /\
  StronglySorted Z.le (map arrival Sample.burst) /\
  (serve 3 1000 Sample.burst ∅).1
  = (serve 3 1000 (map (fun x => (x.1, 0%Q)) Sample.burst) ∅).1.
Proof.
  assert (Hs : StronglySorted Z.le (map arrival Sample.burst)).
  { cbn. repeat (constructor; [|repeat constructor; lia]). constructor. }
  split; [reflexivity|]. split; [exact Hs|].
  apply (serve_verdicts_ignore_sweeps 3 1000 Sample.burst
           (map (fun x => (x.1, 0%Q)) Sample.burst) ∅ eq_refl Hs).
Defined.

Module CleanupFacts.
Import Middleware.

Lemma cleanup_lookup_Some (ws : Z) (store : gmap (option string) (list Z))
    (client : option string) :
  cleanupRateLimitStore ws store !! client
  = match store !! client with
    | Some l0 =>
        match filter (fun t => ws < t) l0 with
        | [] => None
        | kept => Some kept
        end
    | None => None
    end.
Proof.
  unfold cleanupRateLimitStore. rewrite lookup_omap.
  destruct (store !! client) as [l0|]; [|reflexivity]. cbn.
  now destruct (filter (fun t => ws < t) l0).
Qed.

End CleanupFacts.

(** X28.  After a sweep the store holds a record for a client exactly when
    the client had one with a timestamp after [windowStart]; the record is
    then the one before with the timestamps at or before [windowStart]
    removed, and it is never empty. *)
Theorem cleanupRateLimitStore_postcondition :
  forall (windowStart : Z) (store : gmap (option string) (list Z))
         (client : option string) (record : list Z),
    Middleware.cleanupRateLimitStore windowStart store !! client = Some record <->
    record <> [] /\
    exists stored,
      store !! client = Some stored /\
      record = filter (fun t => windowStart < t) stored.
Proof.
  intros ws store client record. rewrite CleanupFacts.cleanup_lookup_Some. split.
  - destruct (store !! client) as [l0|]; [|discriminate].
    destruct (filter (fun t => ws < t) l0) as [|t kept] eqn:Hk; [discriminate|].
    intros [= <-]. split; [discriminate|]. exists l0. now rewrite Hk.
  - intros (Hne & stored & -> & ->).
    now destruct (filter (fun t => ws < t) stored).
Qed.

(** X29.  A sweep followed by a sweep with a later window start amounts to
    the later sweep alone; in particular a sweep is idempotent. *)
Theorem cleanupRateLimitStore_compose :
  forall (ws ws' : Z) (store : gmap (option string) (list Z)),
    ws <= ws' ->
    Middleware.cleanupRateLimitStore ws'
      (Middleware.cleanupRateLimitStore ws store)
    = Middleware.cleanupRateLimitStore ws' store.
Proof.
  intros ws ws' store Hle. apply map_eq. intros client.
  rewrite !CleanupFacts.cleanup_lookup_Some.
  destruct (store !! client) as [l0|]; [|reflexivity].
  pose proof (SweepFacts.filter_filter_le ws ws' l0 Hle) as Hf.
  destruct (filter (fun t => ws < t) l0) as [|t kept]; now rewrite <- Hf.
Qed.

Lemma cleanupRateLimitStore_compose_witness :
  100 <= 650 /\
  Middleware.cleanupRateLimitStore 650
    (Middleware.cleanupRateLimitStore 100 Sample.busy_store)
  = Middleware.cleanupRateLimitStore 650 Sample.busy_store.
Proof.
  split; [lia|].
  apply (cleanupRateLimitStore_compose 100 650 Sample.busy_store). lia.
Defined.
